(** * FSM storage backends of pyrogram_patch (kurigram-addons)

    Shallow embedding of the FSM storage subsystem:
    - [pyrogram_patch/fsm/base_storage.py]       : [StateData], the error taxonomy;
    - [pyrogram_patch/fsm/storages/memory_storage.py] : module [Memory];
    - [pyrogram_patch/fsm/storages/redis_storage.py]  : module [Redis];
    - [pyrogram_patch/fsm/storages/mongo_storage.py]  : module [Mongo];
    - [pyrogram_patch/patch_helper.py] ([create_key]) and
      [pyrogram_patch/fsm/context.py] ([FSMContext._get_key]) : module [Keys].

    Conventions.
    - Timestamps ([datetime]) and durations ([timedelta]) are [Z] counts of
      microseconds; [datetime.now(...)] is the argument [now] of the call.
    - A Python [str] is a Rocq [string] holding its UTF-8 bytes.
    - Every coroutine is a state transformer returning an [outcome]:
      a value, a raised exception, or [Hang] (an [await] that never
      resumes, e.g. acquiring an [asyncio.Lock] the same task holds). *)

From Stdlib Require Import ZArith Lia Ascii String.
From stdpp Require Import base gmap strings list.

Set Warnings "-register-all".

Open Scope Z_scope.

(* ------------------------------------------------------------------ *)
(** ** Python values *)

(** The values a handler can put in a state's [data] dict. *)
Inductive pyval :=
| PNone
| PBool (b : bool)
| PInt (z : Z)
| PStr (s : string)
| PList (l : list pyval)
| PDict (d : list (string * pyval)).

(** A [Dict[str, Any]], in insertion order. *)
Abbreviation dict := (list (string * pyval)).

(** Truthiness of an [Optional[timedelta]]: [None] and [timedelta(0)] are
    falsy ([if ttl:] in the source). *)
Definition td_truthy (t : option Z) : bool :=
  match t with
  | Some d => negb (d =? 0)
  | None => false
  end.

(* ------------------------------------------------------------------ *)
(** ** Serialisations used for the size check *)

Definition digit_char (n : Z) : ascii := ascii_of_nat (Z.to_nat (48 + n)).

Definition hex_char (n : Z) : ascii :=
  if n <? 10 then digit_char n else ascii_of_nat (Z.to_nat (87 + n)).

Fixpoint pos_digits (fuel : nat) (n : Z) (acc : string) : string :=
  match fuel with
  | O => acc
  | S f =>
      let acc' := String (digit_char (n mod 10)) acc in
      if n <? 10 then acc' else pos_digits f (n / 10) acc'
  end.

(** [str(z)] for an [int]. *)
Definition z_to_string (z : Z) : string :=
  if z <? 0 then String "-" (pos_digits (Z.to_nat (Z.log2_up (-z) + 1)) (-z) EmptyString)
  else pos_digits (Z.to_nat (Z.log2_up z + 1)) z EmptyString.

(** [n] as [w] lower-case hexadecimal digits. *)
Fixpoint hex_fixed (w : nat) (n : Z) (acc : string) : string :=
  match w with
  | O => acc
  | S w' => hex_fixed w' (n / 16) (String (hex_char (n mod 16)) acc)
  end.

Fixpoint join (sep : string) (l : list string) : string :=
  match l with
  | [] => EmptyString
  | [x] => x
  | x :: r => (x +:+ sep +:+ join sep r)%string
  end.

(** The double-quote character. *)
Definition dquote : ascii := ascii_of_nat 34.

Definition str1 (c : ascii) : string := String c EmptyString.

Definition has_char (c : ascii) (s : string) : bool :=
  existsb (fun d => bool_decide (d = c)) (list_ascii_of_string s).

(** UTF-8 decoding of the bytes of a (well-formed) [str] into code points. *)
Fixpoint utf8_decode (l : list Z) : list Z :=
  match l with
  | [] => []
  | b :: r =>
      if b <? 128 then b :: utf8_decode r
      else if b <? 224 then
        match r with
        | c1 :: r1 => ((b - 192) * 64 + (c1 - 128)) :: utf8_decode r1
        | [] => [b]
        end
      else if b <? 240 then
        match r with
        | c1 :: c2 :: r2 =>
            ((b - 224) * 4096 + (c1 - 128) * 64 + (c2 - 128)) :: utf8_decode r2
        | _ => [b]
        end
      else
        match r with
        | c1 :: c2 :: c3 :: r3 =>
            ((b - 240) * 262144 + (c1 - 128) * 4096 + (c2 - 128) * 64 + (c3 - 128))
              :: utf8_decode r3
        | _ => [b]
        end
  end.

(** UTF-8 encoding of one code point. *)
Definition utf8_encode (c : Z) : list Z :=
  if c <? 128 then [c]
  else if c <? 2048 then [192 + c / 64; 128 + c mod 64]
  else if c <? 65536 then [224 + c / 4096; 128 + (c / 64) mod 64; 128 + c mod 64]
  else [240 + c / 262144; 128 + (c / 4096) mod 64; 128 + (c / 64) mod 64; 128 + c mod 64].

Definition bytes_of (s : string) : list Z :=
  map (fun a => Z.of_nat (nat_of_ascii a)) (list_ascii_of_string s).

Definition string_of_bytes (l : list Z) : string :=
  string_of_list_ascii (map (fun b => ascii_of_nat (Z.to_nat b)) l).

(** The non-ASCII code points [str.isprintable] rejects (the Unicode
    categories Cc, Cf, Cs, Co, Cn, Zl, Zp and Zs), as ranges, in the
    Unicode 14.0 database of CPython 3.11. *)
Definition nonprintable_ranges : list (Z * Z) := [
  (128, 160); (173, 173); (888, 889); (896, 899); (907, 907); (909, 909); (930, 930);
  (1328, 1328); (1367, 1368); (1419, 1420); (1424, 1424); (1480, 1487); (1515, 1518);
  (1525, 1541); (1564, 1564); (1757, 1757); (1806, 1807); (1867, 1868); (1970, 1983);
  (2043, 2044); (2094, 2095); (2111, 2111); (2140, 2141); (2143, 2143); (2155, 2159);
  (2191, 2199); (2274, 2274); (2436, 2436); (2445, 2446); (2449, 2450); (2473, 2473);
  (2481, 2481); (2483, 2485); (2490, 2491); (2501, 2502); (2505, 2506); (2511, 2518);
  (2520, 2523); (2526, 2526); (2532, 2533); (2559, 2560); (2564, 2564); (2571, 2574);
  (2577, 2578); (2601, 2601); (2609, 2609); (2612, 2612); (2615, 2615); (2618, 2619);
  (2621, 2621); (2627, 2630); (2633, 2634); (2638, 2640); (2642, 2648); (2653, 2653);
  (2655, 2661); (2679, 2688); (2692, 2692); (2702, 2702); (2706, 2706); (2729, 2729);
  (2737, 2737); (2740, 2740); (2746, 2747); (2758, 2758); (2762, 2762); (2766, 2767);
  (2769, 2783); (2788, 2789); (2802, 2808); (2816, 2816); (2820, 2820); (2829, 2830);
  (2833, 2834); (2857, 2857); (2865, 2865); (2868, 2868); (2874, 2875); (2885, 2886);
  (2889, 2890); (2894, 2900); (2904, 2907); (2910, 2910); (2916, 2917); (2936, 2945);
  (2948, 2948); (2955, 2957); (2961, 2961); (2966, 2968); (2971, 2971); (2973, 2973);
  (2976, 2978); (2981, 2983); (2987, 2989); (3002, 3005); (3011, 3013); (3017, 3017);
  (3022, 3023); (3025, 3030); (3032, 3045); (3067, 3071); (3085, 3085); (3089, 3089);
  (3113, 3113); (3130, 3131); (3141, 3141); (3145, 3145); (3150, 3156); (3159, 3159);
  (3163, 3164); (3166, 3167); (3172, 3173); (3184, 3190); (3213, 3213); (3217, 3217);
  (3241, 3241); (3252, 3252); (3258, 3259); (3269, 3269); (3273, 3273); (3278, 3284);
  (3287, 3292); (3295, 3295); (3300, 3301); (3312, 3312); (3315, 3327); (3341, 3341);
  (3345, 3345); (3397, 3397); (3401, 3401); (3408, 3411); (3428, 3429); (3456, 3456);
  (3460, 3460); (3479, 3481); (3506, 3506); (3516, 3516); (3518, 3519); (3527, 3529);
  (3531, 3534); (3541, 3541); (3543, 3543); (3552, 3557); (3568, 3569); (3573, 3584);
  (3643, 3646); (3676, 3712); (3715, 3715); (3717, 3717); (3723, 3723); (3748, 3748);
  (3750, 3750); (3774, 3775); (3781, 3781); (3783, 3783); (3790, 3791); (3802, 3803);
  (3808, 3839); (3912, 3912); (3949, 3952); (3992, 3992); (4029, 4029); (4045, 4045);
  (4059, 4095); (4294, 4294); (4296, 4300); (4302, 4303); (4681, 4681); (4686, 4687);
  (4695, 4695); (4697, 4697); (4702, 4703); (4745, 4745); (4750, 4751); (4785, 4785);
  (4790, 4791); (4799, 4799); (4801, 4801); (4806, 4807); (4823, 4823); (4881, 4881);
  (4886, 4887); (4955, 4956); (4989, 4991); (5018, 5023); (5110, 5111); (5118, 5119);
  (5760, 5760); (5789, 5791); (5881, 5887); (5910, 5918); (5943, 5951); (5972, 5983);
  (5997, 5997); (6001, 6001); (6004, 6015); (6110, 6111); (6122, 6127); (6138, 6143);
  (6158, 6158); (6170, 6175); (6265, 6271); (6315, 6319); (6390, 6399); (6431, 6431);
  (6444, 6447); (6460, 6463); (6465, 6467); (6510, 6511); (6517, 6527); (6572, 6575);
  (6602, 6607); (6619, 6621); (6684, 6685); (6751, 6751); (6781, 6782); (6794, 6799);
  (6810, 6815); (6830, 6831); (6863, 6911); (6989, 6991); (7039, 7039); (7156, 7163);
  (7224, 7226); (7242, 7244); (7305, 7311); (7355, 7356); (7368, 7375); (7419, 7423);
  (7958, 7959); (7966, 7967); (8006, 8007); (8014, 8015); (8024, 8024); (8026, 8026);
  (8028, 8028); (8030, 8030); (8062, 8063); (8117, 8117); (8133, 8133); (8148, 8149);
  (8156, 8156); (8176, 8177); (8181, 8181); (8191, 8207); (8232, 8239); (8287, 8303);
  (8306, 8307); (8335, 8335); (8349, 8351); (8385, 8399); (8433, 8447); (8588, 8591);
  (9255, 9279); (9291, 9311); (11124, 11125); (11158, 11158); (11508, 11512); (11558, 11558);
  (11560, 11564); (11566, 11567); (11624, 11630); (11633, 11646); (11671, 11679);
  (11687, 11687); (11695, 11695); (11703, 11703); (11711, 11711); (11719, 11719);
  (11727, 11727); (11735, 11735); (11743, 11743); (11870, 11903); (11930, 11930);
  (12020, 12031); (12246, 12271); (12284, 12288); (12352, 12352); (12439, 12440);
  (12544, 12548); (12592, 12592); (12687, 12687); (12772, 12783); (12831, 12831);
  (42125, 42127); (42183, 42191); (42540, 42559); (42744, 42751); (42955, 42959);
  (42962, 42962); (42964, 42964); (42970, 42993); (43053, 43055); (43066, 43071);
  (43128, 43135); (43206, 43213); (43226, 43231); (43348, 43358); (43389, 43391);
  (43470, 43470); (43482, 43485); (43519, 43519); (43575, 43583); (43598, 43599);
  (43610, 43611); (43715, 43738); (43767, 43776); (43783, 43784); (43791, 43792);
  (43799, 43807); (43815, 43815); (43823, 43823); (43884, 43887); (44014, 44015);
  (44026, 44031); (55204, 55215); (55239, 55242); (55292, 63743); (64110, 64111);
  (64218, 64255); (64263, 64274); (64280, 64284); (64311, 64311); (64317, 64317);
  (64319, 64319); (64322, 64322); (64325, 64325); (64451, 64466); (64912, 64913);
  (64968, 64974); (64976, 65007); (65050, 65055); (65107, 65107); (65127, 65127);
  (65132, 65135); (65141, 65141); (65277, 65280); (65471, 65473); (65480, 65481);
  (65488, 65489); (65496, 65497); (65501, 65503); (65511, 65511); (65519, 65531);
  (65534, 65535); (65548, 65548); (65575, 65575); (65595, 65595); (65598, 65598);
  (65614, 65615); (65630, 65663); (65787, 65791); (65795, 65798); (65844, 65846);
  (65935, 65935); (65949, 65951); (65953, 65999); (66046, 66175); (66205, 66207);
  (66257, 66271); (66300, 66303); (66340, 66348); (66379, 66383); (66427, 66431);
  (66462, 66462); (66500, 66503); (66518, 66559); (66718, 66719); (66730, 66735);
  (66772, 66775); (66812, 66815); (66856, 66863); (66916, 66926); (66939, 66939);
  (66955, 66955); (66963, 66963); (66966, 66966); (66978, 66978); (66994, 66994);
  (67002, 67002); (67005, 67071); (67383, 67391); (67414, 67423); (67432, 67455);
  (67462, 67462); (67505, 67505); (67515, 67583); (67590, 67591); (67593, 67593);
  (67638, 67638); (67641, 67643); (67645, 67646); (67670, 67670); (67743, 67750);
  (67760, 67807); (67827, 67827); (67830, 67834); (67868, 67870); (67898, 67902);
  (67904, 67967); (68024, 68027); (68048, 68049); (68100, 68100); (68103, 68107);
  (68116, 68116); (68120, 68120); (68150, 68151); (68155, 68158); (68169, 68175);
  (68185, 68191); (68256, 68287); (68327, 68330); (68343, 68351); (68406, 68408);
  (68438, 68439); (68467, 68471); (68498, 68504); (68509, 68520); (68528, 68607);
  (68681, 68735); (68787, 68799); (68851, 68857); (68904, 68911); (68922, 69215);
  (69247, 69247); (69290, 69290); (69294, 69295); (69298, 69375); (69416, 69423);
  (69466, 69487); (69514, 69551); (69580, 69599); (69623, 69631); (69710, 69713);
  (69750, 69758); (69821, 69821); (69827, 69839); (69865, 69871); (69882, 69887);
  (69941, 69941); (69960, 69967); (70007, 70015); (70112, 70112); (70133, 70143);
  (70162, 70162); (70207, 70271); (70279, 70279); (70281, 70281); (70286, 70286);
  (70302, 70302); (70314, 70319); (70379, 70383); (70394, 70399); (70404, 70404);
  (70413, 70414); (70417, 70418); (70441, 70441); (70449, 70449); (70452, 70452);
  (70458, 70458); (70469, 70470); (70473, 70474); (70478, 70479); (70481, 70486);
  (70488, 70492); (70500, 70501); (70509, 70511); (70517, 70655); (70748, 70748);
  (70754, 70783); (70856, 70863); (70874, 71039); (71094, 71095); (71134, 71167);
  (71237, 71247); (71258, 71263); (71277, 71295); (71354, 71359); (71370, 71423);
  (71451, 71452); (71468, 71471); (71495, 71679); (71740, 71839); (71923, 71934);
  (71943, 71944); (71946, 71947); (71956, 71956); (71959, 71959); (71990, 71990);
  (71993, 71994); (72007, 72015); (72026, 72095); (72104, 72105); (72152, 72153);
  (72165, 72191); (72264, 72271); (72355, 72367); (72441, 72703); (72713, 72713);
  (72759, 72759); (72774, 72783); (72813, 72815); (72848, 72849); (72872, 72872);
  (72887, 72959); (72967, 72967); (72970, 72970); (73015, 73017); (73019, 73019);
  (73022, 73022); (73032, 73039); (73050, 73055); (73062, 73062); (73065, 73065);
  (73103, 73103); (73106, 73106); (73113, 73119); (73130, 73439); (73465, 73647);
  (73649, 73663); (73714, 73726); (74650, 74751); (74863, 74863); (74869, 74879);
  (75076, 77711); (77811, 77823); (78895, 82943); (83527, 92159); (92729, 92735);
  (92767, 92767); (92778, 92781); (92863, 92863); (92874, 92879); (92910, 92911);
  (92918, 92927); (92998, 93007); (93018, 93018); (93026, 93026); (93048, 93052);
  (93072, 93759); (93851, 93951); (94027, 94030); (94088, 94094); (94112, 94175);
  (94181, 94191); (94194, 94207); (100344, 100351); (101590, 101631); (101641, 110575);
  (110580, 110580); (110588, 110588); (110591, 110591); (110883, 110927); (110931, 110947);
  (110952, 110959); (111356, 113663); (113771, 113775); (113789, 113791); (113801, 113807);
  (113818, 113819); (113824, 118527); (118574, 118575); (118599, 118607); (118724, 118783);
  (119030, 119039); (119079, 119080); (119155, 119162); (119275, 119295); (119366, 119519);
  (119540, 119551); (119639, 119647); (119673, 119807); (119893, 119893); (119965, 119965);
  (119968, 119969); (119971, 119972); (119975, 119976); (119981, 119981); (119994, 119994);
  (119996, 119996); (120004, 120004); (120070, 120070); (120075, 120076); (120085, 120085);
  (120093, 120093); (120122, 120122); (120127, 120127); (120133, 120133); (120135, 120137);
  (120145, 120145); (120486, 120487); (120780, 120781); (121484, 121498); (121504, 121504);
  (121520, 122623); (122655, 122879); (122887, 122887); (122905, 122906); (122914, 122914);
  (122917, 122917); (122923, 123135); (123181, 123183); (123198, 123199); (123210, 123213);
  (123216, 123535); (123567, 123583); (123642, 123646); (123648, 124895); (124903, 124903);
  (124908, 124908); (124911, 124911); (124927, 124927); (125125, 125126); (125143, 125183);
  (125260, 125263); (125274, 125277); (125280, 126064); (126133, 126208); (126270, 126463);
  (126468, 126468); (126496, 126496); (126499, 126499); (126501, 126502); (126504, 126504);
  (126515, 126515); (126520, 126520); (126522, 126522); (126524, 126529); (126531, 126534);
  (126536, 126536); (126538, 126538); (126540, 126540); (126544, 126544); (126547, 126547);
  (126549, 126550); (126552, 126552); (126554, 126554); (126556, 126556); (126558, 126558);
  (126560, 126560); (126563, 126563); (126565, 126566); (126571, 126571); (126579, 126579);
  (126584, 126584); (126589, 126589); (126591, 126591); (126602, 126602); (126620, 126624);
  (126628, 126628); (126634, 126634); (126652, 126703); (126706, 126975); (127020, 127023);
  (127124, 127135); (127151, 127152); (127168, 127168); (127184, 127184); (127222, 127231);
  (127406, 127461); (127491, 127503); (127548, 127551); (127561, 127567); (127570, 127583);
  (127590, 127743); (128728, 128732); (128749, 128751); (128765, 128767); (128884, 128895);
  (128985, 128991); (129004, 129007); (129009, 129023); (129036, 129039); (129096, 129103);
  (129114, 129119); (129160, 129167); (129198, 129199); (129202, 129279); (129620, 129631);
  (129646, 129647); (129653, 129655); (129661, 129663); (129671, 129679); (129709, 129711);
  (129723, 129727); (129734, 129743); (129754, 129759); (129768, 129775); (129783, 129791);
  (129939, 129939); (129995, 130031); (130042, 131071); (173792, 173823); (177977, 177983);
  (178206, 178207); (183970, 183983); (191457, 194559); (195102, 196607); (201547, 917759);
  (918000, 1114111)].

(** [Py_UNICODE_ISPRINTABLE(c)]: among ASCII, the characters from the space
    to [~]. *)
Definition py_printable (c : Z) : bool :=
  if c <? 128 then (32 <=? c) && (c <? 127)
  else negb (existsb (fun r => (r.1 <=? c) && (c <=? r.2)) nonprintable_ranges).

(** [repr(s)] for a [str], as CPython's [unicode_repr] writes it: double
    quotes when the text holds a single quote and no double quote, single
    quotes otherwise; the chosen quote and the backslash are escaped, tab,
    newline and carriage return become [\t], [\n], [\r], other control
    characters and DEL [\xhh]; a non-ASCII character is kept when it is
    printable and otherwise written [\xhh], [\uhhhh] or [\Uhhhhhhhh]
    (lower-case hexadecimal). The result is a [str], held as its UTF-8
    bytes. *)
Definition str_repr (s : string) : string :=
  let q : ascii := if has_char "'"%char s && negb (has_char dquote s) then dquote else "'"%char in
  let qn := Z.of_nat (nat_of_ascii q) in
  let esc (c : Z) : string :=
    if (c =? 92) || (c =? qn) then String "\" (string_of_bytes [c])
    else if c =? 9 then "\t"
    else if c =? 10 then "\n"
    else if c =? 13 then "\r"
    else if (c <? 32) || (c =? 127) then ("\x" +:+ hex_fixed 2 c EmptyString)%string
    else if c <? 127 then string_of_bytes [c]
    else if py_printable c then string_of_bytes (utf8_encode c)
    else if c <? 256 then ("\x" +:+ hex_fixed 2 c EmptyString)%string
    else if c <? 65536 then ("\u" +:+ hex_fixed 4 c EmptyString)%string
    else ("\U" +:+ hex_fixed 8 c EmptyString)%string in
  (String q EmptyString +:+ String.concat EmptyString (map esc (utf8_decode (bytes_of s))) +:+
   String q EmptyString)%string.

(** [str(v)] (which is [repr(v)] for containers). *)
Fixpoint py_repr (v : pyval) : string :=
  match v with
  | PNone => "None"
  | PBool true => "True"
  | PBool false => "False"
  | PInt z => z_to_string z
  | PStr s => str_repr s
  | PList l => ("[" +:+ join ", " (map py_repr l) +:+ "]")%string
  | PDict d =>
      ("{" +:+ join ", " (map (fun kv => str_repr kv.1 +:+ ": " +:+ py_repr kv.2) d)
       +:+ "}")%string
  end.

Definition u_escape (c : Z) : string := ("\u" +:+ hex_fixed 4 c EmptyString)%string.

(** One code point as [json.dumps] writes it ([ensure_ascii=True]). *)
Definition json_char (c : Z) : string :=
  if c =? 34 then String "\" (str1 dquote)
  else if c =? 92 then "\\"
  else if c =? 10 then "\n"
  else if c =? 13 then "\r"
  else if c =? 9 then "\t"
  else if c =? 8 then "\b"
  else if c =? 12 then "\f"
  else if (32 <=? c) && (c <=? 126) then String (ascii_of_nat (Z.to_nat c)) EmptyString
  else if c <? 65536 then u_escape c
  else let c' := c - 65536 in
       (u_escape (55296 + c' / 1024) +:+ u_escape (56320 + c' mod 1024))%string.

Definition json_str (s : string) : string :=
  (str1 dquote +:+ String.concat EmptyString (map json_char
       (utf8_decode (map (fun a => Z.of_nat (nat_of_ascii a)) (list_ascii_of_string s))))
   +:+ str1 dquote)%string.

(** [json.dumps(v)] with the default separators. *)
Fixpoint json_dumps (v : pyval) : string :=
  match v with
  | PNone => "null"
  | PBool true => "true"
  | PBool false => "false"
  | PInt z => z_to_string z
  | PStr s => json_str s
  | PList l => ("[" +:+ join ", " (map json_dumps l) +:+ "]")%string
  | PDict d =>
      ("{" +:+ join ", " (map (fun kv => json_str kv.1 +:+ ": " +:+ json_dumps kv.2) d)
       +:+ "}")%string
  end.

(** [len(str(data).encode('utf-8'))] (memory and mongo backends). *)
Definition repr_size (d : dict) : Z := Z.of_nat (String.length (py_repr (PDict d))).

(** [len(json.dumps(data).encode('utf-8'))] (redis backend). *)
Definition json_size (d : dict) : Z := Z.of_nat (String.length (json_dumps (PDict d))).

(** [BaseStorage.MAX_DATA_SIZE]. *)
Definition MAX_DATA_SIZE : Z := 1024 * 1024.

(* ------------------------------------------------------------------ *)
(** ** Exceptions and the outcome of a coroutine *)

(** [StorageError], [StateNotFoundError], [StateValidationError] of
    [base_storage.py], and the built-in exceptions the code can raise. *)
Inductive pyexn :=
| StorageError
| StateNotFoundError
| StateValidationError
| ValueError
| TypeError
| KeyError
| AttributeError
| NameError
| RedisError
| PyMongoError.

Definition pyexn_eqb (e1 e2 : pyexn) : bool :=
  match e1, e2 with
  | StorageError, StorageError | StateNotFoundError, StateNotFoundError
  | StateValidationError, StateValidationError | ValueError, ValueError
  | TypeError, TypeError | KeyError, KeyError | AttributeError, AttributeError
  | NameError, NameError | RedisError, RedisError | PyMongoError, PyMongoError => true
  | _, _ => false
  end.

Inductive outcome (S A : Type) :=
| Ret (a : A) (s : S)
| Exc (e : pyexn) (s : S)
| Hang.
Arguments Ret {S A} a s.
Arguments Exc {S A} e s.
Arguments Hang {S A}.

(** A coroutine over the backend state [S]. *)
Definition M (S A : Type) : Type := S -> outcome S A.

Global Instance M_ret {S} : MRet (M S) := fun A a s => Ret a s.
Global Instance M_bind {S} : MBind (M S) := fun A B f m s =>
  match m s with
  | Ret a s' => f a s'
  | Exc e s' => Exc e s'
  | Hang => Hang
  end.

Definition bindM {S A B} (m : M S A) (f : A -> M S B) : M S B := mbind f m.

Notation "'let*' x ':=' m 'in' k" := (bindM m (fun x => k))
  (at level 200, x name, m at level 100, k at level 200, right associativity).

Definition raise {S A} (e : pyexn) : M S A := fun s => Exc e s.
Definition gets {S A} (f : S -> A) : M S A := fun s => Ret (f s) s.
Definition modify {S} (f : S -> S) : M S unit := fun s => Ret tt (f s).

(** [try: m except e0: h]. *)
Definition try_except {S A} (m : M S A) (e0 : pyexn) (h : M S A) : M S A := fun s =>
  match m s with
  | Exc e s' => if pyexn_eqb e e0 then h s' else Exc e s'
  | o => o
  end.

(** [try: m except e0 as e: raise e1 from e]. *)
Definition wrap_exn {S A} (m : M S A) (e0 e1 : pyexn) : M S A :=
  try_except m e0 (raise e1).

(** [try: m except StateNotFoundError: raise / except Exception: raise e1]. *)
Definition wrap_all_but_not_found {S A} (m : M S A) (e1 : pyexn) : M S A := fun s =>
  match m s with
  | Exc e s' => if pyexn_eqb e StateNotFoundError then Exc e s' else Exc e1 s'
  | o => o
  end.

(* ------------------------------------------------------------------ *)
(** ** [StateData] *)

Record StateData := {
  state : string;
  data : dict;
  created_at : Z;
  updated_at : Z;
  expires_at : option Z
}.

Example repr_size_ex : py_repr (PDict [("weight", PStr "70"); ("n", PList [PInt (-3); PBool true])])
  = "{'weight': '70', 'n': [-3, True]}"%string.
Proof. reflexivity. Qed.

(** [repr('\xa0')], [repr('\u200b')], [repr('\xe9')] and [repr("it's")]. *)
Example str_repr_ex :
  str_repr (string_of_bytes [194; 160]) = "'\xa0'"%string /\
  str_repr (string_of_bytes [226; 128; 139]) = "'\u200b'"%string /\
  str_repr (string_of_bytes [195; 169]) = string_of_bytes [39; 195; 169; 39] /\
  str_repr "it's" = string_of_bytes [34; 105; 116; 39; 115; 34].
Proof. vm_compute. repeat split. Qed.

Example json_size_ex : json_dumps (PDict [("weight", PStr "70"); ("n", PNone)])
  = ("{" +:+ str1 dquote +:+ "weight" +:+ str1 dquote +:+ ": " +:+ str1 dquote +:+ "70"
     +:+ str1 dquote +:+ ", " +:+ str1 dquote +:+ "n" +:+ str1 dquote +:+ ": null}")%string.
Proof. reflexivity. Qed.

(* ------------------------------------------------------------------ *)
(** ** [MemoryStorage] ([storages/memory_storage.py]) *)

Module Memory.

(** The instance: [self._storage], whether [self._lock] is held, the
    optional [self.ttl] attribute (set by the tests; in microseconds here)
    and the class attribute [MAX_DATA_SIZE]. *)
Record MemoryStorage := {
  storage : gmap string StateData;
  lock_held : bool;
  ttl_attr : option Z;
  max_data_size : Z
}.

Definition set_storage (f : gmap string StateData -> gmap string StateData)
    (s : MemoryStorage) : MemoryStorage :=
  {| storage := f (storage s); lock_held := lock_held s; ttl_attr := ttl_attr s;
     max_data_size := max_data_size s |}.

Definition set_lock (b : bool) (s : MemoryStorage) : MemoryStorage :=
  {| storage := storage s; lock_held := b; ttl_attr := ttl_attr s;
     max_data_size := max_data_size s |}.

(** [MemoryStorage()]. *)
Definition init : MemoryStorage :=
  {| storage := ∅; lock_held := false; ttl_attr := None; max_data_size := MAX_DATA_SIZE |}.

Abbreviation MM := (M MemoryStorage).

(** [async with self._lock: body]. [asyncio.Lock] is not re-entrant: a task
    that already holds it waits forever. The lock is released on return
    and on exception. *)
Definition with_lock {A} (body : MM A) : MM A := fun s =>
  if lock_held s then Hang
  else match body (set_lock true s) with
       | Ret a s' => Ret a (set_lock false s')
       | Exc e s' => Exc e (set_lock false s')
       | Hang => Hang
       end.

(** [_get_state_data]. *)
Definition _get_state_data (key : string) : MM StateData := fun s =>
  match storage s !! key with
  | Some sd => Ret sd s
  | None => Exc StateNotFoundError s
  end.

(** [finish_state]: [async with self._lock: self._storage.pop(key, None)]. *)
Definition finish_state (key : string) : MM unit :=
  with_lock (modify (set_storage (delete key))).

(** [_check_expired]. *)
Definition _check_expired (now : Z) (key : string) : MM bool :=
  try_except
    (let* sd := _get_state_data key in
     match expires_at sd with
     | Some e => if e <=? now then finish_state key ;; mret true else mret false
     | None => mret false
     end)
    StateNotFoundError (mret true).

(** [default_state or "*"]. *)
Definition or_star (o : option string) : string :=
  match o with
  | Some s => if bool_decide (s = EmptyString) then "*" else s
  | None => "*"
  end.

Definition expiry_of (now : Z) (ttl : option Z) : option Z :=
  match ttl with
  | Some t => if td_truthy ttl then Some (now + t) else None
  | None => None
  end.

(** [get_or_create_state]; returns the name of the [State] handle. *)
Definition get_or_create_state (now : Z) (key : string) (default_state : option string)
    (ttl : option Z) : MM string :=
  if bool_decide (key = EmptyString) then raise StateValidationError
  else with_lock (
    let* found := try_except
      (let* sd := _get_state_data key in
       let* expired := _check_expired now key in
       if expired then mret (@None string) else mret (Some (state sd)))
      StateNotFoundError (mret (@None string)) in
    match found with
    | Some st => mret st
    | None =>
        let st := or_star default_state in
        modify (set_storage (insert key
          {| state := st; data := []; created_at := now; updated_at := now;
             expires_at := expiry_of now ttl |})) ;;
        mret st
    end).

(** The second positional argument of [set_state(key, state_data)]: a
    [StateData], or any other object (such as the key string when the method
    is called as [set_state(state, key)]). *)
Inductive state_data_arg :=
| IsStateData (sd : StateData)
| NotStateData (v : pyval).

(** [set_state(key, state_data)]. *)
Definition set_state (now : Z) (key : string) (arg : state_data_arg) : MM unit :=
  match arg with
  | NotStateData _ => raise ValueError
  | IsStateData sd => fun s =>
      let ttl_exp := match ttl_attr s with
                     | Some t => if 0 <? t then Some (now + t) else None
                     | None => None
                     end in
      let sd' := {| state := state sd; data := data sd; created_at := created_at sd;
                    updated_at := now;
                    expires_at := match ttl_exp with
                                  | Some e => Some e
                                  | None => expires_at sd
                                  end |} in
      with_lock (modify (set_storage (insert key sd'))) s
  end.

(** [set_data(data, key, ttl)]. *)
Definition set_data (now : Z) (d : pyval) (key : string) (ttl : option Z) : MM unit :=
  match d with
  | PDict dd => fun s =>
      if max_data_size s <? repr_size dd then Exc StateValidationError s
      else with_lock (
        let exp := expiry_of now ttl in
        let* sd := try_except
          (let* existing := _get_state_data key in
           mret {| state := state existing; data := dd; created_at := created_at existing;
                   updated_at := now; expires_at := exp |})
          StateNotFoundError
          (mret {| state := "*"; data := dd; created_at := now; updated_at := now;
                   expires_at := exp |}) in
        modify (set_storage (insert key sd))) s
  | _ => raise StateValidationError
  end.

(** [get_data]. *)
Definition get_data (now : Z) (key : string) : MM dict :=
  with_lock (
    let* expired := _check_expired now key in
    if expired then mret []
    else try_except (let* sd := _get_state_data key in mret (data sd)) StateNotFoundError (mret [])).

(** [get_state_data]; [self._storage[key]] raises [KeyError] when absent. *)
Definition get_state_data (now : Z) (key : string) : MM StateData :=
  with_lock (
    let* expired := _check_expired now key in
    if expired then raise StateNotFoundError
    else fun s => match storage s !! key with
                  | Some sd => Ret sd s
                  | None => Exc KeyError s
                  end).

(** The first loop of [cleanup_expired]: the keys [_check_expired] reports. *)
Fixpoint collect_expired (now : Z) (ks : list string) : MM (list string) :=
  match ks with
  | [] => mret []
  | k :: ks' =>
      let* b := _check_expired now k in
      let* rest := collect_expired now ks' in
      mret (if b then k :: rest else rest)
  end.

(** [for key in keys_to_remove: self._storage.pop(key, None); count += 1]. *)
Fixpoint pop_all (ks : list string) (count : Z) : MM Z :=
  match ks with
  | [] => mret count
  | k :: ks' => modify (set_storage (delete k)) ;; pop_all ks' (count + 1)
  end.

(** [cleanup_expired]. The key order of [list(self._storage.keys())] is
    insertion order in Python; the outcome below does not depend on it.
    The last loop, [for key in keys:], reads the name [keys], bound neither
    in the method nor in the module: [NameError]. *)
Definition cleanup_expired (now : Z) : MM Z :=
  with_lock (
    let* ks := gets (fun s => map fst (map_to_list (storage s))) in
    let* rm := collect_expired now ks in
    let* count := pop_all rm 0 in
    raise NameError).

(** [delete_state]: [await self.finish_state(key)]. *)
Definition delete_state (key : string) : MM unit := finish_state key.

(** [get_state(key, raise_on_not_found)]: the stored record as it is,
    without the lock and without an expiry check. *)
Definition get_state (key : string) (raise_on_not_found : bool) : MM (option StateData) :=
  try_except (let* sd := _get_state_data key in mret (Some sd))
    StateNotFoundError
    (if raise_on_not_found then raise StateNotFoundError else mret None).

(** [state_data.expires_at and state_data.expires_at <= now]. *)
Definition expired_at (now : Z) (sd : StateData) : bool :=
  match expires_at sd with Some e => e <=? now | None => false end.

(** [_cleanup]: nothing without a positive [self.ttl]; otherwise, under the
    lock, the keys of [list(self._storage.items())] whose record has
    expired are collected and popped. *)
Definition _cleanup (now : Z) : MM unit := fun s =>
  match ttl_attr s with
  | None => Ret tt s
  | Some t =>
      if t <=? 0 then Ret tt s
      else with_lock (fun s0 =>
        let keys_to_remove :=
          map fst (List.filter (fun kv => expired_at now kv.2) (map_to_list (storage s0))) in
        Ret tt (set_storage (fun m => fold_left (fun m k => delete k m) keys_to_remove m) s0)) s
  end.

(** The body of [list_states] over the items of [self._storage], as a
    consumer [async for key in storage.list_states(state, created_before):
    acc = await body(acc, key)] runs it: the generator holds [self._lock]
    from its first step to its end, so [body] runs with the lock held. The
    items are a snapshot; a body that changes the key set would make the
    iteration raise [RuntimeError] in Python, and no storage method can do
    it without the lock. *)
Fixpoint list_states_loop {A} (now : Z) (st : option string) (created_before : option Z)
    (body : A -> string -> MM A) (items : list (string * StateData)) (acc : A) : MM A :=
  match items with
  | [] => mret acc
  | (k, sd) :: rest =>
      if match st with Some x => negb (bool_decide (state sd = x)) | None => false end
      then list_states_loop now st created_before body rest acc
      else if match created_before with Some c => c <=? created_at sd | None => false end
      then list_states_loop now st created_before body rest acc
      else
        let* expired := _check_expired now k in
        if expired then list_states_loop now st created_before body rest acc
        else
          let* acc' := body acc k in
          list_states_loop now st created_before body rest acc'
  end.

(** [list_states(state, created_before)] consumed by [body] from [acc]. The
    order of [self._storage.items()] is insertion order in Python; the
    statements below do not depend on it. *)
Definition list_states {A} (now : Z) (st : option string) (created_before : option Z)
    (body : A -> string -> MM A) (acc : A) : MM A :=
  with_lock (fun s => list_states_loop now st created_before body (map_to_list (storage s)) acc s).

(** [[k async for k in storage.list_states(state, created_before)]]. *)
Definition list_states_all (now : Z) (st : option string) (created_before : option Z)
    : MM (list string) :=
  list_states now st created_before (fun acc k => mret (acc ++ [k])) [].

(** [BaseStorage.state_exists]. *)
Definition state_exists (now : Z) (key : string) : MM bool :=
  try_except (get_state_data now key ;; mret true) StateNotFoundError (mret false).

(** [BaseStorage.update_ttl]. [DEFAULT_TTL] is not [None], so the call
    [self.set_state(state=..., key=key, ttl=ttl)] always happens; the
    in-memory [set_state(key, state_data)] accepts no keyword [state]:
    [TypeError]. *)
Definition update_ttl (now : Z) (key : string) (ttl : option Z) : MM unit :=
  let* sd := get_state_data now key in
  raise TypeError.

End Memory.

(** [try: m except Exception as e: raise e1 from e]. *)
Definition wrap_all {S A} (m : M S A) (e1 : pyexn) : M S A := fun s =>
  match m s with
  | Exc _ s' => Exc e1 s'
  | o => o
  end.

(* ------------------------------------------------------------------ *)
(** ** [RedisStorage] ([storages/redis_storage.py]) *)

Module Redis.

(** A Redis hash as the code writes it: the fields [state], [created_at],
    [updated_at], [expires_at] ([None] = field absent). Datetimes are
    stored with [isoformat()] and read back with [fromisoformat()], which
    round-trip; the model keeps the timestamp itself. *)
Record rhash := {
  h_state : option string;
  h_created_at : option Z;
  h_updated_at : option Z;
  h_expires_at : option Z
}.

(** A Redis value: a hash, or a string holding [json.dumps(data)] of a
    [dict]. [json.loads] returns that dict again for the values of [pyval];
    the model keeps the dict. *)
Inductive rvalue :=
| RHash (h : rhash)
| RString (payload : dict).

(** A key's value and its native expiry deadline ([EXPIRE]). *)
Record rentry := { rval : rvalue; rdeadline : option Z }.

Abbreviation rdb := (gmap string rentry).
Abbreviation RM := (M rdb).

(** A key is visible while its deadline is in the future. *)
Definition live (now : Z) (e : rentry) : bool :=
  match rdeadline e with
  | Some d => now <? d
  | None => true
  end.

Definition r_lookup (now : Z) (k : string) (db : rdb) : option rentry :=
  match db !! k with
  | Some e => if live now e then Some e else None
  | None => None
  end.

(** [HGETALL]: [None] for the empty reply. *)
Definition r_hgetall (now : Z) (k : string) : RM (option rhash) := fun db =>
  match r_lookup now k db with
  | None => Ret None db
  | Some {| rval := RHash h |} => Ret (Some h) db
  | Some _ => Exc RedisError db
  end.

(** [HGET k created_at]. *)
Definition r_hget_created_at (now : Z) (k : string) : RM (option Z) :=
  let* h := r_hgetall now k in
  mret (match h with Some h => h_created_at h | None => None end).

Definition merge_field {A} (old new : option A) : option A :=
  match new with Some _ => new | None => old end.

Definition merge_hash (old new : rhash) : rhash :=
  {| h_state := merge_field (h_state old) (h_state new);
     h_created_at := merge_field (h_created_at old) (h_created_at new);
     h_updated_at := merge_field (h_updated_at old) (h_updated_at new);
     h_expires_at := merge_field (h_expires_at old) (h_expires_at new) |}.

(** [HSET k mapping=...]: updates the given fields, keeps the key's TTL;
    a missing (or expired) key becomes a new hash without TTL. *)
Definition r_hset (now : Z) (k : string) (h : rhash) : RM unit := fun db =>
  match r_lookup now k db with
  | None => Ret tt (<[k := {| rval := RHash h; rdeadline := None |}]> db)
  | Some {| rval := RHash h0; rdeadline := d |} =>
      Ret tt (<[k := {| rval := RHash (merge_hash h0 h); rdeadline := d |}]> db)
  | Some _ => Exc RedisError db
  end.

(** [EXPIRE k secs]: a non-positive timeout deletes the key. *)
Definition r_expire (now : Z) (k : string) (secs : Z) : RM unit := fun db =>
  match r_lookup now k db with
  | None => Ret tt db
  | Some e =>
      if secs <=? 0 then Ret tt (delete k db)
      else Ret tt (<[k := {| rval := rval e; rdeadline := Some (now + secs * 1000000) |}]> db)
  end.

(** [SET k v]: overwrites the value and clears the TTL. *)
Definition r_set (k : string) (payload : dict) : RM unit :=
  modify (insert k {| rval := RString payload; rdeadline := None |}).

(** [DEL k]. *)
Definition r_delete (k : string) : RM unit := modify (delete k).

(** [GET k]. *)
Definition r_get (now : Z) (k : string) : RM (option dict) := fun db =>
  match r_lookup now k db with
  | None => Ret None db
  | Some {| rval := RString p |} => Ret (Some p) db
  | Some _ => Exc RedisError db
  end.

(** The instance's configuration. *)
Record RedisStorage := { key_prefix : string; max_data_size : Z }.

Definition STATE_PREFIX : string := "fsm:state".
Definition DATA_PREFIX : string := "fsm:data".
Definition META_PREFIX : string := "fsm:meta".

(** Module-level [_key]. *)
Definition _key (prefix key : string) : string := (prefix +:+ ":" +:+ key)%string.

(** [RedisStorage._get_key]. *)
Definition _get_key (cfg : RedisStorage) (prefix key : string) : string :=
  _key (if bool_decide (key_prefix cfg = EmptyString) then prefix
        else (key_prefix cfg +:+ ":" +:+ prefix)%string) key.

(** [int(ttl.total_seconds())]: truncation toward zero. *)
Definition ttl_seconds (t : Z) : Z := Z.quot t 1000000.

(** [_get_state_meta]. A hash missing [state], [created_at] or
    [updated_at] makes the code raise [StateCorruptedError], a name neither
    defined nor imported in the module: [NameError]. *)
Definition _get_state_meta (now : Z) (cfg : RedisStorage) (key : string)
    : RM (string * Z * Z * option Z) :=
  let* meta := r_hgetall now (_get_key cfg META_PREFIX key) in
  match meta with
  | None => raise StateNotFoundError
  | Some h =>
      match h_state h, h_created_at h, h_updated_at h with
      | Some st, Some c, Some u =>
          if bool_decide (st = EmptyString) then raise NameError
          else mret (st, c, u, h_expires_at h)
      | _, _, _ => raise NameError
      end
  end.

(** [_set_state_meta]: [HGET created_at], then the pipeline
    [HSET] (+ [EXPIRE] when [ttl] is truthy). *)
Definition _set_state_meta (now : Z) (cfg : RedisStorage) (key st : string)
    (ttl : option Z) : RM unit :=
  let meta_key := _get_key cfg META_PREFIX key in
  let exp := Memory.expiry_of now ttl in
  let* c := r_hget_created_at now meta_key in
  let created := match c with Some c => c | None => now end in
  r_hset now meta_key {| h_state := Some st; h_created_at := Some created;
                         h_updated_at := Some now; h_expires_at := exp |} ;;
  match ttl with
  | Some t => if td_truthy ttl then r_expire now meta_key (ttl_seconds t) else mret tt
  | None => mret tt
  end.

(** [get_or_create_state]; returns the name of the [State] handle. Only
    exceptions of the [try] body reach its [except] clauses. *)
Definition get_or_create_state (now : Z) (cfg : RedisStorage) (key : string)
    (default_state : option string) (ttl : option Z) : RM string :=
  if bool_decide (key = EmptyString) then raise StateValidationError
  else fun db =>
    match _get_state_meta now cfg key db with
    | Ret m db' => Ret m.1.1.1 db'
    | Exc StateNotFoundError db' =>
        let st := Memory.or_star default_state in
        (_set_state_meta now cfg key st ttl ;; mret st) db'
    | Exc RedisError db' => Exc StorageError db'
    | Exc e db' => Exc e db'
    | Hang => Hang
    end.

(** [set_state(state, key, ttl)]. *)
Definition set_state (now : Z) (cfg : RedisStorage) (st key : string) (ttl : option Z)
    : RM unit :=
  if bool_decide (st = EmptyString) then raise StateValidationError
  else wrap_exn (_set_state_meta now cfg key st ttl) RedisError StorageError.

(** [set_data(data, key, ttl)]. *)
Definition set_data (now : Z) (cfg : RedisStorage) (d : pyval) (key : string)
    (ttl : option Z) : RM unit :=
  match d with
  | PDict dd =>
      if max_data_size cfg <? json_size dd then raise StateValidationError
      else wrap_exn (
        let data_key := _get_key cfg DATA_PREFIX key in
        (match dd with
         | [] => r_delete data_key
         | _ => r_set data_key dd ;;
                match ttl with
                | Some t => if td_truthy ttl then r_expire now data_key (ttl_seconds t)
                            else mret tt
                | None => mret tt
                end
         end) ;;
        match ttl with
        | Some _ =>
            let* m := _get_state_meta now cfg key in
            _set_state_meta now cfg key m.1.1.1 ttl
        | None => mret tt
        end) RedisError StorageError
  | _ => raise StateValidationError
  end.

(** [get_data]. *)
Definition get_data (now : Z) (cfg : RedisStorage) (key : string) : RM dict :=
  wrap_exn
    (let* v := r_get now (_get_key cfg DATA_PREFIX key) in
     mret (match v with Some p => p | None => [] end))
    RedisError StorageError.

(** [get_state_data]. *)
Definition get_state_data (now : Z) (cfg : RedisStorage) (key : string) : RM StateData :=
  wrap_all_but_not_found
    (let* m := _get_state_meta now cfg key in
     let* d := get_data now cfg key in
     mret {| state := m.1.1.1; data := d; created_at := m.1.1.2; updated_at := m.1.2;
             expires_at := m.2 |})
    StorageError.

(** [finish_state]: one pipeline deleting the meta and the data keys. *)
Definition finish_state (cfg : RedisStorage) (key : string) : RM unit :=
  wrap_all
    (r_delete (_get_key cfg META_PREFIX key) ;; r_delete (_get_key cfg DATA_PREFIX key))
    StorageError.

(** [cleanup_expired]. *)
Definition cleanup_expired : RM Z := mret 0.

(** [BaseStorage.DEFAULT_TTL = timedelta(days=1)]. *)
Definition DEFAULT_TTL : Z := 86400 * 1000000.

(** [c] in the range [x-y] of a glob class (bounds in either order). *)
Definition in_range (x y c : ascii) : bool :=
  let a := nat_of_ascii x in let b := nat_of_ascii y in let n := nat_of_ascii c in
  ((Nat.min a b <=? n) && (n <=? Nat.max a b))%nat.

(** The items of a glob class [[...]] after [[] (and [^]): whether [c]
    matches one of them, and the pattern after the closing [[]]]. A class
    left open extends to the end of the pattern. *)
Fixpoint glob_class (p : list ascii) (c : ascii) (m : bool) : bool * list ascii :=
  match p with
  | [] => (m, [])
  | "\"%char :: x :: p' => glob_class p' c (m || bool_decide (x = c))
  | "]"%char :: p' => (m, p')
  | x :: "-"%char :: y :: p' => glob_class p' c (m || in_range x y c)
  | x :: p' => glob_class p' c (m || bool_decide (x = c))
  end.

Fixpoint drop_stars (p : list ascii) : list ascii :=
  match p with
  | "*"%char :: p' => drop_stars p'
  | _ => p
  end.

(** Redis's [stringmatchlen] (case-sensitive), the filter of
    [SCAN ... MATCH pattern]; [fuel] bounds the pattern length. After a
    character is consumed and the string is used up, the trailing stars of
    the pattern are skipped. *)
Fixpoint glob_go (fuel : nat) (p s : list ascii) {struct fuel} : bool :=
  match fuel with
  | O => false
  | S f =>
      let next (p' s' : list ascii) :=
        match s' with
        | [] => match drop_stars p' with [] => true | _ => false end
        | _ => glob_go f p' s'
        end in
      match p, s with
      | [], [] => true
      | [], _ :: _ => false
      | _ :: _, [] => false
      | "*"%char :: _, _ :: _ =>
          match drop_stars p with
          | [] => true
          | p1 => (fix try_from (t : list ascii) : bool :=
                     match t with
                     | [] => false
                     | _ :: t' => glob_go f p1 t || try_from t'
                     end) s
          end
      | "?"%char :: p', _ :: s' => next p' s'
      | "["%char :: p0, c :: s' =>
          let '(neg, p1) := match p0 with
                            | "^"%char :: q => (true, q)
                            | _ => (false, p0)
                            end in
          let '(m, p2) := glob_class p1 c false in
          if (if neg then negb m else m) then next p2 s' else false
      | "\"%char :: x :: p', c :: s' => if bool_decide (x = c) then next p' s' else false
      | x :: p', c :: s' => if bool_decide (x = c) then next p' s' else false
      end
  end.

Definition glob (pattern key : string) : bool :=
  glob_go (S (length (list_ascii_of_string pattern)))
    (list_ascii_of_string pattern) (list_ascii_of_string key).

(** What one call of [self._redis.scan_iter(match=pattern)] may yield
    on the store [db]: SCAN returns only keys matching the pattern, and
    every key present during the whole iteration at least once; it may
    return a key more than once, in any order. *)
Definition scan_ok (now : Z) (pattern : string) (db : rdb) (keys : list string) : Prop :=
  (forall K, K ∈ keys -> glob pattern K = true) /\
  (forall K e, glob pattern K = true -> db !! K = Some e -> live now e = true -> K ∈ keys).

(** One output [scan_ok] admits: the live keys matching the pattern, each
    once, in the order of the store. *)
Definition scan_once (now : Z) (pattern : string) (db : rdb) : list string :=
  List.filter (glob pattern) (map fst (List.filter (fun kv => live now kv.2) (map_to_list db))).

Fixpoint after_colon (l : list ascii) : option (list ascii) :=
  match l with
  | [] => None
  | c :: r => if bool_decide (c = ":"%char) then Some r else after_colon r
  end.

(** [s.split(':', 2)[-1]]. *)
Definition split2_last (s : string) : string :=
  let l := list_ascii_of_string s in
  string_of_list_ascii
    (match after_colon l with
     | None => l
     | Some r => match after_colon r with None => r | Some r2 => r2 end
     end).

(** The loop of [list_states] over the scanned keys (decoded from bytes):
    [StateNotFoundError] and [StateValidationError] skip a key; any other
    exception ends the listing. *)
Fixpoint list_states_loop (now : Z) (cfg : RedisStorage) (st : option string)
    (created_before : option Z) (keys : list string) : RM (list string) :=
  match keys with
  | [] => mret []
  | k :: ks => fun db =>
      let key := split2_last k in
      match get_state_data now cfg key db with
      | Ret sd db' =>
          let keep := match st with Some x => bool_decide (state sd = x) | None => true end &&
                      match created_before with Some c => created_at sd <? c | None => true end in
          (let* rest := list_states_loop now cfg st created_before ks in
           mret (if keep then key :: rest else rest)) db'
      | Exc StateNotFoundError db' | Exc StateValidationError db' =>
          list_states_loop now cfg st created_before ks db'
      | Exc e db' => Exc e db'
      | Hang => Hang
      end
  end.

(** [[k async for k in storage.list_states(state, created_before)]], where
    [scan_iter pattern db] is what [self._redis.scan_iter(match=pattern)]
    yields in this call. *)
Definition list_states (scan_iter : string -> rdb -> list string) (now : Z) (cfg : RedisStorage)
    (st : option string) (created_before : option Z) : RM (list string) := fun db =>
  list_states_loop now cfg st created_before (scan_iter (_get_key cfg META_PREFIX "*") db) db.

(** [BaseStorage.state_exists]. *)
Definition state_exists (now : Z) (cfg : RedisStorage) (key : string) : RM bool :=
  try_except (get_state_data now cfg key ;; mret true) StateNotFoundError (mret false).

(** [BaseStorage.update_ttl]: [DEFAULT_TTL] when [ttl is None], which is never [None]. *)
Definition update_ttl (now : Z) (cfg : RedisStorage) (key : string) (ttl : option Z)
    : RM unit :=
  let* sd := get_state_data now cfg key in
  set_state now cfg (state sd) key
    (Some (match ttl with Some t => t | None => DEFAULT_TTL end)).

End Redis.

(* ------------------------------------------------------------------ *)
(** ** [MongoStorage] ([storages/mongo_storage.py]) *)

Module Mongo.

(** A document of the collection; the unique [key] field is the map key.
    Fields a document lacks are [None]. *)
Record doc := {
  d_state : option string;
  d_data : option dict;
  d_created_at : option Z;
  d_updated_at : option Z;
  d_expires_at : option Z
}.

(** The collection and the [_ensure_indexes_done] flag. *)
Record MongoStorage := { coll : gmap string doc; indexes_done : bool; max_data_size : Z }.

Abbreviation MG := (M MongoStorage).

Definition set_coll (f : gmap string doc -> gmap string doc) (s : MongoStorage)
    : MongoStorage :=
  {| coll := f (coll s); indexes_done := indexes_done s; max_data_size := max_data_size s |}.

(** [datetime.now(datetime.timezone.utc)]: the module binds [datetime] to
    the class [datetime.datetime] ([from datetime import datetime]), which
    has no attribute [timezone]; evaluating the argument raises
    [AttributeError]. *)
Definition utc_now : MG Z := raise AttributeError.

(** [_ensure_indexes]: creates the TTL and the unique index once. *)
Definition _ensure_indexes : MG unit := fun s =>
  if indexes_done s then Ret tt s
  else Ret tt {| coll := coll s; indexes_done := true; max_data_size := max_data_size s |}.

(** [find_one({"key": key})]. *)
Definition find_one (key : string) : MG (option doc) := gets (fun s => coll s !! key).

(** [finish_state]: [delete_one], [StateNotFoundError] when nothing was
    deleted. *)
Definition finish_state (key : string) : MG unit :=
  wrap_exn
    (fun s => match coll s !! key with
              | Some _ => Ret tt (set_coll (delete key) s)
              | None => Exc StateNotFoundError s
              end)
    PyMongoError StorageError.

(** [_get_state_document]. *)
Definition _get_state_document (key : string) : MG doc :=
  wrap_exn
    (_ensure_indexes ;;
     let* found := find_one key in
     match found with
     | None => raise StateNotFoundError
     | Some d =>
         match d_expires_at d with
         | Some e =>
             let* now := utc_now in
             if e <? now then finish_state key ;; raise StateNotFoundError else mret d
         | None => mret d
         end
     end)
    PyMongoError StorageError.

(** [doc['state']]. *)
Definition doc_state (d : doc) : MG string :=
  match d_state d with Some st => mret st | None => raise KeyError end.

(** [get_or_create_state]; returns the name of the [State] handle. *)
Definition get_or_create_state (key : string) (default_state : option string)
    (ttl : option Z) : MG string :=
  if bool_decide (key = EmptyString) then raise StateValidationError
  else fun s =>
    match _get_state_document key s with
    | Ret d s' => doc_state d s'
    | Exc StateNotFoundError s' =>
        (let st := Memory.or_star default_state in
         let* now := utc_now in
         wrap_exn
           (modify (set_coll (insert key
              {| d_state := Some st; d_data := Some []; d_created_at := Some now;
                 d_updated_at := Some now; d_expires_at := Memory.expiry_of now ttl |})) ;;
            mret st)
           PyMongoError StorageError) s'
    | Exc e s' => Exc e s'
    | Hang => Hang
    end.

(** [update_one({'key': key}, {'$set': {'state': .., 'updated_at': ..,
    ['expires_at': ..]}}, upsert=True)]. *)
Definition upsert_state (key st : string) (now : Z) (exp : option Z) : MG unit :=
  modify (set_coll (fun c =>
    match c !! key with
    | Some d =>
        <[key := {| d_state := Some st; d_data := d_data d; d_created_at := d_created_at d;
                    d_updated_at := Some now;
                    d_expires_at := Redis.merge_field (d_expires_at d) exp |}]> c
    | None =>
        <[key := {| d_state := Some st; d_data := None; d_created_at := None;
                    d_updated_at := Some now; d_expires_at := exp |}]> c
    end)).

(** [now + ttl] when [ttl is not None]. *)
Definition exp_if_given (now : Z) (ttl : option Z) : option Z :=
  match ttl with Some t => Some (now + t) | None => None end.

(** [set_state(state, key, ttl)]. With [upsert=True] the update always
    matches or inserts, so the [StateNotFoundError] branch is dead. *)
Definition set_state (st key : string) (ttl : option Z) : MG unit :=
  if bool_decide (st = EmptyString) then raise StateValidationError
  else
    let* now := utc_now in
    wrap_exn (upsert_state key st now (exp_if_given now ttl)) PyMongoError StorageError.

(** [set_data(data, key, ttl)]: [update_one] without upsert. *)
Definition set_data (d : pyval) (key : string) (ttl : option Z) : MG unit :=
  match d with
  | PDict dd => fun s =>
      if max_data_size s <? repr_size dd then Exc StateValidationError s
      else (
        let* now := utc_now in
        wrap_exn
          (fun s => match coll s !! key with
                    | Some d0 =>
                        Ret tt (set_coll (insert key
                          {| d_state := d_state d0; d_data := Some dd;
                             d_created_at := d_created_at d0; d_updated_at := Some now;
                             d_expires_at :=
                               Redis.merge_field (d_expires_at d0) (exp_if_given now ttl) |}) s)
                    | None => Exc StateNotFoundError s
                    end)
          PyMongoError StorageError) s
  | _ => raise StateValidationError
  end.

(** [get_data]. *)
Definition get_data (key : string) : MG dict :=
  wrap_exn
    (try_except
      (let* d := _get_state_document key in
       mret (match d_data d with Some dd => dd | None => [] end))
      StateNotFoundError (mret []))
    PyMongoError StorageError.

(** [get_state_data]: a missing field is a [KeyError], re-raised as
    [StateValidationError]. *)
Definition get_state_data (key : string) : MG StateData :=
  wrap_exn
    (wrap_exn
      (let* d := _get_state_document key in
       match d_state d, d_created_at d, d_updated_at d with
       | Some st, Some c, Some u =>
           mret {| state := st; data := match d_data d with Some dd => dd | None => [] end;
                   created_at := c; updated_at := u; expires_at := d_expires_at d |}
       | _, _, _ => raise KeyError
       end)
      KeyError StateValidationError)
    PyMongoError StorageError.

(** [cleanup_expired]: [delete_many({"expires_at": {"$lt": now}})]. *)
Definition cleanup_expired : MG Z :=
  let* now := utc_now in
  wrap_exn
    (fun s =>
       let expired := List.filter (fun kd => match d_expires_at kd.2 with
                                        | Some e => bool_decide (e < now)
                                        | None => false
                                        end) (map_to_list (coll s)) in
       Ret (Z.of_nat (length expired))
           (set_coll (fun c => foldr (fun kd acc => delete kd.1 acc) c expired) s))
    PyMongoError StorageError.

(** A [datetime] (in microseconds since the epoch) as the BSON datetime
    pymongo sends for it: milliseconds since the epoch, rounded down
    ([_datetime_to_millis]). *)
Definition bson_millis (t : Z) : Z := t / 1000.

(** [list_states(state, created_before)]: [find] with the query
    [{'state': state, 'created_at': {'$lt': created_before}}] (each part
    only when given; a document lacking the field does not match), in
    some order. The server compares the stored [created_at] and the bound
    as BSON datetimes, in milliseconds. *)
Definition list_states (st : option string) (created_before : option Z) : MG (list string) :=
  wrap_exn
    (gets (fun s => map fst (List.filter (fun kd =>
       match st with
       | Some x => match d_state kd.2 with Some y => bool_decide (y = x) | None => false end
       | None => true
       end &&
       match created_before with
       | Some c => match d_created_at kd.2 with
                   | Some y => bson_millis y <? bson_millis c
                   | None => false
                   end
       | None => true
       end) (map_to_list (coll s)))))
    PyMongoError StorageError.

End Mongo.

(* ------------------------------------------------------------------ *)
(** ** Storage keys ([patch_helper.create_key], [FSMContext._get_key]) *)

Module Keys.

(** An attribute probed with [hasattr]: absent, present and [None], or a
    value. *)
Inductive attr (A : Type) :=
| Missing
| NoneVal
| Val (a : A).
Arguments Missing {A}.
Arguments NoneVal {A}.
Arguments Val {A} a.

Record User := { user_id : Z }.
Record Chat := { chat_id : Z }.

(** A message: [from_user] (always an attribute, possibly [None]) and [chat]. *)
Record Message := { m_from_user : option User; m_chat : attr Chat }.

(** An inbound update, as the duck-typed code probes it. *)
Record Update := {
  u_from_user : attr User;
  u_message : attr Message;
  u_chat : attr Chat
}.

(** [create_key(parsed_update, client)]; [me] is [client.me.id], set once
    the client has started. *)
Definition create_key (me : Z) (u : Update) : string :=
  let user := match u_from_user u with
              | Val x => z_to_string (user_id x)
              | _ => match u_message u with
                     | Val m => match m_from_user m with
                                | Some x => z_to_string (user_id x)
                                | None => "unknown"
                                end
                     | _ => "unknown"
                     end
              end in
  let chat := match u_chat u with
              | Val c => z_to_string (chat_id c)
              | _ => match u_message u with
                     | Val m => match m_chat m with
                                | Val c => z_to_string (chat_id c)
                                | _ => "unknown"
                                end
                     | _ => "unknown"
                     end
              end in
  (z_to_string me +:+ "-" +:+ user +:+ "-" +:+ chat)%string.

(** [FSMContext._get_key(update)]: [inr AttributeError] when an attribute
    access fails ([None.id], or an absent attribute). *)
Definition fsm_get_key (u : Update) : string + pyexn :=
  let chat := match u_chat u with
              | Val c => inl (chat_id c)
              | NoneVal => inr AttributeError
              | Missing => match u_message u with
                           | Val m => match m_chat m with
                                      | Val c => inl (chat_id c)
                                      | _ => inr AttributeError
                                      end
                           | _ => inr AttributeError
                           end
              end in
  match chat with
  | inr e => inr e
  | inl c =>
      match u_from_user u with
      | Val x => inl (z_to_string c +:+ ":" +:+ z_to_string (user_id x))%string
      | _ => inr AttributeError
      end
  end.

End Keys.

(* ------------------------------------------------------------------ *)
(** ** Python dicts and strings used by the callers *)

(** [d[k] = v] on a dict in insertion order: an existing key keeps its
    place. *)
Fixpoint dict_set {V} (k : string) (v : V) (d : list (string * V)) : list (string * V) :=
  match d with
  | [] => [(k, v)]
  | (k', v') :: r => if bool_decide (k' = k) then (k', v) :: r else (k', v') :: dict_set k v r
  end.

(** [d.update(e)], and [{**d, **e}]. *)
Definition dict_update {V} (d e : list (string * V)) : list (string * V) :=
  fold_left (fun acc kv => dict_set kv.1 kv.2 acc) e d.

(** [d.get(k)]. *)
Fixpoint dict_get {V} (k : string) (d : list (string * V)) : option V :=
  match d with
  | [] => None
  | (k', v) :: r => if bool_decide (k' = k) then Some v else dict_get k r
  end.

Definition str_mem (a : string) (l : list string) : bool := existsb (fun x => bool_decide (x = a)) l.

(** [str.isspace] of one code point. *)
Definition py_isspace (c : Z) : bool :=
  ((9 <=? c) && (c <=? 13)) || ((28 <=? c) && (c <=? 32)) || (c =? 133) || (c =? 160) ||
  (c =? 5760) || ((8192 <=? c) && (c <=? 8202)) || (c =? 8232) || (c =? 8233) ||
  (c =? 8239) || (c =? 8287) || (c =? 12288).

(** [not s.strip()]: every code point of [s] is white space. *)
Definition is_blank (s : string) : bool :=
  forallb py_isspace (utf8_decode (map (fun a => Z.of_nat (nat_of_ascii a)) (list_ascii_of_string s))).

(* ------------------------------------------------------------------ *)
(** ** The [State] handle ([fsm/states.py]) *)

Module StateHandle.

(** The storage object a handle calls, by duck typing:
    [set_state(state, key)], [set_data(data, key)], [get_data(key)],
    [finish_state(key)], with [now] the time of the call. *)
Record storage_ops (S : Type) := {
  o_set_state : Z -> string -> string -> M S unit;
  o_set_data : Z -> dict -> string -> M S unit;
  o_get_data : Z -> string -> M S dict;
  o_finish_state : string -> M S unit
}.
Arguments o_set_state {S} _ _ _ _.
Arguments o_set_data {S} _ _ _ _.
Arguments o_get_data {S} _ _ _.
Arguments o_finish_state {S} _ _.

Definition memory_ops : storage_ops Memory.MemoryStorage := {|
  o_set_state := fun now st key => Memory.set_state now st (Memory.NotStateData (PStr key));
  o_set_data := fun now d key => Memory.set_data now (PDict d) key None;
  o_get_data := Memory.get_data;
  o_finish_state := Memory.finish_state |}.

Definition redis_ops (cfg : Redis.RedisStorage) : storage_ops Redis.rdb := {|
  o_set_state := fun now st key => Redis.set_state now cfg st key None;
  o_set_data := fun now d key => Redis.set_data now cfg (PDict d) key None;
  o_get_data := fun now key => Redis.get_data now cfg key;
  o_finish_state := Redis.finish_state cfg |}.

Definition mongo_ops : storage_ops Mongo.MongoStorage := {|
  o_set_state := fun now st key => Mongo.set_state st key None;
  o_set_data := fun now d key => Mongo.set_data (PDict d) key None;
  o_get_data := fun now key => Mongo.get_data key;
  o_finish_state := Mongo.finish_state |}.

(** A [State]: [self._name] and the key. Every method runs under the
    handle's own [asyncio.Lock] ([@synchronized]); no method re-enters it,
    so in a sequential run it is always free and is left out. *)
Record State := { _name : string; _key : string }.

Abbreviation HM S := (M (State * S)).

Definition lift {S A} (m : M S A) : HM S A := fun hs =>
  match m hs.2 with
  | Ret a s' => Ret a (hs.1, s')
  | Exc e s' => Exc e (hs.1, s')
  | Hang => Hang
  end.

Definition key_of {S} : HM S string := fun hs => Ret (_key hs.1) hs.

Definition set_name {S} (n : string) : HM S unit := fun hs =>
  Ret tt ({| _name := n; _key := _key hs.1 |}, hs.2).

(** [raise type(e)(f"...") from e] raises an exception of the same class;
    the model keeps the exception. *)
Definition set_state {S} (o : storage_ops S) (now : Z) (v : pyval) : HM S unit :=
  match v with
  | PStr st =>
      if is_blank st then raise ValueError
      else let* k := key_of in lift (o_set_state o now st k) ;; set_name st
  | _ => raise ValueError
  end.

Definition set_data {S} (o : storage_ops S) (now : Z) (v : pyval) : HM S unit :=
  match v with
  | PDict d => let* k := key_of in lift (o_set_data o now d k)
  | _ => raise TypeError
  end.

(** [data if isinstance(data, dict) else {}]: the storages return dicts. *)
Definition get_data {S} (o : storage_ops S) (now : Z) : HM S dict :=
  let* k := key_of in lift (o_get_data o now k).

Definition finish {S} (o : storage_ops S) : HM S unit :=
  let* k := key_of in lift (o_finish_state o k) ;; set_name EmptyString.

End StateHandle.

(* ------------------------------------------------------------------ *)
(** ** [StateItem] and [StatesGroup] ([fsm/states.py]) *)

Module Groups.

(** A class attribute: a [StateItem] object (its identity) or another
    value. *)
Inductive attrval := AItem (id : nat) | AOther.

(** A class: its [__name__], [vars(cls)] in definition order, and the
    [vars] of the further classes of its MRO. *)
Record pyclass := {
  cls_name : string;
  cls_vars : list (string * attrval);
  cls_bases : list (list (string * attrval))
}.

(** [StateItem.__get__(obj, cls)] for the item [i]: the first name of
    [vars(cls)] bound to [i]. *)
Definition item_get (i : nat) (c : pyclass) : string + pyexn :=
  match List.find (fun nv => match nv.2 with AItem j => Nat.eqb i j | AOther => false end)
          (cls_vars c) with
  | Some (n, _) => inl ("StatesGroup_" +:+ cls_name c +:+ "_State_" +:+ n)%string
  | None => inr AttributeError
  end.

Inductive getattr_result := GState (s : string) | GOther | GExc (e : pyexn).

(** [cls.a]: the attribute found along the MRO; a [StateItem] goes
    through [__get__(None, cls)]. *)
Definition class_getattr (c : pyclass) (a : string) : getattr_result :=
  match dict_get a (cls_vars c ++ List.concat (cls_bases c)) with
  | Some (AItem i) => match item_get i c with inl s => GState s | inr e => GExc e end
  | Some AOther => GOther
  | None => GExc AttributeError
  end.

Definition starts_with_underscore (n : string) : bool :=
  match n with String c _ => bool_decide (c = "_"%char) | EmptyString => false end.

Definition is_item (v : attrval) : bool := match v with AItem _ => true | AOther => false end.

(** [StatesGroup.__init_subclass__]: [TypeError] for a public attribute
    that is not a [StateItem]. *)
Definition init_subclass (c : pyclass) : option pyexn :=
  if forallb (fun nv => starts_with_underscore nv.1 || is_item nv.2) (cls_vars c) then None
  else Some TypeError.

End Groups.

(* ------------------------------------------------------------------ *)
(** ** [FSMContext] over a [MemoryStorage] ([fsm/context.py])

    Of the three backends only [MemoryStorage] defines [get_state] and
    [delete_state], which every method calls. The methods [set_data] and
    [update_data], which may store a [StateData] whose [state] is [None],
    are not modelled.

    [FSMContext] hands dict objects to the storage and mutates the stored
    one in place ([current_data.update(data)]), and [MemoryStorage] keeps
    the very dict object it is given; two records can hold the same dict.
    Dicts are therefore modelled with their identity here: the records of
    the storage refer to dict objects on a heap. *)
Module Shared.

(** The address of a dict object. *)
Definition loc := N.

(** A [StateData] object; its [data] attribute is the dict at [sd_data]. *)
Record SD := {
  sd_state : string;
  sd_data : loc;
  sd_created_at : Z;
  sd_updated_at : Z;
  sd_expires_at : option Z
}.

(** A [MemoryStorage] instance ([self._storage], whether [self._lock] is
    held, the optional [self.ttl] attribute, in microseconds) and the dict
    objects of the program: [dicts] maps an address to the contents of the
    dict there; the addresses from [next] on are unused. *)
Record Store := {
  storage : gmap string SD;
  lock_held : bool;
  ttl_attr : option Z;
  dicts : gmap loc dict;
  next : loc
}.

Definition set_storage (f : gmap string SD -> gmap string SD) (s : Store) : Store :=
  {| storage := f (storage s); lock_held := lock_held s; ttl_attr := ttl_attr s;
     dicts := dicts s; next := next s |}.

Definition set_lock (b : bool) (s : Store) : Store :=
  {| storage := storage s; lock_held := b; ttl_attr := ttl_attr s;
     dicts := dicts s; next := next s |}.

Abbreviation SM := (M Store).

(** The contents of the dict object at [l]. *)
Definition deref (s : Store) (l : loc) : dict :=
  match dicts s !! l with Some d => d | None => [] end.

(** A new dict object with contents [v]. *)
Definition alloc (v : dict) : SM loc := fun s =>
  Ret (next s) {| storage := storage s; lock_held := lock_held s; ttl_attr := ttl_attr s;
                  dicts := <[next s := v]> (dicts s); next := N.succ (next s) |}.

(** [target.update(source)] on the dict object [target], in place. *)
Definition update_dict (target source : loc) : SM unit := fun s =>
  Ret tt {| storage := storage s; lock_held := lock_held s; ttl_attr := ttl_attr s;
            dicts := <[target := dict_update (deref s target) (deref s source)]> (dicts s);
            next := next s |}.

(** [d or {}]: the dict object [d] itself when it is not empty, otherwise
    a new empty dict. *)
Definition or_empty (d : loc) : SM loc := fun s =>
  match deref s d with
  | [] => alloc [] s
  | _ => Ret d s
  end.

(** [async with self._lock: body], as in [Memory.with_lock]. *)
Definition with_lock {A} (body : SM A) : SM A := fun s =>
  if lock_held s then Hang
  else match body (set_lock true s) with
       | Ret a s' => Ret a (set_lock false s')
       | Exc e s' => Exc e (set_lock false s')
       | Hang => Hang
       end.

(** [_get_state_data]. *)
Definition _get_state_data (key : string) : SM SD := fun s =>
  match storage s !! key with
  | Some sd => Ret sd s
  | None => Exc StateNotFoundError s
  end.

(** [finish_state]. *)
Definition finish_state (key : string) : SM unit :=
  with_lock (modify (set_storage (delete key))).

(** [delete_state]. *)
Definition delete_state (key : string) : SM unit := finish_state key.

(** [get_state(key, raise_on_not_found)]: the stored [StateData] object. *)
Definition get_state (key : string) (raise_on_not_found : bool) : SM (option SD) :=
  try_except (let* sd := _get_state_data key in mret (Some sd))
    StateNotFoundError
    (if raise_on_not_found then raise StateNotFoundError else mret None).

(** [state_data.expires_at and state_data.expires_at <= now]. *)
Definition expired_at (now : Z) (sd : SD) : bool :=
  match sd_expires_at sd with Some e => e <=? now | None => false end.

(** [_check_expired]. *)
Definition _check_expired (now : Z) (key : string) : SM bool :=
  try_except
    (let* sd := _get_state_data key in
     match sd_expires_at sd with
     | Some e => if e <=? now then finish_state key ;; mret true else mret false
     | None => mret false
     end)
    StateNotFoundError (mret true).

(** [get_state_data]. *)
Definition get_state_data (now : Z) (key : string) : SM SD :=
  with_lock (
    let* expired := _check_expired now key in
    if expired then raise StateNotFoundError
    else fun s => match storage s !! key with
                  | Some sd => Ret sd s
                  | None => Exc KeyError s
                  end).

(** [now + timedelta(seconds=self.ttl)] when [self.ttl] is set and positive. *)
Definition ttl_expiry (now : Z) (s : Store) : option Z :=
  match ttl_attr s with
  | Some t => if 0 <? t then Some (now + t) else None
  | None => None
  end.

(** [set_state(key, state_data)] with a [StateData] (the only argument
    [FSMContext] passes): a new [StateData] with the same [data] dict
    object. *)
Definition set_state (now : Z) (key : string) (sd : SD) : SM unit := fun s =>
  let sd' := {| sd_state := sd_state sd; sd_data := sd_data sd;
                sd_created_at := sd_created_at sd; sd_updated_at := now;
                sd_expires_at := match ttl_expiry now s with
                                 | Some e => Some e
                                 | None => sd_expires_at sd
                                 end |} in
  with_lock (modify (set_storage (insert key sd'))) s.

End Shared.

Module Context.

(** The [state] argument: [None], a [str], or a [State] (whose missing
    [.value] attribute raises [AttributeError]). *)
Inductive state_arg := SNone | SStr (s : string) | SStateObj.

Definition with_key {A} (u : Keys.Update) (k : string -> Shared.SM A) : Shared.SM A :=
  match Keys.fsm_get_key u with inl key => k key | inr e => raise e end.

Definition get_state (u : Keys.Update) : Shared.SM (option string) :=
  with_key u (fun key =>
    try_except (let* d := Shared.get_state key false in mret (option_map Shared.sd_state d))
      StateNotFoundError (mret None)).

(** [set_state(update, state, data)]; [data] is the address of the
    caller's dict object, or [None]. *)
Definition set_state (now : Z) (u : Keys.Update) (st : state_arg) (data : option Shared.loc)
    : Shared.SM unit :=
  with_key u (fun key =>
    match st with
    | SNone => Shared.delete_state key
    | SStateObj => raise AttributeError
    | SStr state_value =>
        let* existing_data := Shared.get_state key false in
        let* current_data :=
          match existing_data with
          | Some e =>
              match data with
              | Some d => Shared.update_dict (Shared.sd_data e) d ;; mret (Shared.sd_data e)
              | None => Shared.or_empty (Shared.sd_data e)
              end
          | None =>
              match data with
              | Some d => Shared.or_empty d
              | None => Shared.alloc []
              end
          end in
        let created_at := match existing_data with
                          | Some e => Shared.sd_created_at e
                          | None => now
                          end in
        Shared.set_state now key
          {| Shared.sd_state := state_value; Shared.sd_data := current_data;
             Shared.sd_created_at := created_at; Shared.sd_updated_at := now;
             Shared.sd_expires_at := None |}
    end).

(** [get_data(update)]: the stored dict object, or a new [{}]. *)
Definition get_data (u : Keys.Update) : Shared.SM Shared.loc :=
  with_key u (fun key =>
    try_except
      (let* d := Shared.get_state key false in
       match d with Some e => mret (Shared.sd_data e) | None => Shared.alloc [] end)
      StateNotFoundError (Shared.alloc [])).

Definition finish (u : Keys.Update) : Shared.SM unit :=
  with_key u Shared.delete_state.

Definition get_state_data (u : Keys.Update) : Shared.SM (option string * Shared.loc) :=
  with_key u (fun key =>
    try_except
      (let* d := Shared.get_state key false in
       match d with
       | Some e => mret (Some (Shared.sd_state e), Shared.sd_data e)
       | None => let* l := Shared.alloc [] in mret (None, l)
       end)
      StateNotFoundError (let* l := Shared.alloc [] in mret (None, l))).

(** [set_state_data(update, state, **data)]: [existing_data.created_at] on
    the [None] that [get_state] returns for a missing key raises
    [AttributeError], which the [except StateNotFoundError] does not
    catch. [data or {}] is a new dict in both cases (the dict of the
    keyword arguments, or [{}]), with contents [kw]. *)
Definition set_state_data (now : Z) (u : Keys.Update) (st : state_arg) (kw : dict)
    : Shared.SM unit :=
  with_key u (fun key =>
    match st with
    | SNone => Shared.delete_state key
    | SStateObj => raise AttributeError
    | SStr state_value =>
        let* created_at := try_except
          (let* existing_data := Shared.get_state key false in
           match existing_data with
           | Some e => mret (Shared.sd_created_at e)
           | None => raise AttributeError
           end)
          StateNotFoundError (mret now) in
        let* l := Shared.alloc kw in
        Shared.set_state now key
          {| Shared.sd_state := state_value; Shared.sd_data := l;
             Shared.sd_created_at := created_at; Shared.sd_updated_at := now;
             Shared.sd_expires_at := None |}
    end).

End Context.


(* ------------------------------------------------------------------ *)
(** ** [PatchHelper._get_data_for_handler] ([patch_helper.py]) *)

Module Helper.

(** A keyword argument for the handler: [self.state], [self], or a value
    of [self._data]. *)
Inductive hval := HState (s : string) | HHelper | HData (v : pyval).

(** [_get_data_for_handler(arguments)] with [self.state = st] and
    [self._data = d]; [arguments] are the parameter names. *)
Definition get_data_for_handler (arguments : list string) (st : string)
    (d : list (string * pyval)) : list (string * hval) :=
  let kw1 := if str_mem "state" arguments then dict_set "state" (HState st) [] else [] in
  let kw2 := if str_mem "patch_helper" arguments then dict_set "patch_helper" HHelper kw1
             else kw1 in
  match d with
  | [] => kw2
  | _ => dict_update kw2 (map (fun kv => (kv.1, HData kv.2))
                            (List.filter (fun kv => str_mem kv.1 arguments) d))
  end.

(** [update_data] with the keyword arguments [kwargs]: [self._data.update(kwargs)]. *)
Definition update_data (d kw : list (string * pyval)) : list (string * pyval) := dict_update d kw.

(** [get(key, default)]: [self._data.get(key, default)]. *)
Definition get (d : list (string * pyval)) (key : string) (default : pyval) : pyval :=
  match dict_get key d with Some v => v | None => default end.

End Helper.

(* ------------------------------------------------------------------ *)
(** * Sanity checks on concrete inputs *)

Example z_to_string_ex : z_to_string (-1001234567890) = "-1001234567890"%string.
Proof. reflexivity. Qed.

Example create_key_test_message :
  Keys.create_key 12345
    {| Keys.u_from_user := Keys.Val {| Keys.user_id := 54321 |};
       Keys.u_message := Keys.Missing;
       Keys.u_chat := Keys.Val {| Keys.chat_id := -1001234567890 |} |}
  = "12345-54321--1001234567890"%string.
Proof. reflexivity. Qed.

Definition sd0 : StateData :=
  {| state := "s"; data := []; created_at := 0; updated_at := 0; expires_at := Some 5 |}.

Definition mem_with (k : string) (sd : StateData) : Memory.MemoryStorage :=
  Memory.set_storage (insert k sd) Memory.init.

Example memory_get_data_live :
  Memory.get_data 3 "k" (mem_with "k" sd0) = Ret [] (mem_with "k" sd0).
Proof. reflexivity. Qed.

Example memory_get_data_expired_hangs :
  Memory.get_data 7 "k" (mem_with "k" sd0) = Hang.
Proof. reflexivity. Qed.

(* ------------------------------------------------------------------ *)
(** * Helper lemmas *)

(** stdpp makes [String.append] opaque to [simpl]; its two equations. *)
Lemma s_app_nil (b : string) : (EmptyString +:+ b)%string = b.
Proof. reflexivity. Qed.

Lemma s_app_cons c (a b : string) : (String c a +:+ b)%string = String c (a +:+ b).
Proof. reflexivity. Qed.

Lemma append_cancel_l (p a b : string) : (p +:+ a)%string = (p +:+ b)%string -> a = b.
Proof.
  induction p as [|c p IH]; rewrite ?s_app_nil, ?s_app_cons; [auto|].
  intros H; injection H; auto.
Qed.

Lemma append_assoc_s (a b c : string) : ((a +:+ b) +:+ c)%string = (a +:+ (b +:+ c))%string.
Proof.
  induction a as [|x a IH]; [reflexivity|].
  rewrite !s_app_cons. f_equal. exact IH.
Qed.

(** The two namespaces the backend writes. *)
Definition redis_ns (p : string) : Prop := p = Redis.META_PREFIX \/ p = Redis.DATA_PREFIX.

(** [_get_key] is injective on the namespace and the key. *)
Lemma redis_get_key_inj cfg p1 p2 k1 k2 :
  redis_ns p1 -> redis_ns p2 ->
  Redis._get_key cfg p1 k1 = Redis._get_key cfg p2 k2 -> p1 = p2 /\ k1 = k2.
Proof.
  unfold Redis._get_key, Redis._key.
  intros H1 H2 H.
  case_bool_decide as Hp.
  - destruct H1 as [-> | ->], H2 as [-> | ->]; cbv [String.append] in H; injection H;
      try discriminate; auto.
  - rewrite !(append_assoc_s (Redis.key_prefix cfg)) in H. apply append_cancel_l in H.
    destruct H1 as [-> | ->], H2 as [-> | ->]; cbv [String.append] in H; injection H;
      try discriminate; auto.
Qed.

Lemma redis_get_key_ne cfg p1 p2 k1 k2 :
  redis_ns p1 -> redis_ns p2 -> k1 <> k2 ->
  Redis._get_key cfg p1 k1 <> Redis._get_key cfg p2 k2.
Proof. intros H1 H2 Hk E. apply Hk, (redis_get_key_inj cfg p1 p2 k1 k2 H1 H2 E). Qed.

(** With the lock free, [finish_state] removes exactly [key]. *)
Lemma redis_meta_data_ne cfg key :
  Redis._get_key cfg Redis.DATA_PREFIX key <> Redis._get_key cfg Redis.META_PREFIX key.
Proof.
  intros E. apply redis_get_key_inj in E; [|right; reflexivity|left; reflexivity].
  destruct E as [E _]. discriminate E.
Qed.

Lemma s_length_app (a b : string) :
  String.length (a +:+ b)%string = (String.length a + String.length b)%nat.
Proof.
  induction a as [|c a IH]; [reflexivity|].
  rewrite s_app_cons. simpl. now rewrite IH.
Qed.

Lemma memory_finish_state_run (s : Memory.MemoryStorage) key :
  Memory.lock_held s = false ->
  Memory.finish_state key s =
    Ret tt (Memory.set_lock false (Memory.set_storage (delete key) (Memory.set_lock true s))).
Proof. intros H. unfold Memory.finish_state, Memory.with_lock. now rewrite H. Qed.

(* ------------------------------------------------------------------ *)
(** * Claims *)

(** C7: on every backend, [finish_state(key)] leaves the records of every
    other key unchanged (also when [key] is absent), and a second
    [finish_state(key)] either succeeds (memory, redis) or raises only
    [StateNotFoundError], the "already gone" signal (mongo), leaving the
    store as it was. *)
Theorem finish_state_isolated_idempotent :
  (forall (s : Memory.MemoryStorage) (key : string),
     Memory.lock_held s = false ->
     match Memory.finish_state key s with
     | Ret _ s1 =>
         (forall k', k' <> key -> Memory.storage s1 !! k' = Memory.storage s !! k') /\
         match Memory.finish_state key s1 with
         | Ret _ s2 => Memory.storage s2 = Memory.storage s1
         | _ => False
         end
     | _ => False
     end) /\
  (forall (cfg : Redis.RedisStorage) (db : Redis.rdb) (key : string),
     match Redis.finish_state cfg key db with
     | Ret _ db1 =>
         (forall k' p, k' <> key -> redis_ns p ->
            db1 !! Redis._get_key cfg p k' = db !! Redis._get_key cfg p k') /\
         match Redis.finish_state cfg key db1 with
         | Ret _ db2 => db2 = db1
         | _ => False
         end
     | _ => False
     end) /\
  (forall (s : Mongo.MongoStorage) (key : string),
     match Mongo.finish_state key s with
     | Ret _ s1 | Exc StateNotFoundError s1 =>
         (forall k', k' <> key -> Mongo.coll s1 !! k' = Mongo.coll s !! k') /\
         match Mongo.finish_state key s1 with
         | Exc StateNotFoundError s2 => Mongo.coll s2 = Mongo.coll s1
         | _ => False
         end
     | _ => False
     end).
Proof.
  split; [|split].
  - intros s key Hl. rewrite (memory_finish_state_run s key Hl).
    split.
    + intros k' Hk. simpl. now rewrite lookup_delete_ne by congruence.
    + rewrite memory_finish_state_run by reflexivity. simpl.
      now rewrite delete_delete_eq.
  - intros cfg db key. unfold Redis.finish_state, wrap_all, Redis.r_delete.
    cbv [mbind M_bind modify]. split.
    + intros k' p Hk Hp.
      rewrite !lookup_delete_ne; [reflexivity| |].
      * apply redis_get_key_ne; [left; reflexivity | exact Hp | congruence].
      * apply redis_get_key_ne; [right; reflexivity | exact Hp | congruence].
    + apply map_eq; intros i. rewrite !lookup_delete.
      repeat case_decide; done.
  - intros s key. unfold Mongo.finish_state, wrap_exn, try_except, raise.
    destruct (Mongo.coll s !! key) eqn:E; simpl.
    + split.
      * intros k' Hk. now rewrite lookup_delete_ne by congruence.
      * now rewrite lookup_delete_eq.
    + split; [reflexivity|]. now rewrite E.
Qed.

(** Instance of C7 at the fresh in-memory store. *)
Lemma finish_state_isolated_idempotent_witness :
  Memory.lock_held Memory.init = false /\
  match Memory.finish_state "1-2-3" Memory.init with
  | Ret _ s1 =>
      (forall k', k' <> "1-2-3"%string -> Memory.storage s1 !! k' = Memory.storage Memory.init !! k') /\
      match Memory.finish_state "1-2-3" s1 with
      | Ret _ s2 => Memory.storage s2 = Memory.storage s1
      | _ => False
      end
  | _ => False
  end.
Proof.
  split; [reflexivity|].
  apply (proj1 finish_state_isolated_idempotent Memory.init "1-2-3"). reflexivity.
Defined.

(** A Redis instance without key prefix. *)
Definition redis_cfg0 : Redis.RedisStorage :=
  {| Redis.key_prefix := EmptyString; Redis.max_data_size := MAX_DATA_SIZE |}.

(** Run a coroutine and keep the final state (the store after an exception
    too). *)
Definition final_state {S A} (m : M S A) (s : S) (dflt : S) : S :=
  match m s with Ret _ s' | Exc _ s' => s' | Hang => dflt end.

(** The Redis store after [set_state("x", "k", ttl=10s)] at time 0 and
    [set_data({"a": 1}, "k")] at time 1 s. *)
Definition redis_db_ttl_then_data : Redis.rdb :=
  final_state
    (Redis.set_state 0 redis_cfg0 "x" "k" (Some 10000000) ;;
     Redis.set_data 1000000 redis_cfg0 (PDict [("a", PInt 1)]) "k" None) ∅ ∅.

(** A Mongo document past its [expires_at], not yet swept by the TTL
    monitor. *)
Definition mongo_expired_doc : Mongo.MongoStorage :=
  {| Mongo.coll := {[ "k" := {| Mongo.d_state := Some "s"; Mongo.d_data := Some [("a", PInt 1)];
                                Mongo.d_created_at := Some 0; Mongo.d_updated_at := Some 0;
                                Mongo.d_expires_at := Some 5 |} ]};
     Mongo.indexes_done := true; Mongo.max_data_size := MAX_DATA_SIZE |}.

(** C2 (code_bug): readers do not treat an expired record as absent.
    Memory: the record ["k"] expired at 5 µs; at 7 µs [get_state_data],
    [get_data] and [get_or_create_state] never return ([_check_expired]
    calls [finish_state], which waits for the lock its caller holds).
    Redis: 20 s after a [set_state] with a 10 s TTL and a TTL-less
    [set_data], [get_state_data] reports not found but [get_data] still
    returns [{"a": 1}]. Mongo: [get_state_data] and [get_data] raise
    [AttributeError] on any document with [expires_at] set. *)
Lemma expired_record_readers_fail :
  Memory.get_state_data 7 "k" (mem_with "k" sd0) = Hang /\
  Memory.get_data 7 "k" (mem_with "k" sd0) = Hang /\
  Memory.get_or_create_state 7 "k" None None (mem_with "k" sd0) = Hang /\
  (match Redis.get_state_data 20000000 redis_cfg0 "k" redis_db_ttl_then_data with
   | Exc StateNotFoundError _ => True | _ => False end) /\
  (match Redis.get_data 20000000 redis_cfg0 "k" redis_db_ttl_then_data with
   | Ret d _ => d = [("a", PInt 1)] | _ => False end) /\
  (match Mongo.get_state_data "k" mongo_expired_doc with
   | Exc AttributeError _ => True | _ => False end) /\
  (match Mongo.get_data "k" mongo_expired_doc with
   | Exc AttributeError _ => True | _ => False end).
Proof. vm_compute. repeat split. Qed.

(** C6 (code_bug): [get_data] on an expired record does not return [{}]:
    it never returns on the memory backend, returns the stale data on the
    redis backend (data key written without TTL), and raises
    [AttributeError] on the mongo backend. On a key without any record it
    returns [{}] on all three. *)
Lemma get_data_expired_not_empty :
  Memory.get_data 7 "k" (mem_with "k" sd0) = Hang /\
  (match Redis.get_data 20000000 redis_cfg0 "k" redis_db_ttl_then_data with
   | Ret d _ => d <> [] | _ => False end) /\
  (match Mongo.get_data "k" mongo_expired_doc with
   | Exc AttributeError _ => True | _ => False end) /\
  (match Memory.get_data 7 "other" (mem_with "k" sd0) with
   | Ret d _ => d = [] | _ => False end) /\
  (match Redis.get_data 0 redis_cfg0 "other" ∅ with
   | Ret d _ => d = [] | _ => False end) /\
  (match Mongo.get_data "other" mongo_expired_doc with
   | Ret d _ => d = [] | _ => False end).
Proof. vm_compute. repeat split; discriminate. Qed.

(** C8 (code_bug): the in-memory [cleanup_expired] never returns a count:
    on a store without expired records it raises [NameError] (the unbound
    [keys]); with an expired record it never returns. The mongo
    [cleanup_expired] raises [AttributeError]; the redis one returns 0. *)
Lemma cleanup_expired_fails :
  (match Memory.cleanup_expired 0 Memory.init with
   | Exc NameError _ => True | _ => False end) /\
  (match Memory.cleanup_expired 3 (mem_with "k" sd0) with
   | Exc NameError _ => True | _ => False end) /\
  Memory.cleanup_expired 7 (mem_with "k" sd0) = Hang /\
  (match Mongo.cleanup_expired mongo_expired_doc with
   | Exc AttributeError _ => True | _ => False end) /\
  Redis.cleanup_expired ∅ = Ret 0 ∅.
Proof. vm_compute. repeat split. Qed.

(** With the lock held, [_check_expired] either waits forever (an expired
    record: [finish_state] re-acquires the lock) or answers without
    touching the store. *)
Lemma memory_check_expired_locked now key (s : Memory.MemoryStorage) :
  Memory.lock_held s = true ->
  Memory._check_expired now key s = Hang \/ exists b, Memory._check_expired now key s = Ret b s.
Proof.
  intros Hl. unfold Memory._check_expired, try_except, Memory._get_state_data.
  cbv [bindM mbind M_bind mret M_ret].
  destruct (Memory.storage s !! key) as [sd|]; simpl; [|eauto].
  destruct (expires_at sd) as [e|]; [|eauto].
  destruct (e <=? now); [|eauto].
  left. unfold Memory.finish_state, Memory.with_lock. now rewrite Hl.
Qed.

Lemma memory_collect_expired_locked now ks (s : Memory.MemoryStorage) :
  Memory.lock_held s = true ->
  Memory.collect_expired now ks s = Hang \/ exists rm, Memory.collect_expired now ks s = Ret rm s.
Proof.
  intros Hl. induction ks as [|k ks IH]; simpl; [eauto|].
  cbv [bindM mbind M_bind mret M_ret].
  destruct (memory_check_expired_locked now k s Hl) as [-> | [b ->]]; [auto|].
  destruct IH as [-> | [rm ->]]; eauto.
Qed.

(** The in-memory [cleanup_expired] never returns a count: it raises
    [NameError] or never returns, whatever the store holds. *)
Lemma memory_cleanup_expired_never_returns now (s : Memory.MemoryStorage) :
  Memory.lock_held s = false ->
  Memory.cleanup_expired now s = Hang \/
  exists s', Memory.cleanup_expired now s = Exc NameError s'.
Proof.
  intros Hl. unfold Memory.cleanup_expired, Memory.with_lock. rewrite Hl.
  cbv [bindM mbind M_bind gets].
  set (s1 := Memory.set_lock true s).
  destruct (memory_collect_expired_locked now
              (map fst (map_to_list (Memory.storage s1))) s1 eq_refl) as [-> | [rm ->]];
    [auto|].
  right. generalize 0 as c. generalize s1. induction rm as [|k rm IH]; intros s2 c.
  - simpl. eauto.
  - simpl. cbv [mbind M_bind modify]. apply IH.
Qed.

Lemma memory_set_data_run now dd key ttl (s : Memory.MemoryStorage) :
  Memory.lock_held s = false -> repr_size dd <= Memory.max_data_size s ->
  Memory.set_data now (PDict dd) key ttl s =
    Ret tt (Memory.set_lock false (Memory.set_storage (insert key
      (match Memory.storage s !! key with
       | Some ex => {| state := state ex; data := dd; created_at := created_at ex;
                       updated_at := now; expires_at := Memory.expiry_of now ttl |}
       | None => {| state := "*"; data := dd; created_at := now; updated_at := now;
                    expires_at := Memory.expiry_of now ttl |}
       end)) (Memory.set_lock true s))).
Proof.
  intros Hl Hsz. unfold Memory.set_data.
  replace (Memory.max_data_size s <? repr_size dd) with false by lia.
  unfold Memory.with_lock. rewrite Hl.
  unfold try_except, Memory._get_state_data. cbv [bindM mbind M_bind mret M_ret modify].
  simpl. destruct (Memory.storage s !! key); reflexivity.
Qed.

(** C10 (as amended): on the in-memory backend, [set_data(data, key, ttl)]
    on a key with a record keeps the record's [state] and [created_at],
    stores the new data with [updated_at = now], and sets [expires_at] to
    [now + ttl] for a non-zero [ttl] and to [None] without [ttl] or with a
    zero [ttl], whatever expiry the record had. *)
Theorem memory_set_data_resets_expiry now dd key ttl (s : Memory.MemoryStorage) sd :
  Memory.lock_held s = false -> Memory.storage s !! key = Some sd ->
  repr_size dd <= Memory.max_data_size s ->
  exists s', Memory.set_data now (PDict dd) key ttl s = Ret tt s' /\
    Memory.lock_held s' = false /\
    Memory.storage s' !! key =
      Some {| state := state sd; data := dd; created_at := created_at sd; updated_at := now;
              expires_at := match ttl with
                            | Some t => if t =? 0 then None else Some (now + t)
                            | None => None
                            end |}.
Proof.
  intros Hl Hk Hsz. rewrite (memory_set_data_run now dd key ttl s Hl Hsz).
  eexists; split; [reflexivity|]. split; [reflexivity|].
  simpl. rewrite Hk, lookup_insert_eq. unfold Memory.expiry_of, td_truthy.
  destruct ttl as [t|]; [|reflexivity].
  destruct (t =? 0); reflexivity.
Qed.

Lemma memory_set_data_resets_expiry_witness :
  exists s', Memory.set_data 3 (PDict [("weight", PStr "70")]) "k" (Some 10) (mem_with "k" sd0)
               = Ret tt s' /\
    Memory.lock_held s' = false /\
    Memory.storage s' !! "k" =
      Some {| state := "s"; data := [("weight", PStr "70")]; created_at := 0; updated_at := 3;
              expires_at := Some 13 |}.
Proof.
  apply (memory_set_data_resets_expiry 3 [("weight", PStr "70")] "k" (Some 10)
           (mem_with "k" sd0) sd0); vm_compute; congruence.
Defined.

(** C10 counterexample: with [ttl = timedelta(0)] the expiry becomes
    [None], not [now + ttl]. *)
Lemma memory_set_data_zero_ttl :
  match Memory.set_data 3 (PDict []) "k" (Some 0) (mem_with "k" sd0) with
  | Ret _ s' => (Memory.storage s' !! "k") ≫= expires_at = None /\
                (Memory.storage s' !! "k") ≫= expires_at <> Some (3 + 0)
  | _ => False
  end.
Proof. vm_compute. split; [reflexivity | discriminate]. Qed.

(** Redis [set_data] without [ttl] on dict data within the limit: the
    pipeline only writes or deletes the data key. *)
Lemma redis_set_data_no_ttl_run now cfg dd key (db : Redis.rdb) :
  json_size dd <= Redis.max_data_size cfg ->
  Redis.set_data now cfg (PDict dd) key None db =
    Ret tt (match dd with
            | [] => delete (Redis._get_key cfg Redis.DATA_PREFIX key) db
            | _ => <[Redis._get_key cfg Redis.DATA_PREFIX key :=
                      {| Redis.rval := Redis.RString dd; Redis.rdeadline := None |}]> db
            end).
Proof.
  intros Hsz. unfold Redis.set_data.
  replace (Redis.max_data_size cfg <? json_size dd) with false by lia.
  unfold wrap_exn, try_except, Redis.r_delete, Redis.r_set.
  cbv [bindM mbind M_bind mret M_ret modify].
  destruct dd; reflexivity.
Qed.








(** [isinstance(v, dict)]. *)
Definition is_dict (v : pyval) : bool := match v with PDict _ => true | _ => false end.

(** [\xa0] (NO-BREAK SPACE, two UTF-8 bytes) repeated [n] times. *)
Definition nbsp_str (n : nat) : string := string_of_bytes (concat (repeat [194; 160] n)).

Lemma nbsp_bytes n : bytes_of (nbsp_str n) = concat (repeat [194; 160] n).
Proof.
  induction n as [|n IH]; [reflexivity|].
  unfold nbsp_str, bytes_of, string_of_bytes in *. simpl. now rewrite IH.
Qed.

Lemma nbsp_no_quote n : has_char "'"%char (nbsp_str n) = false.
Proof.
  induction n as [|n IH]; [reflexivity|].
  unfold has_char, nbsp_str, string_of_bytes in *. simpl. exact IH.
Qed.

Lemma nbsp_decode n : utf8_decode (concat (repeat [194; 160] n)) = repeat 160 n.
Proof. induction n as [|n IH]; [reflexivity|]. simpl. now rewrite IH. Qed.

Lemma concat_repeat_length (x : string) n :
  String.length (String.concat EmptyString (repeat x n)) = (n * String.length x)%nat.
Proof.
  induction n as [|n IH]; [reflexivity|].
  destruct n as [|n].
  - simpl. rewrite Nat.add_0_r. induction x; simpl; auto.
  - change (String.concat EmptyString (repeat x (S (S n))))
      with (x +:+ String.concat EmptyString (repeat x (S n)))%string.
    rewrite s_length_app, IH. lia.
Qed.

(** [len(str({'a': '\xa0' * n}).encode('utf-8'))] is [4 n + 9]: each
    [\xa0] is written [\xa0]. *)
Lemma nbsp_repr_size n : repr_size [("a", PStr (nbsp_str n))] = Z.of_nat (4 * n + 9).
Proof.
  unfold repr_size. cbn [py_repr map join fst snd].
  rewrite !s_length_app. change (String.length (str_repr "a")) with 3%nat.
  unfold str_repr.
  rewrite nbsp_no_quote, nbsp_bytes, nbsp_decode, List.map_repeat. cbn [andb].
  rewrite !s_length_app, concat_repeat_length. 
  match goal with |- context [String.length (if ?b then ?x else ?y)] =>
    change (String.length (if b then x else y)) with 4%nat end.
  cbn. f_equal. lia.
Qed.

(** C3 (code_bug): [set_data] raises [StateValidationError] for a non-dict
    argument and for a dict whose serialised size (memory, mongo:
    [str(data)]; redis: [json.dumps(data)]) exceeds the instance's maximum,
    on every backend, leaving the store unchanged; [set_state("", key)]
    raises [StateValidationError] on the redis and mongo backends. The
    in-memory [set_state] does not: it has the signature
    [set_state(key, state_data)], so the call [set_state("", key)] in the
    order [BaseStorage] declares raises [ValueError] (the key string is no
    [StateData]), and a [StateData] with the empty state is stored without
    a check. *)
Theorem validation_errors :
  (forall now v key ttl (s : Memory.MemoryStorage), is_dict v = false ->
     Memory.set_data now v key ttl s = Exc StateValidationError s) /\
  (forall now cfg v key ttl (db : Redis.rdb), is_dict v = false ->
     Redis.set_data now cfg v key ttl db = Exc StateValidationError db) /\
  (forall v key ttl (s : Mongo.MongoStorage), is_dict v = false ->
     Mongo.set_data v key ttl s = Exc StateValidationError s) /\
  (forall now dd key ttl (s : Memory.MemoryStorage), Memory.max_data_size s < repr_size dd ->
     Memory.set_data now (PDict dd) key ttl s = Exc StateValidationError s) /\
  (forall now cfg dd key ttl (db : Redis.rdb), Redis.max_data_size cfg < json_size dd ->
     Redis.set_data now cfg (PDict dd) key ttl db = Exc StateValidationError db) /\
  (forall dd key ttl (s : Mongo.MongoStorage), Mongo.max_data_size s < repr_size dd ->
     Mongo.set_data (PDict dd) key ttl s = Exc StateValidationError s) /\
  (forall now cfg key ttl (db : Redis.rdb),
     Redis.set_state now cfg EmptyString key ttl db = Exc StateValidationError db) /\
  (forall key ttl (s : Mongo.MongoStorage),
     Mongo.set_state EmptyString key ttl s = Exc StateValidationError s) /\
  (forall now key (s : Memory.MemoryStorage),
     Memory.set_state now EmptyString (Memory.NotStateData (PStr key)) s = Exc ValueError s) /\
  (forall now key sd (s : Memory.MemoryStorage),
     Memory.lock_held s = false -> state sd = EmptyString ->
     exists s', Memory.set_state now key (Memory.IsStateData sd) s = Ret tt s' /\
       option_map state (Memory.storage s' !! key) = Some EmptyString).
Proof.
  assert (Hlast : forall now key sd (s : Memory.MemoryStorage),
     Memory.lock_held s = false -> state sd = EmptyString ->
     exists s', Memory.set_state now key (Memory.IsStateData sd) s = Ret tt s' /\
       option_map state (Memory.storage s' !! key) = Some EmptyString).
  { intros now key sd s Hl Hs. unfold Memory.set_state, Memory.with_lock. rewrite Hl.
    cbv [modify]. eexists; split; [reflexivity|]. simpl. rewrite lookup_insert_eq. simpl. now rewrite Hs. }
  refine (conj _ (conj _ (conj _ (conj _ (conj _ (conj _ (conj _ (conj _ (conj _ Hlast))))))))).
  - intros now v key ttl s H; destruct v; done.
  - intros now cfg v key ttl db H; destruct v; done.
  - intros v key ttl s H; destruct v; done.
  - intros now dd key ttl s H. unfold Memory.set_data.
    now replace (Memory.max_data_size s <? repr_size dd) with true by lia.
  - intros now cfg dd key ttl db H. unfold Redis.set_data.
    now replace (Redis.max_data_size cfg <? json_size dd) with true by lia.
  - intros dd key ttl s H. unfold Mongo.set_data.
    now replace (Mongo.max_data_size s <? repr_size dd) with true by lia.
  - reflexivity.
  - reflexivity.
  - reflexivity.
Qed.

(** The witness: a list argument; [{'a': '\xa0' * 349525}], whose
    [str()] takes 1398109 bytes, over the in-memory limit of 1 MiB; a dict
    over a redis limit of 4 bytes; [set_state("", "k")] on the in-memory
    store. *)
Lemma validation_errors_witness :
  Memory.set_data 0 (PList [PInt 1]) "k" None Memory.init = Exc StateValidationError Memory.init /\
  Memory.set_data 0 (PDict [("a", PStr (nbsp_str (Z.to_nat 349525)))]) "k" None Memory.init
    = Exc StateValidationError Memory.init /\
  Redis.set_data 0 {| Redis.key_prefix := EmptyString; Redis.max_data_size := 4 |}
    (PDict [("weight", PStr "70")]) "k" None ∅ = Exc StateValidationError ∅ /\
  Memory.set_state 0 EmptyString (Memory.NotStateData (PStr "k")) Memory.init
    = Exc ValueError Memory.init /\
  exists s', Memory.set_state 0 "k"
      (Memory.IsStateData {| state := EmptyString; data := []; created_at := 0;
                             updated_at := 0; expires_at := None |}) Memory.init = Ret tt s' /\
    option_map state (Memory.storage s' !! "k") = Some EmptyString.
Proof.
  split; [apply (proj1 validation_errors 0 (PList [PInt 1]) "k" None Memory.init); reflexivity|].
  split.
  { apply (proj1 (proj2 (proj2 (proj2 validation_errors)))).
    rewrite nbsp_repr_size. vm_compute. reflexivity. }
  split; [apply (proj1 (proj2 (proj2 (proj2 (proj2 validation_errors))))); vm_compute; reflexivity|].
  split; [apply (proj1 (proj2 (proj2 (proj2 (proj2 (proj2 (proj2 (proj2 (proj2 validation_errors)))))))))|].
  apply (proj2 (proj2 (proj2 (proj2 (proj2 (proj2 (proj2 (proj2 (proj2 validation_errors)))))))));
    reflexivity.
Defined.



























Lemma redis_live_mono t t' e : t <= t' -> Redis.live t' e = true -> Redis.live t e = true.
Proof. unfold Redis.live. destruct (Redis.rdeadline e); [lia|auto]. Qed.

Lemma redis_set_state_no_ttl_run now cfg st key (db : Redis.rdb) :
  st <> EmptyString ->
  match db !! Redis._get_key cfg Redis.META_PREFIX key with
  | None => True
  | Some e => Redis.live now e = true -> exists h, Redis.rval e = Redis.RHash h
  end ->
  Redis.set_state now cfg st key None db =
    Ret tt (<[Redis._get_key cfg Redis.META_PREFIX key :=
      match Redis.r_lookup now (Redis._get_key cfg Redis.META_PREFIX key) db with
      | Some {| Redis.rval := Redis.RHash h0; Redis.rdeadline := d |} =>
          {| Redis.rval := Redis.RHash
               {| Redis.h_state := Some st;
                  Redis.h_created_at := Some (match Redis.h_created_at h0 with
                                              | Some c => c | None => now end);
                  Redis.h_updated_at := Some now;
                  Redis.h_expires_at := Redis.h_expires_at h0 |};
             Redis.rdeadline := d |}
      | _ => {| Redis.rval := Redis.RHash {| Redis.h_state := Some st;
                  Redis.h_created_at := Some now; Redis.h_updated_at := Some now;
                  Redis.h_expires_at := None |}; Redis.rdeadline := None |}
      end]> db).
Proof.
  intros Hst Hm. unfold Redis.set_state. rewrite bool_decide_false by exact Hst.
  unfold wrap_exn, try_except, Redis._set_state_meta, Redis.r_hget_created_at,
    Redis.r_hgetall, Redis.r_hset.
  cbv [bindM mbind M_bind mret M_ret].
  unfold Redis.r_lookup in *. cbn beta.
  destruct (db !! Redis._get_key cfg Redis.META_PREFIX key) as [[v d]|] eqn:E;
    rewrite ?E; [|reflexivity].
  destruct (Redis.live now {| Redis.rval := v; Redis.rdeadline := d |}) eqn:Hl;
    simpl; rewrite ?E, ?Hl; simpl; [|reflexivity].
  destruct (Hm eq_refl) as [h Hv]. simpl in Hv. subst v. simpl.
  rewrite E, Hl. destruct (Redis.h_created_at h); reflexivity.
Qed.


(** Redis: [set_state(state, key)], [set_data(data, key)],
    [get_state_data(key)] return the state and the data written, with
    [created_at <= updated_at], when the meta key is absent or holds a live
    hash whose [created_at] is not after the first call and which outlives
    the last one. *)
Theorem redis_round_trip t1 t2 t3 cfg st dd key (db : Redis.rdb) :
  st <> EmptyString -> json_size dd <= Redis.max_data_size cfg -> t1 <= t3 ->
  match db !! Redis._get_key cfg Redis.META_PREFIX key with
  | None => True
  | Some e => Redis.live t3 e = true /\
              exists h, Redis.rval e = Redis.RHash h /\
                        forall c, Redis.h_created_at h = Some c -> c <= t1
  end ->
  exists db1 db2,
    Redis.set_state t1 cfg st key None db = Ret tt db1 /\
    Redis.set_data t2 cfg (PDict dd) key None db1 = Ret tt db2 /\
    exists r, Redis.get_state_data t3 cfg key db2 = Ret r db2 /\
    state r = st /\ data r = dd /\ created_at r <= updated_at r.
Proof.
  intros Hst Hsz Ht Hm.
  assert (Hm1 : match db !! Redis._get_key cfg Redis.META_PREFIX key with
                | None => True
                | Some e => Redis.live t1 e = true -> exists h, Redis.rval e = Redis.RHash h
                end).
  { destruct (db !! Redis._get_key cfg Redis.META_PREFIX key) as [e|]; [|auto].
    destruct Hm as (_ & h & Hh & _). eauto. }
  set (mk := Redis._get_key cfg Redis.META_PREFIX key) in *.
  set (dk := Redis._get_key cfg Redis.DATA_PREFIX key) in *.
  assert (Hne : dk <> mk) by apply redis_meta_data_ne.
  rewrite (redis_set_state_no_ttl_run t1 cfg st key db Hst Hm1). fold mk. do 2 eexists. split; [reflexivity|].
  rewrite redis_set_data_no_ttl_run by exact Hsz. fold dk. split; [reflexivity|].
  (* the meta entry written by [set_state] *)
  set (me := match Redis.r_lookup t1 mk db with
             | Some {| Redis.rval := Redis.RHash h0; Redis.rdeadline := d |} => _
             | _ => _ end).
  assert (Hme : Redis.live t3 me = true /\
                exists c x, Redis.rval me = Redis.RHash
                  {| Redis.h_state := Some st; Redis.h_created_at := Some c;
                     Redis.h_updated_at := Some t1; Redis.h_expires_at := x |} /\ c <= t1).
  { subst me. unfold Redis.r_lookup.
    destruct (db !! mk) as [[v d]|] eqn:E.
    - destruct Hm as (Hl & h & Hv & Hc). simpl in Hv. subst v.
      rewrite (redis_live_mono t1 t3 _ Ht Hl). simpl. split; [exact Hl|].
      do 2 eexists; split; [reflexivity|].
      destruct (Redis.h_created_at h) eqn:Ec; [now apply Hc | lia].
    - simpl. split; [reflexivity|]. do 2 eexists; split; [reflexivity | lia]. }
  clearbody me. destruct Hme as (Hl3 & c & x & Hv & Hc).
  assert (Hmk : (match dd with
                 | [] => delete dk (<[mk := me]> db)
                 | _ => <[dk := {| Redis.rval := Redis.RString dd; Redis.rdeadline := None |}]>
                          (<[mk := me]> db)
                 end) !! mk = Some me).
  { destruct dd; [rewrite lookup_delete_ne by congruence|rewrite lookup_insert_ne by congruence];
      apply lookup_insert_eq. }
  unfold Redis.get_state_data, wrap_all_but_not_found, Redis._get_state_meta, Redis.r_hgetall,
    Redis.get_data, wrap_exn, try_except, Redis.r_get.
  cbv [bindM mbind M_bind mret M_ret]. fold mk dk.
  unfold Redis.r_lookup. rewrite Hmk, Hl3.
  destruct me as [v d]. simpl in Hv. subst v. simpl.
  rewrite bool_decide_false by exact Hst. eexists.
  destruct dd as [|kv dd'].
  - rewrite lookup_delete_eq. simpl. repeat split; simpl; lia.
  - rewrite lookup_insert_eq. simpl. repeat split; simpl; lia.
Qed.

(** Redis: [set_state(state, key)] without [ttl] on a live meta hash with a
    [created_at] rewrites [state] and [updated_at] only, keeps the hash's
    expiry field and the key's TTL, and touches no other key (the data key
    in particular). *)
Theorem redis_set_state_frame now cfg st key (db : Redis.rdb) h c d :
  st <> EmptyString ->
  db !! Redis._get_key cfg Redis.META_PREFIX key =
    Some {| Redis.rval := Redis.RHash h; Redis.rdeadline := d |} ->
  Redis.live now {| Redis.rval := Redis.RHash h; Redis.rdeadline := d |} = true ->
  Redis.h_created_at h = Some c ->
  exists db', Redis.set_state now cfg st key None db = Ret tt db' /\
    db' !! Redis._get_key cfg Redis.META_PREFIX key =
      Some {| Redis.rval := Redis.RHash
                {| Redis.h_state := Some st; Redis.h_created_at := Some c;
                   Redis.h_updated_at := Some now; Redis.h_expires_at := Redis.h_expires_at h |};
              Redis.rdeadline := d |} /\
    (forall k, k <> Redis._get_key cfg Redis.META_PREFIX key -> db' !! k = db !! k).
Proof.
  intros Hst E Hl Hc.
  rewrite redis_set_state_no_ttl_run; [|exact Hst|rewrite E; eauto].
  eexists; split; [reflexivity|]. split.
  - rewrite lookup_insert_eq. unfold Redis.r_lookup. rewrite E, Hl, Hc. reflexivity.
  - intros k Hk. now rewrite lookup_insert_ne by congruence.
Qed.

(** Memory, through its own signature [set_state(key, StateData)]: then
    [set_data(data, key)] and [get_state_data(key)] return the state and
    the data written, with [created_at <= updated_at]. *)
Theorem memory_round_trip_native t1 t2 t3 key sd dd (s : Memory.MemoryStorage) :
  Memory.lock_held s = false -> repr_size dd <= Memory.max_data_size s ->
  created_at sd <= t2 ->
  exists s1 s2,
    Memory.set_state t1 key (Memory.IsStateData sd) s = Ret tt s1 /\
    Memory.set_data t2 (PDict dd) key None s1 = Ret tt s2 /\
    exists r, Memory.get_state_data t3 key s2 = Ret r s2 /\
      state r = state sd /\ data r = dd /\ created_at r <= updated_at r.
Proof.
  intros Hl Hsz Hc.
  unfold Memory.set_state, Memory.with_lock at 1. rewrite Hl.
  cbv [modify]. do 2 eexists. split; [reflexivity|].
  rewrite memory_set_data_run by (simpl; auto). split; [reflexivity|].
  simpl. rewrite lookup_insert_eq. simpl.
  unfold Memory.get_state_data, Memory.with_lock, Memory._check_expired, try_except,
    Memory._get_state_data.
  cbv [bindM mbind M_bind mret M_ret]. simpl. rewrite !lookup_insert_eq. simpl.
  rewrite lookup_insert_eq. eexists. repeat split; simpl; lia.
Qed.

(** The in-memory [set_state] called as [set_state(state, key)]: the key
    string is not a [StateData]. *)
Lemma memory_set_state_positional now st key (s : Memory.MemoryStorage) :
  Memory.set_state now st (Memory.NotStateData (PStr key)) s = Exc ValueError s.
Proof. reflexivity. Qed.

(** The mongo [set_state] never returns normally. *)
Lemma mongo_set_state_raises st key ttl (s : Mongo.MongoStorage) :
  Mongo.set_state st key ttl s =
    Exc (if bool_decide (st = EmptyString) then StateValidationError else AttributeError) s.
Proof. unfold Mongo.set_state. case_bool_decide; reflexivity. Qed.

(** C1 (code_bug): the round trip [set_state(state, key)],
    [set_data(data, key)], [get_state_data(key)] fails at its first call on
    two backends. The in-memory [set_state] takes [(key, state_data)] and
    raises [ValueError] on the key string in second position, for every
    state and key; the mongo [set_state] raises [AttributeError] for every
    non-empty state (and [StateValidationError] for the empty one), so it
    never returns. On the fresh stores of the spec's scenario,
    [set_state("waiting_weight", "1-2-3")] fails on both. *)
Theorem round_trip_set_state_fails :
  (forall now st key (s : Memory.MemoryStorage),
     Memory.set_state now st (Memory.NotStateData (PStr key)) s = Exc ValueError s) /\
  (forall st key ttl (s : Mongo.MongoStorage),
     Mongo.set_state st key ttl s = Exc StateValidationError s \/
     Mongo.set_state st key ttl s = Exc AttributeError s) /\
  Memory.set_state 0 "waiting_weight" (Memory.NotStateData (PStr "1-2-3")) Memory.init
    = Exc ValueError Memory.init /\
  Mongo.set_state "waiting_weight" "1-2-3" None
    {| Mongo.coll := ∅; Mongo.indexes_done := false; Mongo.max_data_size := MAX_DATA_SIZE |}
    = Exc AttributeError
        {| Mongo.coll := ∅; Mongo.indexes_done := false; Mongo.max_data_size := MAX_DATA_SIZE |}.
Proof.
  split; [exact memory_set_state_positional|]. split.
  - intros st key ttl s. rewrite mongo_set_state_raises. case_bool_decide; auto.
  - split; [apply memory_set_state_positional | apply mongo_set_state_raises].
Qed.

(** The in-memory record of key ["k"] with state ["s"] and data
    [{"a": 1}]. *)
Definition mem_k_a : Memory.MemoryStorage :=
  mem_with "k" {| state := "s"; data := [("a", PInt 1)]; created_at := 0; updated_at := 0;
                  expires_at := None |}.

(** C4 (code_bug): [set_state(state, key)] on an existing record does not
    update the record on two backends. In memory the call raises
    [ValueError] and the record keeps its old state; through the in-memory
    signature [set_state(key, StateData(state="t"))] the stored record is
    the new [StateData] as given, whose empty data replaces [{"a": 1}].
    The mongo [set_state] raises [AttributeError] for every store and
    non-empty state. *)
Theorem set_state_frame_fails :
  Memory.set_state 1 "t" (Memory.NotStateData (PStr "k")) mem_k_a = Exc ValueError mem_k_a /\
  (Memory.storage mem_k_a !! "k") ≫= (fun sd => Some (state sd)) = Some "s"%string /\
  (match Memory.set_state 1 "k"
           (Memory.IsStateData {| state := "t"; data := []; created_at := 1; updated_at := 1;
                                  expires_at := None |}) mem_k_a with
   | Ret _ s' => (Memory.storage s' !! "k") ≫= (fun sd => Some (data sd)) = Some [] /\
                 (Memory.storage s' !! "k") ≫= (fun sd => Some (created_at sd)) = Some 1
   | _ => False
   end) /\
  (forall key ttl (s : Mongo.MongoStorage),
     Mongo.set_state "t" key ttl s = Exc AttributeError s).
Proof.
  split; [apply memory_set_state_positional|]. split; [reflexivity|]. split.
  - vm_compute. split; reflexivity.
  - intros key ttl s. apply mongo_set_state_raises.
Qed.

(* ------------------------------------------------------------------ *)
(** * Further properties of the code *)

(** ** Helper lemmas *)

Lemma dict_get_set {V} (a k : string) (v : V) d :
  dict_get a (dict_set k v d) = if bool_decide (k = a) then Some v else dict_get a d.
Proof.
  induction d as [|[k' v'] r IH]; simpl.
  - reflexivity.
  - destruct (bool_decide (k' = k)) eqn:E1; simpl.
    + apply bool_decide_eq_true in E1. subst k'.
      destruct (bool_decide (k = a)); reflexivity.
    + apply bool_decide_eq_false in E1. rewrite IH.
      destruct (bool_decide (k' = a)) eqn:E2; [|reflexivity].
      apply bool_decide_eq_true in E2. subst a.
      rewrite bool_decide_false by congruence. reflexivity.
Qed.

Lemma dict_get_not_in {V} (a : string) (d : list (string * V)) :
  a ∉ map fst d -> dict_get a d = None.
Proof.
  induction d as [|[k v] r IH]; simpl; [auto|].
  intros H. rewrite elem_of_cons in H. case_bool_decide; [subst; tauto|]. apply IH. tauto.
Qed.

Lemma dict_get_update {V} (a : string) (d e : list (string * V)) :
  NoDup (map fst e) ->
  dict_get a (dict_update d e) =
    match dict_get a e with Some v => Some v | None => dict_get a d end.
Proof.
  revert d. induction e as [|[k v] e IH]; intros d Hnd; simpl; [reflexivity|].
  inversion Hnd as [|? ? Hk Hnd']; subst.
  unfold dict_update in *. simpl. rewrite IH by exact Hnd'.
  rewrite dict_get_set. case_bool_decide as E.
  - subst. rewrite dict_get_not_in by exact Hk. reflexivity.
  - destruct (dict_get a e); reflexivity.
Qed.

Lemma fold_delete_lookup {V} (L : list string) (m : gmap string V) k :
  fold_left (fun m k => delete k m) L m !! k = if decide (k ∈ L) then None else m !! k.
Proof.
  revert m. induction L as [|x L IH]; intros m; simpl.
  - destruct (decide (k ∈ [])) as [H|]; [inversion H|reflexivity].
  - rewrite IH. destruct (decide (k ∈ L)), (decide (k ∈ x :: L)); try reflexivity.
    + exfalso. apply n. right. assumption.
    + rewrite elem_of_cons in e. destruct e as [->|]; [|contradiction].
      apply lookup_delete_eq.
    + rewrite elem_of_cons in n0. rewrite lookup_delete_ne; [reflexivity|]. intros ->. tauto.
Qed.

Lemma in_keys_filter {V} (f : string * V -> bool) (m : gmap string V) k :
  k ∈ map fst (List.filter f (map_to_list m)) <-> exists v, m !! k = Some v /\ f (k, v) = true.
Proof.
  rewrite list_elem_of_In, in_map_iff. split.
  - intros [[k' v] [Hk Hin]]. simpl in Hk. subst k'.
    apply filter_In in Hin as [Hin Hf]. apply list_elem_of_In, elem_of_map_to_list in Hin.
    eauto.
  - intros [v [Hv Hf]]. exists (k, v). split; [reflexivity|].
    apply filter_In. split; [|exact Hf]. apply list_elem_of_In, elem_of_map_to_list. exact Hv.
Qed.

Lemma NoDup_map_fst_filter {A B} (f : A * B -> bool) (l : list (A * B)) :
  NoDup (map fst l) -> NoDup (map fst (List.filter f l)).
Proof.
  induction l as [|x l IH]; simpl; intros H; [constructor|].
  inversion H as [|? ? Hx Hl]; subst.
  destruct (f x); simpl; [|auto].
  constructor; [|auto]. intros Hin. apply Hx.
  apply list_elem_of_In in Hin. apply list_elem_of_In.
  apply in_map_iff in Hin as [y [Hy Hin]]. apply filter_In in Hin as [Hin _].
  apply in_map_iff. eauto.
Qed.


(** ** [MemoryStorage._cleanup] *)

(** X: without a positive [ttl] attribute [_cleanup] does nothing; with
    one and the lock free, it removes exactly the records whose
    [expires_at] is not after [now] and keeps every other record. *)
Theorem memory_cleanup_removes_expired now (s : Memory.MemoryStorage) :
  (match Memory.ttl_attr s with Some t => t <= 0 | None => True end ->
   Memory._cleanup now s = Ret tt s) /\
  (forall t, Memory.ttl_attr s = Some t -> 0 < t -> Memory.lock_held s = false ->
   exists s', Memory._cleanup now s = Ret tt s' /\ Memory.lock_held s' = false /\
     forall k, Memory.storage s' !! k =
       match Memory.storage s !! k with
       | Some sd => if Memory.expired_at now sd then None else Some sd
       | None => None
       end).
Proof.
  split.
  - unfold Memory._cleanup. destruct (Memory.ttl_attr s) as [t|]; [|reflexivity].
    intros H. now replace (t <=? 0) with true by lia.
  - intros t Ht Hpos Hl. unfold Memory._cleanup. rewrite Ht.
    replace (t <=? 0) with false by lia. unfold Memory.with_lock. rewrite Hl.
    eexists; split; [reflexivity|]. split; [reflexivity|].
    intros k. simpl. rewrite fold_delete_lookup.
    destruct (decide _) as [Hin|Hnin].
    + apply in_keys_filter in Hin as [v [Hv Hf]]. simpl in Hv, Hf. simpl. now rewrite Hv, Hf.
    + simpl. destruct (Memory.storage s !! k) as [sd|] eqn:E; [|reflexivity].
      destruct (Memory.expired_at now sd) eqn:Ex; [|reflexivity].
      exfalso. apply Hnin, in_keys_filter. eauto.
Qed.

(** A store with a [ttl] attribute of 10 holding [sd0] under [k]. *)
Definition mem_ttl10 : Memory.MemoryStorage :=
  {| Memory.storage := {[ "k" := sd0 ]}; Memory.lock_held := false; Memory.ttl_attr := Some 10;
     Memory.max_data_size := MAX_DATA_SIZE |}.

Lemma memory_cleanup_removes_expired_witness :
  exists s', Memory._cleanup 7 mem_ttl10 = Ret tt s' /\ Memory.lock_held s' = false /\
    forall k, Memory.storage s' !! k =
      match Memory.storage mem_ttl10 !! k with
      | Some sd => if Memory.expired_at 7 sd then None else Some sd
      | None => None
      end.
Proof.
  exact (proj2 (memory_cleanup_removes_expired 7 mem_ttl10) 10 eq_refl ltac:(lia) eq_refl).
Defined.

(** ** [MemoryStorage.list_states] *)

(** The two filters of [list_states], as the code applies them. *)
Definition memory_filter (st : option string) (cb : option Z) (sd : StateData) : bool :=
  negb (match st with Some x => negb (bool_decide (state sd = x)) | None => false end) &&
  negb (match cb with Some c => c <=? created_at sd | None => false end).

Lemma memory_check_expired_live now key sd (s : Memory.MemoryStorage) :
  Memory.storage s !! key = Some sd -> Memory.expired_at now sd = false ->
  Memory._check_expired now key s = Ret false s.
Proof.
  intros Hk He. unfold Memory._check_expired, try_except, Memory._get_state_data.
  cbv [bindM mbind M_bind mret M_ret]. rewrite Hk. unfold Memory.expired_at in He.
  destruct (expires_at sd) as [e|]; [now rewrite He|reflexivity].
Qed.

Lemma memory_check_expired_dead now key sd (s : Memory.MemoryStorage) :
  Memory.lock_held s = true -> Memory.storage s !! key = Some sd ->
  Memory.expired_at now sd = true -> Memory._check_expired now key s = Hang.
Proof.
  intros Hl Hk He. unfold Memory._check_expired, try_except, Memory._get_state_data.
  cbv [bindM mbind M_bind mret M_ret]. rewrite Hk. unfold Memory.expired_at in He.
  destruct (expires_at sd) as [e|]; [|discriminate]. rewrite He.
  unfold Memory.finish_state, Memory.with_lock. now rewrite Hl.
Qed.

Lemma memory_list_states_loop_collect now st cb items acc (s : Memory.MemoryStorage) :
  (forall k sd, (k, sd) ∈ items -> Memory.storage s !! k = Some sd) ->
  (forall k sd, (k, sd) ∈ items -> memory_filter st cb sd = true -> Memory.expired_at now sd = false) ->
  Memory.list_states_loop now st cb (fun acc k => mret (acc ++ [k])) items acc s =
    Ret (acc ++ map fst (List.filter (fun kv => memory_filter st cb kv.2) items)) s.
Proof.
  revert acc. induction items as [|[k sd] items IH]; intros acc Hin Hexp; simpl.
  - rewrite app_nil_r. reflexivity.
  - assert (Hk : Memory.storage s !! k = Some sd) by (apply Hin; apply list_elem_of_here).
    assert (Hin' : forall k sd, (k, sd) ∈ items -> Memory.storage s !! k = Some sd)
      by (intros k' sd' H'; apply Hin; apply list_elem_of_further; exact H').
    assert (Hexp' : forall k sd, (k, sd) ∈ items -> memory_filter st cb sd = true ->
                      Memory.expired_at now sd = false)
      by (intros k' sd' H1 H2; apply (Hexp k' sd'); [apply list_elem_of_further; exact H1|exact H2]).
    destruct (memory_filter st cb sd) eqn:Hf.
    + pose proof (Hexp k sd (list_elem_of_here _ _) Hf) as He.
      unfold memory_filter in Hf. apply andb_prop in Hf as [F1 F2].
      apply negb_true_iff in F1, F2. rewrite F1, F2.
      cbv [bindM mbind M_bind mret M_ret].
      rewrite (memory_check_expired_live now k sd s Hk He).
      rewrite IH by assumption. simpl. rewrite <- app_assoc. reflexivity.
    + unfold memory_filter in Hf. apply andb_false_iff in Hf as [F|F]; apply negb_false_iff in F.
      * rewrite F. apply IH; assumption.
      * destruct (match st with Some x => negb (bool_decide (state sd = x)) | None => false end);
          [apply IH; assumption|]. rewrite F. apply IH; assumption.
Qed.

(** X: with the lock free and no record passing the filters expired,
    [list_states] yields, without duplicates, exactly the keys whose stored
    record passes the state and [created_before] filters; the store is
    unchanged and the lock is released. *)
Theorem memory_list_states_exact now st cb (s : Memory.MemoryStorage) :
  Memory.lock_held s = false ->
  (forall k sd, Memory.storage s !! k = Some sd -> memory_filter st cb sd = true ->
     Memory.expired_at now sd = false) ->
  exists l s', Memory.list_states_all now st cb s = Ret l s' /\
    Memory.storage s' = Memory.storage s /\ Memory.lock_held s' = false /\ NoDup l /\
    forall k, k ∈ l <-> exists sd, Memory.storage s !! k = Some sd /\ memory_filter st cb sd = true.
Proof.
  intros Hl Hexp.
  unfold Memory.list_states_all, Memory.list_states, Memory.with_lock. rewrite Hl.
  rewrite memory_list_states_loop_collect.
  - simpl. eexists _, _. split; [reflexivity|]. split; [reflexivity|]. split; [reflexivity|].
    split.
    + apply NoDup_map_fst_filter, NoDup_fst_map_to_list.
    + intros k. rewrite in_keys_filter. reflexivity.
  - intros k sd Hin. apply elem_of_map_to_list in Hin. exact Hin.
  - intros k sd Hin Hf. apply elem_of_map_to_list in Hin. exact (Hexp k sd Hin Hf).
Qed.

Lemma memory_list_states_exact_witness :
  exists l s', Memory.list_states_all 3 (Some "s"%string) None (mem_with "k" sd0) = Ret l s' /\
    Memory.storage s' = Memory.storage (mem_with "k" sd0) /\ Memory.lock_held s' = false /\ NoDup l /\
    forall k, k ∈ l <-> exists sd, Memory.storage (mem_with "k" sd0) !! k = Some sd /\
                                  memory_filter (Some "s"%string) None sd = true.
Proof.
  apply (memory_list_states_exact 3 (Some "s"%string) None (mem_with "k" sd0)).
  - reflexivity.
  - intros k sd Hk _. unfold mem_with in Hk. simpl in Hk.
    apply lookup_insert_Some in Hk as [[_ <-]|[_ Hk]]; [reflexivity|].
    rewrite lookup_empty in Hk. discriminate Hk.
Defined.

Lemma memory_list_states_loop_hang {A} now st cb (body : A -> string -> Memory.MM A) items acc
    (s : Memory.MemoryStorage) :
  Memory.lock_held s = true ->
  (forall acc k, body acc k s = Hang) ->
  (forall k sd, (k, sd) ∈ items -> Memory.storage s !! k = Some sd) ->
  (exists k sd, (k, sd) ∈ items /\ memory_filter st cb sd = true) ->
  Memory.list_states_loop now st cb body items acc s = Hang.
Proof.
  revert acc. induction items as [|[k sd] items IH]; intros acc Hl Hb Hin [k0 [sd0 [Hk0 Hf0]]].
  - inversion Hk0.
  - assert (Hk : Memory.storage s !! k = Some sd) by (apply Hin; apply list_elem_of_here).
    assert (Hin' : forall k sd, (k, sd) ∈ items -> Memory.storage s !! k = Some sd)
      by (intros k' sd' H'; apply Hin; apply list_elem_of_further; exact H').
    simpl.
    destruct (memory_filter st cb sd) eqn:Hf.
    + unfold memory_filter in Hf. apply andb_prop in Hf as [F1 F2].
      apply negb_true_iff in F1, F2. rewrite F1, F2.
      cbv [bindM mbind M_bind mret M_ret].
      destruct (Memory.expired_at now sd) eqn:He.
      * now rewrite (memory_check_expired_dead now k sd s Hl Hk He).
      * rewrite (memory_check_expired_live now k sd s Hk He). now rewrite Hb.
    + assert (Hrest : exists k sd, (k, sd) ∈ items /\ memory_filter st cb sd = true).
      { apply elem_of_cons in Hk0 as [E|E].
        - injection E as -> ->. congruence.
        - eauto. }
      unfold memory_filter in Hf. apply andb_false_iff in Hf as [F|F]; apply negb_false_iff in F.
      * rewrite F. apply IH; assumption.
      * destruct (match st with Some x => negb (bool_decide (state sd = x)) | None => false end);
          [apply IH; assumption|]. rewrite F. apply IH; assumption.
Qed.

(** X: the generator holds the store's lock while the consumer's loop body
    runs. A consumer that calls a locking storage method (here, any body
    that waits when the lock is held, such as [get_state_data]) never
    returns, as soon as one stored record passes the filters. *)
Theorem memory_list_states_consumer_deadlock {A} now st cb (body : A -> string -> Memory.MM A)
    acc (s : Memory.MemoryStorage) :
  Memory.lock_held s = false ->
  (forall acc k s', Memory.lock_held s' = true -> body acc k s' = Hang) ->
  (exists k sd, Memory.storage s !! k = Some sd /\ memory_filter st cb sd = true) ->
  Memory.list_states now st cb body acc s = Hang.
Proof.
  intros Hl Hb [k [sd [Hk Hf]]]. unfold Memory.list_states, Memory.with_lock. rewrite Hl.
  rewrite (memory_list_states_loop_hang now st cb body); [reflexivity|reflexivity| | |].
  - intros. apply Hb. reflexivity.
  - intros k' sd' Hin. apply elem_of_map_to_list in Hin. exact Hin.
  - exists k, sd. split; [apply elem_of_map_to_list; exact Hk|exact Hf].
Qed.

Lemma memory_list_states_consumer_deadlock_witness :
  Memory.list_states 10 None None
    (fun (acc : list StateData) k => let* sd := Memory.get_state_data 10 k in mret (acc ++ [sd])) []
    (mem_with "k" sd0) = Hang.
Proof.
  apply (memory_list_states_consumer_deadlock 10 None None _ [] (mem_with "k" sd0)).
  - reflexivity.
  - intros acc k s' Hl. cbv [bindM mbind M_bind]. unfold Memory.get_state_data, Memory.with_lock.
    now rewrite Hl.
  - exists "k"%string, sd0. split; reflexivity.
Defined.

(** [get_state_data] with the lock free, by the state of the record. *)
Lemma memory_get_state_data_cases now key (s : Memory.MemoryStorage) :
  Memory.lock_held s = false ->
  (Memory.storage s !! key = None ->
     Memory.get_state_data now key s = Exc StateNotFoundError (Memory.set_lock false (Memory.set_lock true s))) /\
  (forall sd, Memory.storage s !! key = Some sd -> Memory.expired_at now sd = false ->
     Memory.get_state_data now key s = Ret sd (Memory.set_lock false (Memory.set_lock true s))) /\
  (forall sd, Memory.storage s !! key = Some sd -> Memory.expired_at now sd = true ->
     Memory.get_state_data now key s = Hang).
Proof.
  intros Hl. unfold Memory.get_state_data, Memory.with_lock. rewrite Hl.
  split; [|split].
  - intros Hk. cbv [bindM mbind M_bind mret M_ret].
    unfold Memory._check_expired, try_except, Memory._get_state_data.
    cbv [bindM mbind M_bind mret M_ret]. simpl. now rewrite Hk.
  - intros sd Hk He. cbv [bindM mbind M_bind mret M_ret].
    rewrite (memory_check_expired_live now key sd); [|exact Hk|exact He]. simpl. now rewrite Hk.
  - intros sd Hk He. cbv [bindM mbind M_bind mret M_ret].
    now rewrite (memory_check_expired_dead now key sd).
Qed.

(** X: [BaseStorage.update_ttl] never succeeds on the in-memory store: a
    missing key raises [StateNotFoundError], a live record [TypeError]
    (the in-memory [set_state] takes no [state] keyword), an expired one
    makes the call wait forever; the stored records are never changed. *)
Theorem memory_update_ttl_never_succeeds now key ttl (s : Memory.MemoryStorage) :
  Memory.lock_held s = false ->
  (Memory.storage s !! key = None -> exists s',
     Memory.update_ttl now key ttl s = Exc StateNotFoundError s' /\ Memory.storage s' = Memory.storage s) /\
  (forall sd, Memory.storage s !! key = Some sd -> Memory.expired_at now sd = false -> exists s',
     Memory.update_ttl now key ttl s = Exc TypeError s' /\ Memory.storage s' = Memory.storage s) /\
  (forall sd, Memory.storage s !! key = Some sd -> Memory.expired_at now sd = true ->
     Memory.update_ttl now key ttl s = Hang).
Proof.
  intros Hl. destruct (memory_get_state_data_cases now key s Hl) as [H1 [H2 H3]].
  unfold Memory.update_ttl. cbv [bindM mbind M_bind].
  split; [|split].
  - intros Hk. rewrite (H1 Hk). eexists; split; reflexivity.
  - intros sd Hk He. rewrite (H2 sd Hk He). eexists; split; reflexivity.
  - intros sd Hk He. now rewrite (H3 sd Hk He).
Qed.

Lemma memory_update_ttl_never_succeeds_witness :
  exists s', Memory.update_ttl 3 "k" None (mem_with "k" sd0) = Exc TypeError s' /\
    Memory.storage s' = Memory.storage (mem_with "k" sd0).
Proof.
  exact (proj1 (proj2 (memory_update_ttl_never_succeeds 3 "k" None (mem_with "k" sd0) eq_refl))
           sd0 eq_refl eq_refl).
Defined.

(** X: [BaseStorage.state_exists] on the in-memory store, with the lock
    free: [False] for a missing key, [True] for a record that has not
    expired, and no answer at all (the expiry check deletes under the
    held lock) for an expired one; a returned answer leaves the records as
    they were. *)
Theorem memory_state_exists_cases now key (s : Memory.MemoryStorage) :
  Memory.lock_held s = false ->
  (Memory.storage s !! key = None ->
     Memory.state_exists now key s = Ret false (Memory.set_lock false (Memory.set_lock true s))) /\
  (forall sd, Memory.storage s !! key = Some sd -> Memory.expired_at now sd = false ->
     Memory.state_exists now key s = Ret true (Memory.set_lock false (Memory.set_lock true s))) /\
  (forall sd, Memory.storage s !! key = Some sd -> Memory.expired_at now sd = true ->
     Memory.state_exists now key s = Hang).
Proof.
  intros Hl. destruct (memory_get_state_data_cases now key s Hl) as [H1 [H2 H3]].
  unfold Memory.state_exists, try_except. cbv [bindM mbind M_bind mret M_ret].
  split; [|split].
  - intros Hk. now rewrite (H1 Hk).
  - intros sd Hk He. now rewrite (H2 sd Hk He).
  - intros sd Hk He. now rewrite (H3 sd Hk He).
Qed.

Lemma memory_state_exists_cases_witness :
  Memory.state_exists 3 "k" (mem_with "k" sd0) =
    Ret true (Memory.set_lock false (Memory.set_lock true (mem_with "k" sd0))) /\
  Memory.state_exists 7 "k" (mem_with "k" sd0) = Hang.
Proof.
  destruct (memory_state_exists_cases 3 "k" (mem_with "k" sd0) eq_refl) as [_ [H2 _]].
  destruct (memory_state_exists_cases 7 "k" (mem_with "k" sd0) eq_refl) as [_ [_ H3]].
  split; [exact (H2 sd0 eq_refl eq_refl)|exact (H3 sd0 eq_refl eq_refl)].
Defined.

(** ** [RedisStorage.list_states] *)

(** The characters with a meaning in a Redis glob pattern. *)
Definition glob_special (c : ascii) : bool :=
  bool_decide (c = "*"%char) || bool_decide (c = "?"%char) || bool_decide (c = "["%char) ||
  bool_decide (c = "\"%char).

Lemma glob_go_literal f x p c s :
  glob_special x = false ->
  Redis.glob_go (S f) (x :: p) (c :: s) =
    if bool_decide (x = c) then
      match s with
      | [] => match Redis.drop_stars p with [] => true | _ => false end
      | _ => Redis.glob_go f p s
      end
    else false.
Proof.
  intros H. destruct x as [[] [] [] [] [] [] [] []]; try (vm_compute in H; discriminate H);
    reflexivity.
Qed.

Lemma drop_stars_literal x p : glob_special x = false -> Redis.drop_stars (x :: p) = x :: p.
Proof.
  intros H. destruct x as [[] [] [] [] [] [] [] []]; try (vm_compute in H; discriminate H);
    reflexivity.
Qed.

(** A literal prefix followed by one star matches exactly the non-empty
    strings that start with the prefix. *)
Lemma glob_go_prefix_star (L : list ascii) :
  forallb (fun c => negb (glob_special c)) L = true ->
  forall f s, (length L < f)%nat -> s <> [] ->
  Redis.glob_go f (L ++ ["*"%char]) s = true <-> exists r, s = L ++ r.
Proof.
  induction L as [|x L IH]; intros HL f s Hf Hs.
  - destruct f as [|f]; [simpl in Hf; lia|]. destruct s as [|c s]; [congruence|].
    simpl. split; [intros _; eauto|reflexivity].
  - simpl in HL. apply andb_prop in HL as [Hx HL]. apply negb_true_iff in Hx.
    destruct f as [|f]; [simpl in Hf; lia|]. destruct s as [|c s]; [congruence|].
    simpl app. rewrite glob_go_literal by exact Hx.
    case_bool_decide as E.
    + subst c. destruct s as [|c' s'].
      * split.
        -- intros H. destruct L as [|y L].
           ++ exists []. reflexivity.
           ++ simpl in HL. apply andb_prop in HL as [Hy _]. apply negb_true_iff in Hy.
              cbn [app] in H. rewrite drop_stars_literal in H by exact Hy. discriminate H.
        -- intros [r Hr]. injection Hr as Hr. destruct L as [|y L]; [reflexivity|discriminate Hr].
      * rewrite (IH HL f (c' :: s')) by (simpl in Hf; lia || congruence).
        split; intros [r Hr]; exists r; [rewrite Hr; reflexivity|injection Hr as Hr; exact Hr].
    + split; [discriminate|]. intros [r Hr]. injection Hr as Hr. congruence.
Qed.

Lemma list_ascii_of_string_app (a b : string) :
  list_ascii_of_string (a +:+ b) = list_ascii_of_string a ++ list_ascii_of_string b.
Proof. induction a as [|c a IH]; simpl; [reflexivity|now rewrite IH]. Qed.

Lemma string_app_list (a : string) (r : list ascii) :
  string_of_list_ascii (list_ascii_of_string a ++ r) = (a +:+ string_of_list_ascii r)%string.
Proof. induction a as [|c a IH]; simpl; [reflexivity|now rewrite IH]. Qed.

(** A glob [P*] with a literal [P] (non-empty) matches the strings that
    start with [P] and no other. *)
Lemma glob_prefix_star (P K : string) :
  P <> EmptyString -> forallb (fun c => negb (glob_special c)) (list_ascii_of_string P) = true ->
  Redis.glob (P +:+ "*") K = true <-> exists k, K = (P +:+ k)%string.
Proof.
  intros HP HL. unfold Redis.glob. rewrite list_ascii_of_string_app.
  change (list_ascii_of_string "*") with ["*"%char].
  destruct (list_ascii_of_string K) as [|c r] eqn:EK.
  - split.
    + destruct P as [|x P]; [congruence|]. simpl.
      intros H. revert H. destruct x as [[] [] [] [] [] [] [] []]; simpl; try discriminate;
        destruct (list_ascii_of_string P ++ _); discriminate.
    + intros [k ->]. rewrite list_ascii_of_string_app in EK. destruct P; [congruence|discriminate].
  - rewrite glob_go_prefix_star; [| exact HL | rewrite length_app; simpl; lia | discriminate].
    split.
    + intros [r' Hr']. exists (string_of_list_ascii r').
      rewrite <- (string_of_list_ascii_of_string K), EK, Hr'. apply string_app_list.
    + intros [k ->]. rewrite list_ascii_of_string_app in EK. rewrite <- EK. eauto.
Qed.







Lemma scan_once_ok now pattern (db : Redis.rdb) :
  Redis.scan_ok now pattern db (Redis.scan_once now pattern db).
Proof.
  unfold Redis.scan_ok, Redis.scan_once. split.
  - intros K HK. apply list_elem_of_In, filter_In in HK as [_ HK]. exact HK.
  - intros K e Hg He Hl. apply list_elem_of_In, filter_In. split; [|exact Hg].
    apply list_elem_of_In, in_keys_filter. eauto.
Qed.


(** A store with the one record [a] (state [s], no TTL). *)
Definition redis_db1 : Redis.rdb :=
  <["fsm:meta:a" := {| Redis.rval := Redis.RHash {| Redis.h_state := Some "s";
       Redis.h_created_at := Some 0; Redis.h_updated_at := Some 0; Redis.h_expires_at := None |};
     Redis.rdeadline := None |}]> ∅.




Lemma redis_get_state_data_pure now cfg k (db : Redis.rdb) :
  match Redis.get_state_data now cfg k db with
  | Ret _ db' | Exc _ db' => db' = db
  | Hang => False
  end.
Proof.
  unfold Redis.get_state_data, wrap_all_but_not_found, Redis._get_state_meta, Redis.r_hgetall,
    Redis.get_data, wrap_exn, try_except, Redis.r_get, raise.
  cbv [bindM mbind M_bind mret M_ret].
  repeat (case_match; simpl in *; try congruence).
Qed.

Lemma redis_get_state_data_missing now cfg key (db : Redis.rdb) :
  Redis.r_lookup now (Redis._get_key cfg Redis.META_PREFIX key) db = None ->
  Redis.get_state_data now cfg key db = Exc StateNotFoundError db.
Proof.
  intros E.
  unfold Redis.get_state_data, wrap_all_but_not_found, Redis._get_state_meta, Redis.r_hgetall.
  cbv [bindM mbind M_bind mret M_ret]. rewrite E. reflexivity.
Qed.

Lemma redis_list_states_loop_from now cfg st cb keys (db db' : Redis.rdb) l :
  Redis.list_states_loop now cfg st cb keys db = Ret l db' ->
  db' = db /\
  forall x, x ∈ l -> exists K, K ∈ keys /\ x = Redis.split2_last K /\
    exists sd, Redis.get_state_data now cfg x db = Ret sd db.
Proof.
  revert db db' l. induction keys as [|K keys IH]; intros db db' l H.
  - simpl in H. cbv [mret M_ret] in H. injection H as <- <-. split; [reflexivity|].
    intros x Hx. inversion Hx.
  - simpl in H. pose proof (redis_get_state_data_pure now cfg (Redis.split2_last K) db) as Hp.
    destruct (Redis.get_state_data now cfg (Redis.split2_last K) db) as [sd db1|e db1|] eqn:E;
      [|destruct e; try discriminate H|contradiction]; subst db1.
    + cbv [bindM mbind M_bind mret M_ret] in H.
      destruct (Redis.list_states_loop now cfg st cb keys db) as [rest db2| |] eqn:E2;
        try discriminate H.
      injection H as <- <-. destruct (IH db db2 rest E2) as [-> IH'].
      split; [reflexivity|]. intros x Hx.
      assert (Hrest : x ∈ rest -> exists K', K' ∈ K :: keys /\ x = Redis.split2_last K' /\
                exists sd, Redis.get_state_data now cfg x db = Ret sd db).
      { intros Hx'. destruct (IH' x Hx') as [K' [HK' Hr]].
        exists K'. split; [apply list_elem_of_further; exact HK'|exact Hr]. }
      destruct (_ && _); [|auto].
      apply elem_of_cons in Hx as [->|Hx]; [|auto].
      exists K. split; [apply list_elem_of_here|]. split; [reflexivity|]. eauto.
    + destruct (IH db db' l H) as [-> IH']. split; [reflexivity|]. intros x Hx.
      destruct (IH' x Hx) as [K' [HK' Hr]].
      exists K'. split; [apply list_elem_of_further; exact HK'|exact Hr].
    + destruct (IH db db' l H) as [-> IH']. split; [reflexivity|]. intros x Hx.
      destruct (IH' x Hx) as [K' [HK' Hr]].
      exists K'. split; [apply list_elem_of_further; exact HK'|exact Hr].
Qed.

Lemma after_colon_skip (l r : list ascii) :
  forallb (fun c => negb (bool_decide (c = ":"%char))) l = true ->
  Redis.after_colon (l ++ r) = Redis.after_colon r.
Proof.
  induction l as [|c l IH]; simpl; [reflexivity|].
  intros H. apply andb_prop in H as [Hc Hl]. apply negb_true_iff in Hc. rewrite Hc. auto.
Qed.

(** X: with a key prefix [P] (non-empty, without [:] and glob
    characters), every key [list_states] yields has the form
    [meta:<key>] (the [split(':', 2)[-1]] of [P:fsm:meta:<key>]), and is
    yielded only when a live record is stored under that longer name
    itself: a record stored under [a] is listed only if one is stored under
    [meta:a] too, and then as [meta:a]. *)
Theorem redis_list_states_prefixed_names scan_iter now cfg st cb (db db' : Redis.rdb) l :
  Redis.key_prefix cfg <> EmptyString ->
  forallb (fun c => negb (glob_special c) && negb (bool_decide (c = ":"%char)))
    (list_ascii_of_string (Redis.key_prefix cfg)) = true ->
  Redis.scan_ok now (Redis._get_key cfg Redis.META_PREFIX "*") db
    (scan_iter (Redis._get_key cfg Redis.META_PREFIX "*") db) ->
  Redis.list_states scan_iter now cfg st cb db = Ret l db' ->
  db' = db /\
  forall x, x ∈ l -> exists k, x = ("meta:" +:+ k)%string /\
    Redis.r_lookup now (Redis._get_key cfg Redis.META_PREFIX x) db <> None.
Proof.
  intros HP HL [Hsound _] H. unfold Redis.list_states in H.
  destruct (redis_list_states_loop_from _ _ _ _ _ _ _ _ H) as [Hdb Hfrom].
  split; [exact Hdb|]. intros x Hx.
  destruct (Hfrom x Hx) as [K [HK [-> [sd Hsd]]]].
  assert (Hlive : Redis.r_lookup now (Redis._get_key cfg Redis.META_PREFIX (Redis.split2_last K)) db
                  <> None)
    by (intros E; rewrite (redis_get_state_data_missing _ _ _ _ E) in Hsd; discriminate Hsd).
  clear Hsd.
  set (P := Redis.key_prefix cfg) in *.
  assert (Hpat : Redis._get_key cfg Redis.META_PREFIX "*" = ((P +:+ ":fsm:meta:") +:+ "*")%string).
  { unfold Redis._get_key, Redis._key. fold P. rewrite bool_decide_false by exact HP.
    rewrite !append_assoc_s. reflexivity. }
  apply Hsound in HK. rewrite Hpat in HK.
  apply glob_prefix_star in HK as [k ->].
  - exists k. split; [|exact Hlive].
    unfold Redis.split2_last. rewrite !list_ascii_of_string_app.
    rewrite <- app_assoc, after_colon_skip.
    + simpl. rewrite string_of_list_ascii_of_string. reflexivity.
    + clear -HL. induction (list_ascii_of_string P) as [|c l IH]; simpl in *; [reflexivity|].
      apply andb_prop in HL as [Hc Hl]. apply andb_prop in Hc as [_ Hc]. rewrite Hc. auto.
  - destruct P; [congruence|discriminate].
  - rewrite list_ascii_of_string_app, forallb_app. apply andb_true_iff. split; [|reflexivity].
    clear -HL. induction (list_ascii_of_string P) as [|c l IH]; simpl in *; [reflexivity|].
    apply andb_prop in HL as [Hc Hl]. apply andb_prop in Hc as [Hc _]. rewrite Hc. auto.
Qed.

Definition redis_cfg_bot : Redis.RedisStorage :=
  {| Redis.key_prefix := "bot"; Redis.max_data_size := MAX_DATA_SIZE |}.

Definition redis_meta_entry : Redis.rentry :=
  {| Redis.rval := Redis.RHash {| Redis.h_state := Some "s"; Redis.h_created_at := Some 0;
       Redis.h_updated_at := Some 0; Redis.h_expires_at := None |};
     Redis.rdeadline := None |}.

(** The records [a] and [meta:a] stored under the prefix [bot]. *)
Definition redis_db_bot : Redis.rdb :=
  <["bot:fsm:meta:a" := redis_meta_entry]> (<["bot:fsm:meta:meta:a" := redis_meta_entry]> ∅).

Lemma redis_list_states_prefixed_names_witness :
  Redis.list_states (Redis.scan_once 5) 5 redis_cfg_bot None None redis_db_bot =
    Ret ["meta:a"%string] redis_db_bot /\
  Redis.list_states (Redis.scan_once 5) 5 redis_cfg_bot None None
    (<["bot:fsm:meta:a" := redis_meta_entry]> ∅) =
    Ret [] (<["bot:fsm:meta:a" := redis_meta_entry]> ∅) /\
  exists k, "meta:a"%string = ("meta:" +:+ k)%string /\
    Redis.r_lookup 5 (Redis._get_key redis_cfg_bot Redis.META_PREFIX "meta:a") redis_db_bot <> None.
Proof.
  split; [vm_compute; reflexivity|]. split; [vm_compute; reflexivity|].
  refine (proj2 (redis_list_states_prefixed_names (Redis.scan_once 5) 5 redis_cfg_bot None None
           redis_db_bot redis_db_bot ["meta:a"%string] _ _ _ _) "meta:a" (list_elem_of_here _ _)).
  - discriminate.
  - reflexivity.
  - apply scan_once_ok.
  - vm_compute. reflexivity.
Defined.

(** ** Redis TTLs *)

(** X: [set_state] with a non-zero [ttl] shorter than one second (or
    negative) truncates it to a non-positive [EXPIRE], which deletes the
    meta key at once: the call succeeds, the record is gone
    ([get_state_data] raises [StateNotFoundError]) and no other key
    changes. *)
Theorem redis_set_state_subsecond_ttl_deletes now cfg st key t (db : Redis.rdb) :
  st <> EmptyString -> t <> 0 -> t < 1000000 ->
  match db !! Redis._get_key cfg Redis.META_PREFIX key with
  | None => True
  | Some e => Redis.live now e = true -> exists h, Redis.rval e = Redis.RHash h
  end ->
  exists db', Redis.set_state now cfg st key (Some t) db = Ret tt db' /\
    db' !! Redis._get_key cfg Redis.META_PREFIX key = None /\
    (forall K, K <> Redis._get_key cfg Redis.META_PREFIX key -> db' !! K = db !! K) /\
    Redis.get_state_data now cfg key db' = Exc StateNotFoundError db'.
Proof.
  intros Hst Ht0 Ht Hm.
  assert (Htr : td_truthy (Some t) = true) by (simpl; apply negb_true_iff, Z.eqb_neq; exact Ht0).
  assert (Hsec : (Redis.ttl_seconds t <=? 0) = true).
  { unfold Redis.ttl_seconds. apply Z.leb_le.
    destruct (Z.lt_ge_cases t 0).
    - replace t with (- (- t)) by lia. rewrite Z.quot_opp_l by lia.
      pose proof (Z.quot_pos (-t) 1000000). lia.
    - assert (Z.quot t 1000000 = 0) by (apply Z.quot_small; lia). lia. }
  set (mk := Redis._get_key cfg Redis.META_PREFIX key) in *.
  assert (Hfin : forall e', Redis.live now e' = true ->
    (Redis.r_expire now mk (Redis.ttl_seconds t) (<[mk := e']> db)) = Ret tt (delete mk (<[mk := e']> db))).
  { intros e' He'. unfold Redis.r_expire, Redis.r_lookup. rewrite lookup_insert_eq, He', Hsec.
    reflexivity. }
  assert (Hpost : forall e', exists db',
    Ret tt (delete mk (<[mk := e']> db)) = Ret (S := Redis.rdb) tt db' /\ db' !! mk = None /\
    (forall K, K <> mk -> db' !! K = db !! K) /\
    Redis.get_state_data now cfg key db' = Exc StateNotFoundError db').
  { intros e'. eexists. split; [reflexivity|]. split; [apply lookup_delete_eq|]. split.
    - intros K HK. rewrite lookup_delete_ne, lookup_insert_ne by congruence. reflexivity.
    - apply redis_get_state_data_missing. unfold Redis.r_lookup. fold mk.
      rewrite lookup_delete_eq. reflexivity. }
  unfold Redis.set_state. rewrite bool_decide_false by exact Hst.
  unfold wrap_exn, try_except, Redis._set_state_meta, Redis.r_hget_created_at,
    Redis.r_hgetall, Redis.r_hset.
  fold mk. cbv [bindM mbind M_bind mret M_ret]. rewrite Htr.
  unfold Redis.r_lookup at 1 2. cbn beta.
  destruct (db !! mk) as [[v d]|] eqn:E; rewrite ?E.
  - destruct (Redis.live now {| Redis.rval := v; Redis.rdeadline := d |}) eqn:Hl.
    + destruct (Hm eq_refl) as [h Hv]. simpl in Hv. subst v. simpl. rewrite E, Hl.
      rewrite Hfin by exact Hl. apply Hpost.
    + simpl. rewrite E, Hl. rewrite Hfin by reflexivity. apply Hpost.
  - rewrite Hfin by reflexivity. apply Hpost.
Qed.

Lemma redis_set_state_subsecond_ttl_deletes_witness :
  exists db', Redis.set_state 0 redis_cfg0 "x" "k" (Some 500000) ∅ = Ret tt db' /\
    db' !! Redis._get_key redis_cfg0 Redis.META_PREFIX "k" = None /\
    (forall K, K <> Redis._get_key redis_cfg0 Redis.META_PREFIX "k" -> db' !! K = (∅ : Redis.rdb) !! K) /\
    Redis.get_state_data 0 redis_cfg0 "k" db' = Exc StateNotFoundError db'.
Proof.
  apply (redis_set_state_subsecond_ttl_deletes 0 redis_cfg0 "x" "k" 500000 ∅).
  - discriminate.
  - lia.
  - lia.
  - rewrite lookup_empty. exact I.
Defined.

(** [get_state_data] on a complete live meta hash and a readable data key. *)
Lemma redis_get_state_data_run now cfg key (db : Redis.rdb) h0 d st c u :
  db !! Redis._get_key cfg Redis.META_PREFIX key =
    Some {| Redis.rval := Redis.RHash h0; Redis.rdeadline := d |} ->
  Redis.live now {| Redis.rval := Redis.RHash h0; Redis.rdeadline := d |} = true ->
  Redis.h_state h0 = Some st -> st <> EmptyString ->
  Redis.h_created_at h0 = Some c -> Redis.h_updated_at h0 = Some u ->
  match db !! Redis._get_key cfg Redis.DATA_PREFIX key with
  | Some e => Redis.live now e = true -> exists p, Redis.rval e = Redis.RString p
  | None => True
  end ->
  exists dd, Redis.get_state_data now cfg key db =
    Ret {| state := st; data := dd; created_at := c; updated_at := u;
           expires_at := Redis.h_expires_at h0 |} db.
Proof.
  intros Hm Hl Hs Hne Hc Hu Hd.
  unfold Redis.get_state_data, wrap_all_but_not_found, Redis._get_state_meta, Redis.r_hgetall.
  cbv [bindM mbind M_bind mret M_ret]. unfold Redis.r_lookup at 1. rewrite Hm, Hl, Hs, Hc, Hu.
  rewrite bool_decide_false by exact Hne.
  unfold Redis.get_data, wrap_exn, try_except, Redis.r_get, Redis.r_lookup.
  cbv [bindM mbind M_bind mret M_ret].
  destruct (db !! Redis._get_key cfg Redis.DATA_PREFIX key) as [[v' d']|];
    [|eexists; reflexivity].
  destruct (Redis.live now {| Redis.rval := v'; Redis.rdeadline := d' |}) eqn:Hl';
    [|eexists; reflexivity].
  destruct (Hd eq_refl) as [p Hp]. simpl in Hp. subst v'. eexists; reflexivity.
Qed.

(** X: [update_ttl] with a TTL of at least one second ([ttl], or
    [DEFAULT_TTL], one day, when [ttl] is [None]; [0 < ttl_seconds t]) on a
    live, readable record rewrites its meta hash with the same [state] and
    [created_at], [updated_at = now] and [expires_at = now + ttl], and sets
    the meta key's Redis deadline to [now] plus the whole seconds of that
    TTL; the data key and every other key are unchanged. *)
Theorem redis_update_ttl_run now cfg key ttl (db : Redis.rdb) h0 d st c u :
  db !! Redis._get_key cfg Redis.META_PREFIX key =
    Some {| Redis.rval := Redis.RHash h0; Redis.rdeadline := d |} ->
  Redis.live now {| Redis.rval := Redis.RHash h0; Redis.rdeadline := d |} = true ->
  Redis.h_state h0 = Some st -> st <> EmptyString ->
  Redis.h_created_at h0 = Some c -> Redis.h_updated_at h0 = Some u ->
  match db !! Redis._get_key cfg Redis.DATA_PREFIX key with
  | Some e => Redis.live now e = true -> exists p, Redis.rval e = Redis.RString p
  | None => True
  end ->
  let t := match ttl with Some t => t | None => Redis.DEFAULT_TTL end in
  0 < Redis.ttl_seconds t ->
  exists db', Redis.update_ttl now cfg key ttl db = Ret tt db' /\
    db' !! Redis._get_key cfg Redis.META_PREFIX key =
      Some {| Redis.rval := Redis.RHash {| Redis.h_state := Some st; Redis.h_created_at := Some c;
                                           Redis.h_updated_at := Some now;
                                           Redis.h_expires_at := Some (now + t) |};
              Redis.rdeadline := Some (now + Redis.ttl_seconds t * 1000000) |} /\
    forall K, K <> Redis._get_key cfg Redis.META_PREFIX key -> db' !! K = db !! K.
Proof.
  intros Hm Hl Hs Hne Hc Hu Hd t Hpos.
  destruct (redis_get_state_data_run now cfg key db h0 d st c u Hm Hl Hs Hne Hc Hu Hd) as [dd Hg].
  assert (Ht0 : t <> 0) by (intros E; rewrite E in Hpos; vm_compute in Hpos; discriminate Hpos).
  assert (Htr : td_truthy (Some t) = true) by (simpl; apply negb_true_iff, Z.eqb_neq; exact Ht0).
  unfold Redis.update_ttl. cbv [bindM mbind M_bind]. rewrite Hg. fold t. simpl state.
  unfold Redis.set_state. rewrite bool_decide_false by exact Hne.
  unfold wrap_exn, try_except, Redis._set_state_meta, Redis.r_hget_created_at,
    Redis.r_hgetall, Redis.r_hset.
  set (mk := Redis._get_key cfg Redis.META_PREFIX key) in *.
  cbv [bindM mbind M_bind mret M_ret]. rewrite Htr.
  unfold Redis.r_lookup. rewrite Hm. cbn beta. rewrite Hl. simpl. rewrite ?Hm, ?Hl, ?Hc. simpl.
  rewrite ?Hm, ?Hl. simpl.
  unfold Redis.r_expire, Redis.r_lookup. rewrite lookup_insert_eq. simpl.
  unfold Redis.live in Hl |- *. simpl in Hl |- *. rewrite Hl.
  replace (Redis.ttl_seconds t <=? 0) with false by lia.
  replace (t =? 0) with false by lia. simpl. unfold Redis.merge_hash, Redis.merge_field. simpl.
  eexists. split; [reflexivity|]. split.
  - rewrite lookup_insert_eq. reflexivity.
  - intros K HK. rewrite !lookup_insert_ne by congruence. reflexivity.
Qed.

Lemma redis_update_ttl_run_witness :
  exists db', Redis.update_ttl 5 redis_cfg0 "a" None redis_db1 = Ret tt db' /\
    db' !! Redis._get_key redis_cfg0 Redis.META_PREFIX "a" =
      Some {| Redis.rval := Redis.RHash {| Redis.h_state := Some "s"; Redis.h_created_at := Some 0;
                                           Redis.h_updated_at := Some 5;
                                           Redis.h_expires_at := Some (5 + Redis.DEFAULT_TTL) |};
              Redis.rdeadline := Some (5 + Redis.ttl_seconds Redis.DEFAULT_TTL * 1000000) |} /\
    forall K, K <> Redis._get_key redis_cfg0 Redis.META_PREFIX "a" -> db' !! K = redis_db1 !! K.
Proof.
  apply (redis_update_ttl_run 5 redis_cfg0 "a" None redis_db1
           {| Redis.h_state := Some "s"; Redis.h_created_at := Some 0; Redis.h_updated_at := Some 0;
              Redis.h_expires_at := None |} None "s" 0 0); try reflexivity.
  all: try discriminate.
  all: vm_compute; try exact I; reflexivity.
Defined.

(** ** The [State] handle *)

Lemma is_blank_nonempty st : is_blank st = false -> st <> EmptyString.
Proof. intros H ->. discriminate H. Qed.

(** X: [State.set_state] refuses a non-[str] argument and a [str] made of
    white space only (as [str.strip] defines it) with [ValueError] before
    calling the storage, on every backend, leaving the handle's name and
    the store as they were; on a [MemoryStorage], whose [set_state] takes
    a [StateData], every call raises [ValueError], so the name never
    changes. *)
Theorem state_handle_set_state_refused {S} (o : StateHandle.storage_ops S) now v h (s : S) :
  (match v with PStr st => is_blank st = true | _ => True end ->
   StateHandle.set_state o now v (h, s) = Exc ValueError (h, s)) /\
  (forall (ms : Memory.MemoryStorage),
   StateHandle.set_state StateHandle.memory_ops now v (h, ms) = Exc ValueError (h, ms)).
Proof.
  split.
  - destruct v; try reflexivity. unfold StateHandle.set_state. intros ->. reflexivity.
  - intros ms. destruct v as [| | |st| |]; try reflexivity. unfold StateHandle.set_state.
    destruct (is_blank st); [reflexivity|].
    unfold StateHandle.key_of, StateHandle.lift. cbv [bindM mbind M_bind]. simpl. reflexivity.
Qed.

Lemma state_handle_set_state_refused_witness :
  StateHandle.set_state (StateHandle.redis_ops redis_cfg0) 0 (PStr " ")
    ({| StateHandle._name := "a"; StateHandle._key := "k" |}, redis_db1) =
    Exc ValueError ({| StateHandle._name := "a"; StateHandle._key := "k" |}, redis_db1).
Proof.
  apply (state_handle_set_state_refused (StateHandle.redis_ops redis_cfg0) 0 (PStr " ")
           {| StateHandle._name := "a"; StateHandle._key := "k" |} redis_db1).
  reflexivity.
Defined.

(** X: on a [RedisStorage], [State.set_state(st)] with a [str] that is not
    blank writes [st] into the key's meta hash and then sets the handle's
    name to [st]; no other key of the store changes. *)
Theorem state_handle_redis_set_state cfg now st h (db : Redis.rdb) :
  is_blank st = false ->
  match db !! Redis._get_key cfg Redis.META_PREFIX (StateHandle._key h) with
  | None => True
  | Some e => Redis.live now e = true -> exists h, Redis.rval e = Redis.RHash h
  end ->
  exists db' hs, StateHandle.set_state (StateHandle.redis_ops cfg) now (PStr st) (h, db) =
      Ret tt ({| StateHandle._name := st; StateHandle._key := StateHandle._key h |}, db') /\
    db' !! Redis._get_key cfg Redis.META_PREFIX (StateHandle._key h) =
      Some {| Redis.rval := Redis.RHash hs;
              Redis.rdeadline := match db !! Redis._get_key cfg Redis.META_PREFIX (StateHandle._key h) with
                                 | Some e => if Redis.live now e then Redis.rdeadline e else None
                                 | None => None end |} /\
    Redis.h_state hs = Some st /\
    forall K, K <> Redis._get_key cfg Redis.META_PREFIX (StateHandle._key h) -> db' !! K = db !! K.
Proof.
  intros Hb Hm.
  unfold StateHandle.set_state. rewrite Hb.
  unfold StateHandle.key_of, StateHandle.lift, StateHandle.set_name.
  cbv [bindM mbind M_bind]. simpl.
  rewrite (redis_set_state_no_ttl_run now cfg st (StateHandle._key h) db (is_blank_nonempty st Hb) Hm).
  set (mk := Redis._get_key cfg Redis.META_PREFIX (StateHandle._key h)) in *.
  unfold Redis.r_lookup. destruct (db !! mk) as [[v d]|] eqn:E.
  - destruct (Redis.live now {| Redis.rval := v; Redis.rdeadline := d |}) eqn:Hl.
    + destruct (Hm eq_refl) as [h0 Hv]. simpl in Hv. subst v.
      do 2 eexists. split; [reflexivity|]. split; [cbn [snd]; rewrite lookup_insert_eq; reflexivity|].
      split; [reflexivity|]. intros K HK. cbn [snd]. rewrite lookup_insert_ne by congruence. reflexivity.
    + do 2 eexists. split; [reflexivity|]. split; [cbn [snd]; rewrite lookup_insert_eq; reflexivity|].
      split; [reflexivity|]. intros K HK. cbn [snd]. rewrite lookup_insert_ne by congruence. reflexivity.
  - do 2 eexists. split; [reflexivity|]. split; [cbn [snd]; rewrite lookup_insert_eq; reflexivity|].
    split; [reflexivity|]. intros K HK. cbn [snd]. rewrite lookup_insert_ne by congruence. reflexivity.
Qed.

Lemma state_handle_redis_set_state_witness :
  exists db' hs, StateHandle.set_state (StateHandle.redis_ops redis_cfg0) 0 (PStr "menu")
      ({| StateHandle._name := "*"; StateHandle._key := "a" |}, redis_db1) =
      Ret tt ({| StateHandle._name := "menu"; StateHandle._key := "a" |}, db') /\
    db' !! Redis._get_key redis_cfg0 Redis.META_PREFIX "a" =
      Some {| Redis.rval := Redis.RHash hs; Redis.rdeadline := None |} /\
    Redis.h_state hs = Some "menu" /\
    forall K, K <> Redis._get_key redis_cfg0 Redis.META_PREFIX "a" -> db' !! K = redis_db1 !! K.
Proof.
  apply (state_handle_redis_set_state redis_cfg0 0 "menu"
           {| StateHandle._name := "*"; StateHandle._key := "a" |} redis_db1).
  - reflexivity.
  - vm_compute. intros _. eexists. reflexivity.
Defined.

(** X: [State.finish] on a [RedisStorage] always succeeds: it deletes the
    meta and the data key of the handle's key, leaves every other key,
    empties the handle's name, and [state_exists(key)] is then [False]. *)
Theorem state_handle_redis_finish cfg now h (db : Redis.rdb) :
  exists db', StateHandle.finish (StateHandle.redis_ops cfg) (h, db) =
      Ret tt ({| StateHandle._name := EmptyString; StateHandle._key := StateHandle._key h |}, db') /\
    db' !! Redis._get_key cfg Redis.META_PREFIX (StateHandle._key h) = None /\
    db' !! Redis._get_key cfg Redis.DATA_PREFIX (StateHandle._key h) = None /\
    (forall K, K <> Redis._get_key cfg Redis.META_PREFIX (StateHandle._key h) ->
               K <> Redis._get_key cfg Redis.DATA_PREFIX (StateHandle._key h) -> db' !! K = db !! K) /\
    Redis.state_exists now cfg (StateHandle._key h) db' = Ret false db'.
Proof.
  set (mk := Redis._get_key cfg Redis.META_PREFIX (StateHandle._key h)).
  set (dk := Redis._get_key cfg Redis.DATA_PREFIX (StateHandle._key h)).
  exists (delete dk (delete mk db)). split.
  - reflexivity.
  - assert (Hmk : delete dk (delete mk db) !! mk = None).
    { rewrite lookup_delete_ne by (apply redis_meta_data_ne). apply lookup_delete_eq. }
    split; [exact Hmk|]. split; [apply lookup_delete_eq|]. split.
    + intros K H1 H2. rewrite !lookup_delete_ne by congruence. reflexivity.
    + unfold Redis.state_exists, try_except. cbv [bindM mbind M_bind mret M_ret].
      rewrite redis_get_state_data_missing; [reflexivity|].
      unfold Redis.r_lookup. fold mk. rewrite Hmk. reflexivity.
Qed.

(** ** [StatesGroup] attribute names *)

(** The [StateItem] objects bound in a list of class attributes. *)
Definition group_items (vars : list (string * Groups.attrval)) : list nat :=
  flat_map (fun nv => match nv.2 with Groups.AItem i => [i] | Groups.AOther => [] end) vars.

Lemma dict_get_app {V} (a : string) (l1 l2 : list (string * V)) :
  dict_get a (l1 ++ l2) = match dict_get a l1 with Some v => Some v | None => dict_get a l2 end.
Proof.
  induction l1 as [|[k v] l1 IH]; simpl; [reflexivity|].
  destruct (bool_decide (k = a)); [reflexivity|exact IH].
Qed.

Lemma dict_get_in {V} (a : string) (v : V) l :
  NoDup (map fst l) -> (a, v) ∈ l -> dict_get a l = Some v.
Proof.
  induction l as [|[k w] l IH]; intros Hnd Hin; [inversion Hin|].
  simpl in Hnd. inversion Hnd as [|? ? Hk Hnd']; subst. simpl.
  apply elem_of_cons in Hin as [E|Hin].
  - injection E as -> ->. rewrite bool_decide_true by reflexivity. reflexivity.
  - rewrite bool_decide_false; [exact (IH Hnd' Hin)|].
    intros ->. apply Hk. apply list_elem_of_fmap. exists (a, v). split; [reflexivity|exact Hin].
Qed.

Lemma item_in_group_items a i l : (a, Groups.AItem i) ∈ l -> i ∈ group_items l.
Proof.
  induction l as [|[k w] l IH]; intros Hin; [inversion Hin|].
  apply elem_of_cons in Hin as [E|Hin]; simpl.
  - injection E as Ha Hw; subst. apply list_elem_of_here.
  - destruct w; simpl; [apply list_elem_of_further|]; auto.
Qed.

Definition item_pred (i : nat) (nv : string * Groups.attrval) : bool :=
  match nv.2 with Groups.AItem j => Nat.eqb i j | Groups.AOther => false end.

Lemma find_item_none i l : i ∉ group_items l -> List.find (item_pred i) l = None.
Proof.
  induction l as [|[k w] l IH]; intros H; simpl; [reflexivity|].
  unfold item_pred at 1. simpl. destruct w as [j|]; simpl in H.
  - destruct (Nat.eqb_spec i j) as [->|]; [exfalso; apply H; apply list_elem_of_here|].
    apply IH. intros Hi. apply H. apply list_elem_of_further. exact Hi.
  - apply IH. exact H.
Qed.

Lemma find_item_unique a i l :
  NoDup (group_items l) -> (a, Groups.AItem i) ∈ l ->
  List.find (item_pred i) l = Some (a, Groups.AItem i).
Proof.
  induction l as [|[k w] l IH]; intros Hnd Hin; [inversion Hin|].
  simpl. unfold item_pred at 1. simpl.
  apply elem_of_cons in Hin as [E|Hin].
  - injection E as <- <-. rewrite Nat.eqb_refl. reflexivity.
  - destruct w as [j|]; simpl in Hnd.
    + inversion Hnd as [|? ? Hj Hnd']; subst.
      destruct (Nat.eqb_spec i j) as [->|]; [exfalso; apply Hj; eapply item_in_group_items; eauto|].
      apply IH; assumption.
    + apply IH; assumption.
Qed.

Lemma find_item_first pre a i post :
  i ∉ group_items pre ->
  List.find (item_pred i) (pre ++ (a, Groups.AItem i) :: post) = Some (a, Groups.AItem i).
Proof.
  induction pre as [|[k w] pre IH]; intros H; simpl.
  - unfold item_pred at 1. simpl. rewrite Nat.eqb_refl. reflexivity.
  - unfold item_pred at 1. simpl. destruct w as [j|]; simpl in H.
    + destruct (Nat.eqb_spec i j) as [->|]; [exfalso; apply H; apply list_elem_of_here|].
      apply IH. intros Hi. apply H. apply list_elem_of_further. exact Hi.
    + apply IH. exact H.
Qed.

(** X: in a [StatesGroup] subclass that [__init_subclass__] accepts, with
    each attribute bound once and each [StateItem] object bound to one
    name, every public attribute [a] reads as the string
    [StatesGroup_<class name>_State_<a>], and two different names of the
    class give two different strings. *)
Theorem groups_public_attribute_names (c : Groups.pyclass) a b :
  Groups.init_subclass c = None ->
  NoDup (map fst (Groups.cls_vars c)) -> NoDup (group_items (Groups.cls_vars c)) ->
  a ∈ map fst (Groups.cls_vars c) -> Groups.starts_with_underscore a = false ->
  Groups.class_getattr c a =
    Groups.GState ("StatesGroup_" +:+ Groups.cls_name c +:+ "_State_" +:+ a)%string /\
  (a <> b -> ("StatesGroup_" +:+ Groups.cls_name c +:+ "_State_" +:+ a)%string <>
             ("StatesGroup_" +:+ Groups.cls_name c +:+ "_State_" +:+ b)%string).
Proof.
  intros Hinit Hnd Hitems Ha Hpub. split.
  - apply list_elem_of_fmap in Ha as [[a' v] [Ea Hin]]. simpl in Ea. subst a'.
    unfold Groups.init_subclass in Hinit.
    destruct (forallb _ (Groups.cls_vars c)) eqn:Hall; [|discriminate Hinit].
    rewrite forallb_forall in Hall. specialize (Hall (a, v) (proj1 (list_elem_of_In _ _) Hin)).
    simpl in Hall. rewrite Hpub in Hall. destruct v as [i|]; [|discriminate Hall].
    unfold Groups.class_getattr. rewrite dict_get_app, (dict_get_in a _ _ Hnd Hin).
    unfold Groups.item_get. fold (item_pred i).
    rewrite (find_item_unique a i _ Hitems Hin). reflexivity.
  - intros Hab E. apply Hab.
    rewrite <- !append_assoc_s in E.
    exact (append_cancel_l _ _ _ E).
Qed.

(** The group [class Reg(StatesGroup): name = StateItem(); age = StateItem()]. *)
Definition reg_group : Groups.pyclass :=
  {| Groups.cls_name := "Reg"; Groups.cls_vars := [("name", Groups.AItem 0); ("age", Groups.AItem 1)];
     Groups.cls_bases := [] |}.

Lemma groups_public_attribute_names_witness :
  Groups.class_getattr reg_group "age" = Groups.GState "StatesGroup_Reg_State_age" /\
  ("StatesGroup_Reg_State_age" <> "StatesGroup_Reg_State_name")%string.
Proof.
  destruct (groups_public_attribute_names reg_group "age" "name") as [H1 H2].
  - vm_compute. reflexivity.
  - apply (bool_decide_unpack _). vm_compute. reflexivity.
  - apply (bool_decide_unpack _). vm_compute. reflexivity.
  - apply (bool_decide_unpack _). vm_compute. reflexivity.
  - reflexivity.
  - split; [exact H1|exact (H2 ltac:(discriminate))].
Defined.

(** X: [StateItem.__get__] names an item after the first attribute of the
    class bound to it: when one item object is bound to [a] and, later,
    to other names, every one of those names reads as
    [StatesGroup_<class name>_State_<a>]. *)
Theorem groups_alias_reads_first_name (c : Groups.pyclass) pre a i post b :
  Groups.cls_vars c = pre ++ (a, Groups.AItem i) :: post ->
  i ∉ group_items pre ->
  dict_get b (Groups.cls_vars c) = Some (Groups.AItem i) ->
  Groups.class_getattr c b =
    Groups.GState ("StatesGroup_" +:+ Groups.cls_name c +:+ "_State_" +:+ a)%string.
Proof.
  intros Hv Hpre Hb. unfold Groups.class_getattr. rewrite dict_get_app, Hb.
  unfold Groups.item_get. fold (item_pred i). rewrite Hv, find_item_first by exact Hpre.
  reflexivity.
Qed.

(** [class G(StatesGroup): a = StateItem(); b = a]. *)
Definition alias_group : Groups.pyclass :=
  {| Groups.cls_name := "G"; Groups.cls_vars := [("a", Groups.AItem 0); ("b", Groups.AItem 0)];
     Groups.cls_bases := [] |}.

Lemma groups_alias_reads_first_name_witness :
  Groups.class_getattr alias_group "b" = Groups.GState "StatesGroup_G_State_a".
Proof.
  apply (groups_alias_reads_first_name alias_group [] "a" 0 [("b", Groups.AItem 0)] "b").
  - reflexivity.
  - intros H. inversion H.
  - reflexivity.
Defined.

(** X: an item inherited from a base group, and not bound in the
    subclass itself, cannot be read through the subclass: [__get__] looks
    for it in [vars(cls)] only and raises [AttributeError]. *)
Theorem groups_inherited_item_raises (c : Groups.pyclass) a i :
  dict_get a (Groups.cls_vars c) = None ->
  dict_get a (List.concat (Groups.cls_bases c)) = Some (Groups.AItem i) ->
  i ∉ group_items (Groups.cls_vars c) ->
  Groups.class_getattr c a = Groups.GExc AttributeError.
Proof.
  intros H1 H2 H3. unfold Groups.class_getattr. rewrite dict_get_app, H1, H2.
  unfold Groups.item_get. fold (item_pred i). rewrite find_item_none by exact H3.
  reflexivity.
Qed.

(** [class Child(Reg): pass]. *)
Definition child_group : Groups.pyclass :=
  {| Groups.cls_name := "Child"; Groups.cls_vars := [];
     Groups.cls_bases := [Groups.cls_vars reg_group] |}.

Lemma groups_inherited_item_raises_witness :
  Groups.init_subclass child_group = None /\
  Groups.class_getattr child_group "name" = Groups.GExc AttributeError.
Proof.
  split; [reflexivity|].
  apply (groups_inherited_item_raises child_group "name" 0).
  - reflexivity.
  - reflexivity.
  - intros H. inversion H.
Defined.

(** X: the state strings of two different groups can coincide: the
    attribute [b_State_n] of a group named [a] and the attribute [n] of a
    group named [a_State_b] read as the same string. *)
Theorem groups_names_collide a b n i j bases1 bases2 :
  let g1 := {| Groups.cls_name := a; Groups.cls_vars := [((b +:+ "_State_" +:+ n)%string, Groups.AItem i)];
               Groups.cls_bases := bases1 |} in
  let g2 := {| Groups.cls_name := (a +:+ "_State_" +:+ b)%string;
               Groups.cls_vars := [(n, Groups.AItem j)]; Groups.cls_bases := bases2 |} in
  Groups.class_getattr g1 (b +:+ "_State_" +:+ n) = Groups.class_getattr g2 n /\
  Groups.class_getattr g2 n =
    Groups.GState ("StatesGroup_" +:+ a +:+ "_State_" +:+ b +:+ "_State_" +:+ n)%string.
Proof.
  intros g1 g2. unfold Groups.class_getattr, Groups.item_get. simpl.
  rewrite !bool_decide_true by reflexivity. simpl. rewrite !Nat.eqb_refl.
  rewrite !append_assoc_s. split; reflexivity.
Qed.

(** ** [FSMContext] over a [MemoryStorage] *)

Lemma shared_get_state_run key (s : Shared.Store) :
  Shared.get_state key false s = Ret (Shared.storage s !! key) s.
Proof.
  unfold Shared.get_state, try_except, Shared._get_state_data.
  cbv [bindM mbind M_bind mret M_ret]. destruct (Shared.storage s !! key); reflexivity.
Qed.

Lemma shared_set_state_run now key sd (s : Shared.Store) :
  Shared.lock_held s = false ->
  Shared.set_state now key sd s =
    Ret tt (Shared.set_lock false (Shared.set_storage (insert key
      {| Shared.sd_state := Shared.sd_state sd; Shared.sd_data := Shared.sd_data sd;
         Shared.sd_created_at := Shared.sd_created_at sd; Shared.sd_updated_at := now;
         Shared.sd_expires_at := match Shared.ttl_expiry now s with
                                 | Some e => Some e
                                 | None => Shared.sd_expires_at sd
                                 end |}) (Shared.set_lock true s))).
Proof. intros Hl. unfold Shared.set_state, Shared.with_lock. rewrite Hl. reflexivity. Qed.

Lemma shared_finish_state_run key (s : Shared.Store) :
  Shared.lock_held s = false ->
  Shared.finish_state key s =
    Ret tt (Shared.set_lock false (Shared.set_storage (delete key) (Shared.set_lock true s))).
Proof. intros H. unfold Shared.finish_state, Shared.with_lock. now rewrite H. Qed.

(** The dict object that [set_state(update, st, data)] stores for [key],
    [data] being the dict at [d] with contents [dv]: the record's own dict
    when there is a record, otherwise the caller's dict, or a new [{}]
    when that one is empty. *)
Definition set_state_target (s : Shared.Store) (key : string) (d : Shared.loc) (dv : dict)
    : Shared.loc :=
  match Shared.storage s !! key with
  | Some e => Shared.sd_data e
  | None => match dv with [] => Shared.next s | _ => d end
  end.

(** X: [FSMContext.set_state(update, st, data)] over a [MemoryStorage]
    (lock free) stores [st] with the record's [created_at] ([now] for a
    new record) and an expiry taken only from the storage's [ttl]
    attribute. On an existing record it merges [data] into the record's
    own dict object in place (new keys win, the others are kept) and
    stores that same object; without a record it stores the caller's
    dict object itself (a new [{}] if it is empty). [get_state] then
    reads [st] and [get_data] returns that object. No other record
    changes and no other dict object changes, so another record that
    holds the same dict object reads the merged dict too. *)
Theorem context_set_state_merges now u key st d dv (s : Shared.Store) :
  Keys.fsm_get_key u = inl key -> Shared.lock_held s = false ->
  Shared.dicts s !! d = Some dv -> NoDup (map fst dv) ->
  exists s', Context.set_state now u (Context.SStr st) (Some d) s = Ret tt s' /\
    Shared.lock_held s' = false /\
    Shared.storage s' !! key =
      Some {| Shared.sd_state := st; Shared.sd_data := set_state_target s key d dv;
              Shared.sd_created_at := match Shared.storage s !! key with
                                      | Some e => Shared.sd_created_at e
                                      | None => now
                                      end;
              Shared.sd_updated_at := now; Shared.sd_expires_at := Shared.ttl_expiry now s |} /\
    (forall k, dict_get k (Shared.deref s' (set_state_target s key d dv)) =
       match dict_get k dv with
       | Some v => Some v
       | None => match Shared.storage s !! key with
                 | Some e => dict_get k (Shared.deref s (Shared.sd_data e))
                 | None => None
                 end
       end) /\
    Context.get_state u s' = Ret (Some st) s' /\
    Context.get_data u s' = Ret (set_state_target s key d dv) s' /\
    (forall k, k <> key -> Shared.storage s' !! k = Shared.storage s !! k) /\
    (forall l, l <> set_state_target s key d dv -> Shared.dicts s' !! l = Shared.dicts s !! l).
Proof.
  intros Hk Hl Hd Hnd.
  unfold Context.set_state, Context.with_key. rewrite Hk.
  cbv [bindM mbind M_bind mret M_ret]. rewrite shared_get_state_run.
  unfold set_state_target. destruct (Shared.storage s !! key) as [e|] eqn:He.
  - unfold Shared.update_dict. rewrite shared_set_state_run by exact Hl.
    eexists. split; [reflexivity|]. split; [reflexivity|]. simpl.
    rewrite lookup_insert_eq. split; [unfold Shared.ttl_expiry; simpl; destruct (Shared.ttl_attr s) as [t|]; [destruct (0 <? t)|]; reflexivity|]. split.
    { intros k. unfold Shared.deref at 1. simpl. rewrite lookup_insert_eq.
      unfold Shared.deref at 2. rewrite Hd. apply dict_get_update. exact Hnd. }
    split.
    { unfold Context.get_state, Context.with_key. rewrite Hk.
      unfold try_except. cbv [bindM mbind M_bind mret M_ret]. rewrite shared_get_state_run.
      simpl. rewrite lookup_insert_eq. reflexivity. }
    split.
    { unfold Context.get_data, Context.with_key. rewrite Hk.
      unfold try_except. cbv [bindM mbind M_bind mret M_ret]. rewrite shared_get_state_run.
      simpl. rewrite lookup_insert_eq. reflexivity. }
    split.
    + intros k' Hk'. rewrite lookup_insert_ne by congruence. reflexivity.
    + intros l' Hl'. rewrite lookup_insert_ne by congruence. reflexivity.
  - unfold Shared.or_empty, Shared.deref at 1. rewrite Hd.
    destruct dv as [|kv dv'].
    + unfold Shared.alloc. rewrite shared_set_state_run by exact Hl.
      eexists. split; [reflexivity|]. split; [reflexivity|]. simpl.
      rewrite lookup_insert_eq. split; [unfold Shared.ttl_expiry; simpl; destruct (Shared.ttl_attr s) as [t|]; [destruct (0 <? t)|]; reflexivity|]. split.
      { intros k. unfold Shared.deref. simpl. rewrite lookup_insert_eq. reflexivity. }
      split.
      { unfold Context.get_state, Context.with_key. rewrite Hk.
        unfold try_except. cbv [bindM mbind M_bind mret M_ret]. rewrite shared_get_state_run.
        simpl. rewrite lookup_insert_eq. reflexivity. }
      split.
      { unfold Context.get_data, Context.with_key. rewrite Hk.
        unfold try_except. cbv [bindM mbind M_bind mret M_ret]. rewrite shared_get_state_run.
        simpl. rewrite lookup_insert_eq. reflexivity. }
      split.
      * intros k' Hk'. rewrite lookup_insert_ne by congruence. reflexivity.
      * intros l' Hl'. rewrite lookup_insert_ne by congruence. reflexivity.
    + rewrite shared_set_state_run by exact Hl.
      eexists. split; [reflexivity|]. split; [reflexivity|]. simpl.
      rewrite lookup_insert_eq. split; [unfold Shared.ttl_expiry; simpl; destruct (Shared.ttl_attr s) as [t|]; [destruct (0 <? t)|]; reflexivity|]. split.
      { intros k. unfold Shared.deref. simpl. rewrite Hd. destruct kv as [k0 v0]. simpl.
        case_bool_decide; [reflexivity|]. destruct (dict_get k dv'); reflexivity. }
      split.
      { unfold Context.get_state, Context.with_key. rewrite Hk.
        unfold try_except. cbv [bindM mbind M_bind mret M_ret]. rewrite shared_get_state_run.
        simpl. rewrite lookup_insert_eq. reflexivity. }
      split.
      { unfold Context.get_data, Context.with_key. rewrite Hk.
        unfold try_except. cbv [bindM mbind M_bind mret M_ret]. rewrite shared_get_state_run.
        simpl. rewrite lookup_insert_eq. reflexivity. }
      split.
      * intros k' Hk'. rewrite lookup_insert_ne by congruence. reflexivity.
      * intros l' _. reflexivity.
Qed.

(** Updates from users 7 and 8 in chat 1 (keys [1:7] and [1:8]). *)
Definition update_1_7 : Keys.Update :=
  {| Keys.u_from_user := Keys.Val {| Keys.user_id := 7 |}; Keys.u_message := Keys.Missing;
     Keys.u_chat := Keys.Val {| Keys.chat_id := 1 |} |}.

Definition update_1_8 : Keys.Update :=
  {| Keys.u_from_user := Keys.Val {| Keys.user_id := 8 |}; Keys.u_message := Keys.Missing;
     Keys.u_chat := Keys.Val {| Keys.chat_id := 1 |} |}.

(** An empty [MemoryStorage] and two dicts of the caller: [D = {'x': 1}]
    at address 0 and [{'y': 2}] at address 1. *)
Definition heap_xy : Shared.Store :=
  {| Shared.storage := ∅; Shared.lock_held := false; Shared.ttl_attr := None;
     Shared.dicts := <[0%N := [("x", PInt 1)]]> (<[1%N := [("y", PInt 2)]]> ∅);
     Shared.next := 2%N |}.

(** The store after [set_state(u7, 's', D)] at time 1 and
    [set_state(u8, 's', D)] at time 2: both records hold [D]. *)
Definition shared_two : Shared.Store :=
  {| Shared.storage :=
       <["1:8" := {| Shared.sd_state := "s"; Shared.sd_data := 0%N; Shared.sd_created_at := 2;
                     Shared.sd_updated_at := 2; Shared.sd_expires_at := None |}]>
       (<["1:7" := {| Shared.sd_state := "s"; Shared.sd_data := 0%N; Shared.sd_created_at := 1;
                      Shared.sd_updated_at := 1; Shared.sd_expires_at := None |}]> ∅);
     Shared.lock_held := false; Shared.ttl_attr := None;
     Shared.dicts := <[0%N := [("x", PInt 1)]]> (<[1%N := [("y", PInt 2)]]> ∅);
     Shared.next := 2%N |}.

Lemma context_set_state_merges_witness :
  (Context.set_state 1 update_1_7 (Context.SStr "s") (Some 0%N) ;;
   Context.set_state 2 update_1_8 (Context.SStr "s") (Some 0%N)) heap_xy = Ret tt shared_two /\
  match (Context.set_state 3 update_1_7 (Context.SStr "t") (Some 1%N) ;;
         Context.get_data update_1_8) shared_two with
  | Ret l s' => l = 0%N /\ Shared.deref s' l = [("x", PInt 1); ("y", PInt 2)]
  | _ => False
  end /\
  exists s', Context.set_state 3 update_1_7 (Context.SStr "t") (Some 1%N) shared_two = Ret tt s' /\
    Shared.lock_held s' = false /\
    Shared.storage s' !! "1:7" =
      Some {| Shared.sd_state := "t"; Shared.sd_data := set_state_target shared_two "1:7" 1%N [("y", PInt 2)];
              Shared.sd_created_at := match Shared.storage shared_two !! "1:7" with
                                      | Some e => Shared.sd_created_at e
                                      | None => 3
                                      end;
              Shared.sd_updated_at := 3; Shared.sd_expires_at := Shared.ttl_expiry 3 shared_two |} /\
    (forall k, dict_get k (Shared.deref s' (set_state_target shared_two "1:7" 1%N [("y", PInt 2)])) =
       match dict_get k [("y", PInt 2)] with
       | Some v => Some v
       | None => match Shared.storage shared_two !! "1:7" with
                 | Some e => dict_get k (Shared.deref shared_two (Shared.sd_data e))
                 | None => None
                 end
       end) /\
    Context.get_state update_1_7 s' = Ret (Some "t"%string) s' /\
    Context.get_data update_1_7 s' = Ret (set_state_target shared_two "1:7" 1%N [("y", PInt 2)]) s' /\
    (forall k, k <> "1:7"%string -> Shared.storage s' !! k = Shared.storage shared_two !! k) /\
    (forall l, l <> set_state_target shared_two "1:7" 1%N [("y", PInt 2)] ->
       Shared.dicts s' !! l = Shared.dicts shared_two !! l).
Proof.
  split; [vm_compute; reflexivity|]. split; [vm_compute; split; reflexivity|].
  apply (context_set_state_merges 3 update_1_7 "1:7" "t" 1%N [("y", PInt 2)] shared_two).
  - reflexivity.
  - reflexivity.
  - reflexivity.
  - apply (bool_decide_unpack _). vm_compute. reflexivity.
Defined.

(** X: the reads of [FSMContext] ([get_state], [get_data],
    [get_state_data]) return the stored record as it is (its state and
    its very dict object), also after its [expires_at] has passed, where
    the storage's own [get_state_data] would never return (its expiry
    check deletes under the held lock). *)
Theorem context_reads_ignore_expiry now u key sd (s : Shared.Store) :
  Keys.fsm_get_key u = inl key -> Shared.storage s !! key = Some sd ->
  Context.get_state u s = Ret (Some (Shared.sd_state sd)) s /\
  Context.get_data u s = Ret (Shared.sd_data sd) s /\
  Context.get_state_data u s = Ret (Some (Shared.sd_state sd), Shared.sd_data sd) s /\
  (Shared.lock_held s = false -> Shared.expired_at now sd = true ->
   Shared.get_state_data now key s = Hang).
Proof.
  intros Hk Hs.
  unfold Context.get_state, Context.get_data, Context.get_state_data, Context.with_key.
  rewrite Hk. unfold try_except. cbv [bindM mbind M_bind mret M_ret].
  rewrite !shared_get_state_run, Hs.
  split; [reflexivity|]. split; [reflexivity|]. split; [reflexivity|].
  intros Hl He. unfold Shared.expired_at in He.
  unfold Shared.get_state_data, Shared.with_lock. rewrite Hl.
  unfold Shared._check_expired, Shared._get_state_data, try_except, Shared.finish_state,
    Shared.with_lock.
  cbv [bindM mbind M_bind mret M_ret]. simpl. rewrite Hs.
  destruct (Shared.sd_expires_at sd) as [e|]; [|discriminate He]. rewrite He. reflexivity.
Qed.

(** The record of [1:7] with state [s], data [D], created at 0 and due to
    expire at 5. *)
Definition shared_1_7 : Shared.Store :=
  {| Shared.storage :=
       <["1:7" := {| Shared.sd_state := "s"; Shared.sd_data := 0%N; Shared.sd_created_at := 0;
                     Shared.sd_updated_at := 0; Shared.sd_expires_at := Some 5 |}]> ∅;
     Shared.lock_held := false; Shared.ttl_attr := None;
     Shared.dicts := <[0%N := [("a", PInt 1); ("b", PInt 2)]]> ∅;
     Shared.next := 1%N |}.

Lemma context_reads_ignore_expiry_witness :
  Context.get_state_data update_1_7 shared_1_7 = Ret (Some "s"%string, 0%N) shared_1_7 /\
  Shared.get_state_data 9 "1:7" shared_1_7 = Hang.
Proof.
  destruct (context_reads_ignore_expiry 9 update_1_7 "1:7"
              {| Shared.sd_state := "s"; Shared.sd_data := 0%N; Shared.sd_created_at := 0;
                 Shared.sd_updated_at := 0; Shared.sd_expires_at := Some 5 |} shared_1_7
              eq_refl eq_refl)
    as [_ [_ [H3 H4]]].
  split; [exact H3|exact (H4 eq_refl eq_refl)].
Defined.

(** X: [FSMContext.set_state_data(update, st, **data)] over a
    [MemoryStorage] (lock free) raises [AttributeError] and stores
    nothing when the key has no record ([get_state] returns [None], whose
    [created_at] fails); on an existing record it stores [st] with a new
    dict holding exactly the keyword arguments (the old data is not
    merged), keeping [created_at]. *)
Theorem context_set_state_data_cases now u key st kw (s : Shared.Store) :
  Keys.fsm_get_key u = inl key -> Shared.lock_held s = false ->
  (Shared.storage s !! key = None ->
   Context.set_state_data now u (Context.SStr st) kw s = Exc AttributeError s) /\
  (forall e, Shared.storage s !! key = Some e ->
   exists s', Context.set_state_data now u (Context.SStr st) kw s = Ret tt s' /\
     Shared.storage s' !! key =
       Some {| Shared.sd_state := st; Shared.sd_data := Shared.next s;
               Shared.sd_created_at := Shared.sd_created_at e; Shared.sd_updated_at := now;
               Shared.sd_expires_at := Shared.ttl_expiry now s |} /\
     Shared.dicts s' !! Shared.next s = Some kw /\ Shared.next s' = N.succ (Shared.next s) /\
     (forall k, k <> key -> Shared.storage s' !! k = Shared.storage s !! k) /\
     (forall l, l <> Shared.next s -> Shared.dicts s' !! l = Shared.dicts s !! l)).
Proof.
  intros Hk Hl. unfold Context.set_state_data, Context.with_key. rewrite Hk.
  unfold try_except. cbv [bindM mbind M_bind mret M_ret raise]. rewrite shared_get_state_run.
  split.
  - intros Hs. rewrite Hs. reflexivity.
  - intros e Hs. rewrite Hs. unfold Shared.alloc. rewrite shared_set_state_run by exact Hl.
    eexists. split; [reflexivity|]. simpl. split.
    + rewrite lookup_insert_eq. unfold Shared.ttl_expiry. simpl.
      destruct (Shared.ttl_attr s) as [t|]; [destruct (0 <? t)|]; reflexivity.
    + split; [apply lookup_insert_eq|]. split; [reflexivity|]. split.
      * intros k Hk'. rewrite lookup_insert_ne by congruence. reflexivity.
      * intros l Hl'. rewrite lookup_insert_ne by congruence. reflexivity.
Qed.

(** The empty storage with the dict [D] at address 0. *)
Definition shared_empty : Shared.Store :=
  {| Shared.storage := ∅; Shared.lock_held := false; Shared.ttl_attr := None;
     Shared.dicts := <[0%N := [("a", PInt 1); ("b", PInt 2)]]> ∅; Shared.next := 1%N |}.

Lemma context_set_state_data_cases_witness :
  Context.set_state_data 3 update_1_7 (Context.SStr "t") [("c", PInt 3)] shared_empty =
    Exc AttributeError shared_empty /\
  exists s', Context.set_state_data 3 update_1_7 (Context.SStr "t") [("c", PInt 3)] shared_1_7 = Ret tt s' /\
    Shared.storage s' !! "1:7" =
      Some {| Shared.sd_state := "t"; Shared.sd_data := 1%N; Shared.sd_created_at := 0;
              Shared.sd_updated_at := 3; Shared.sd_expires_at := Shared.ttl_expiry 3 shared_1_7 |} /\
    Shared.dicts s' !! 1%N = Some [("c", PInt 3)] /\ Shared.next s' = 2%N /\
    (forall k, k <> "1:7"%string -> Shared.storage s' !! k = Shared.storage shared_1_7 !! k) /\
    (forall l, l <> 1%N -> Shared.dicts s' !! l = Shared.dicts shared_1_7 !! l).
Proof.
  destruct (context_set_state_data_cases 3 update_1_7 "1:7" "t" [("c", PInt 3)] shared_empty
              eq_refl eq_refl) as [H1 _].
  destruct (context_set_state_data_cases 3 update_1_7 "1:7" "t" [("c", PInt 3)] shared_1_7
              eq_refl eq_refl) as [_ H2].
  split; [exact (H1 eq_refl)|].
  exact (H2 {| Shared.sd_state := "s"; Shared.sd_data := 0%N; Shared.sd_created_at := 0;
               Shared.sd_updated_at := 0; Shared.sd_expires_at := Some 5 |} eq_refl).
Defined.

(** X: [FSMContext.finish(update)] and [set_state(update, None)] remove the
    update's record and nothing else (lock free); afterwards [get_state]
    is [None], and [get_data] and [get_state_data] return a new empty
    dict ([{}] and [(None, {})]). *)
Theorem context_finish_clears now u key d (s : Shared.Store) :
  Keys.fsm_get_key u = inl key -> Shared.lock_held s = false ->
  exists s', Context.finish u s = Ret tt s' /\ Context.set_state now u Context.SNone d s = Ret tt s' /\
    Context.get_state u s' = Ret None s' /\
    (exists s'', Context.get_data u s' = Ret (Shared.next s') s'' /\
       Shared.dicts s'' !! Shared.next s' = Some []) /\
    (exists s'', Context.get_state_data u s' = Ret (None, Shared.next s') s'' /\
       Shared.dicts s'' !! Shared.next s' = Some []) /\
    Shared.storage s' !! key = None /\
    forall k, k <> key -> Shared.storage s' !! k = Shared.storage s !! k.
Proof.
  intros Hk Hl.
  unfold Context.finish, Context.set_state, Context.get_state, Context.get_data,
    Context.get_state_data, Context.with_key.
  rewrite Hk. unfold Shared.delete_state. rewrite shared_finish_state_run by exact Hl.
  eexists. split; [reflexivity|]. split; [reflexivity|].
  unfold try_except. cbv [bindM mbind M_bind mret M_ret]. rewrite !shared_get_state_run.
  simpl. rewrite lookup_delete_eq. split; [reflexivity|].
  split; [eexists; split; [reflexivity|apply lookup_insert_eq]|].
  split; [eexists; split; [reflexivity|apply lookup_insert_eq]|].
  split; [reflexivity|].
  intros k Hk'. rewrite lookup_delete_ne by congruence. reflexivity.
Qed.

Lemma context_finish_clears_witness :
  exists s', Context.finish update_1_7 shared_1_7 = Ret tt s' /\
    Context.set_state 3 update_1_7 Context.SNone None shared_1_7 = Ret tt s' /\
    Context.get_state update_1_7 s' = Ret None s' /\
    (exists s'', Context.get_data update_1_7 s' = Ret (Shared.next s') s'' /\
       Shared.dicts s'' !! Shared.next s' = Some []) /\
    (exists s'', Context.get_state_data update_1_7 s' = Ret (None, Shared.next s') s'' /\
       Shared.dicts s'' !! Shared.next s' = Some []) /\
    Shared.storage s' !! "1:7" = None /\
    forall k, k <> "1:7"%string -> Shared.storage s' !! k = Shared.storage shared_1_7 !! k.
Proof. exact (context_finish_clears 3 update_1_7 "1:7" None shared_1_7 eq_refl eq_refl). Defined.

(** ** [PatchHelper._get_data_for_handler] *)

Lemma dict_get_hdata (args : list string) a (d : list (string * pyval)) :
  dict_get a (map (fun kv => (kv.1, Helper.HData kv.2)) (List.filter (fun kv => str_mem kv.1 args) d)) =
    if str_mem a args then option_map Helper.HData (dict_get a d) else None.
Proof.
  induction d as [|[k v] d IH]; simpl; [destruct (str_mem a args); reflexivity|].
  destruct (str_mem k args) eqn:Ek; simpl.
  - destruct (bool_decide (k = a)) eqn:E.
    + apply bool_decide_eq_true in E. subst k. rewrite Ek. reflexivity.
    + exact IH.
  - rewrite IH. destruct (bool_decide (k = a)) eqn:E; [|reflexivity].
    apply bool_decide_eq_true in E. subst k. rewrite Ek. reflexivity.
Qed.

Lemma helper_kwargs_lookup (arguments : list string) st (d : list (string * pyval)) a :
  NoDup (map fst d) ->
  dict_get a (Helper.get_data_for_handler arguments st d) =
    if str_mem a arguments then
      match dict_get a d with
      | Some v => Some (Helper.HData v)
      | None => if bool_decide (a = "patch_helper") then Some Helper.HHelper
                else if bool_decide (a = "state") then Some (Helper.HState st) else None
      end
    else None.
Proof.
  intros Hnd.
  assert (Hkw2 : dict_get a (if str_mem "patch_helper" arguments
                             then dict_set "patch_helper" Helper.HHelper
                                    (if str_mem "state" arguments then dict_set "state" (Helper.HState st) [] else [])
                             else (if str_mem "state" arguments then dict_set "state" (Helper.HState st) [] else [])) =
     if str_mem a arguments then
       if bool_decide (a = "patch_helper") then Some Helper.HHelper
       else if bool_decide (a = "state") then Some (Helper.HState st) else None
     else None).
  { destruct (str_mem "patch_helper" arguments) eqn:Ep, (str_mem "state" arguments) eqn:Es;
      rewrite ?dict_get_set; simpl;
      (destruct (bool_decide (a = "patch_helper")) eqn:E1;
        [apply bool_decide_eq_true in E1; subst a; rewrite ?Ep; reflexivity
        |apply bool_decide_eq_false in E1]);
      rewrite ?(bool_decide_false ("patch_helper" = a)) by congruence;
      (destruct (bool_decide (a = "state")) eqn:E2;
        [apply bool_decide_eq_true in E2; subst a; rewrite ?Es; reflexivity
        |apply bool_decide_eq_false in E2]);
      rewrite ?(bool_decide_false ("state" = a)) by congruence; simpl;
      destruct (str_mem a arguments); reflexivity. }
  unfold Helper.get_data_for_handler.
  destruct d as [|kv d'] eqn:Ed.
  - rewrite Hkw2. simpl. destruct (str_mem a arguments); reflexivity.
  - rewrite <- Ed in *. rewrite dict_get_update.
    + rewrite dict_get_hdata, Hkw2. destruct (str_mem a arguments); [|reflexivity].
      destruct (dict_get a d); reflexivity.
    + rewrite map_map. simpl.
      apply NoDup_ListNoDup. apply NoDup_ListNoDup in Hnd.
      assert (Hm : map (fun x => x.1) (List.filter (fun kv => str_mem kv.1 arguments) d) =
                   map fst (List.filter (fun kv => str_mem kv.1 arguments) d)) by reflexivity.
      rewrite Hm. apply NoDup_ListNoDup, NoDup_map_fst_filter, NoDup_ListNoDup. exact Hnd.
Qed.

(** X: the keyword arguments [_get_data_for_handler] builds for a handler
    hold only names among the handler's parameters; for such a name [a]
    the value stored under [a] in the helper's data wins, then
    [self.state] for [state] and the helper itself for [patch_helper]. *)
Theorem helper_handler_kwargs (arguments : list string) st (d : list (string * pyval)) a :
  NoDup (map fst d) ->
  dict_get a (Helper.get_data_for_handler arguments st d) =
    if str_mem a arguments then
      match dict_get a d with
      | Some v => Some (Helper.HData v)
      | None => if bool_decide (a = "patch_helper") then Some Helper.HHelper
                else if bool_decide (a = "state") then Some (Helper.HState st) else None
      end
    else None.
Proof. apply helper_kwargs_lookup. Qed.


Lemma helper_handler_kwargs_witness :
  dict_get "state" (Helper.get_data_for_handler ["state"; "x"] "menu" [("state", PInt 1); ("y", PInt 2)]) =
    Some (Helper.HData (PInt 1)) /\
  dict_get "y" (Helper.get_data_for_handler ["state"; "x"] "menu" [("state", PInt 1); ("y", PInt 2)]) = None.
Proof.
  split.
  - rewrite (helper_handler_kwargs ["state"; "x"] "menu" [("state", PInt 1); ("y", PInt 2)] "state").
    + reflexivity.
    + apply (bool_decide_unpack _). vm_compute. reflexivity.
  - rewrite (helper_handler_kwargs ["state"; "x"] "menu" [("state", PInt 1); ("y", PInt 2)] "y").
    + reflexivity.
    + apply (bool_decide_unpack _). vm_compute. reflexivity.
Defined.

(** ** [MongoStorage.list_states] *)

(** X: [MongoStorage.list_states] yields, each once and without changing
    the collection, exactly the keys of the documents whose [state] field
    equals the given state and whose [created_at] field is before the
    given bound once both are truncated to milliseconds (a document
    lacking a queried field is not listed); [expires_at] plays no part,
    so documents past their expiry are listed too. *)
Theorem mongo_list_states_exact st cb (s : Mongo.MongoStorage) :
  exists l, Mongo.list_states st cb s = Ret l s /\ NoDup l /\
    forall k, k ∈ l <-> exists d, Mongo.coll s !! k = Some d /\
      (forall x, st = Some x -> Mongo.d_state d = Some x) /\
      (forall c, cb = Some c -> exists y, Mongo.d_created_at d = Some y /\
                                     Mongo.bson_millis y < Mongo.bson_millis c).
Proof.
  eexists. split; [reflexivity|]. split.
  - apply NoDup_map_fst_filter, NoDup_fst_map_to_list.
  - intros k. rewrite in_keys_filter. simpl. split.
    + intros [d [Hd Hf]]. exists d. split; [exact Hd|]. apply andb_prop in Hf as [H1 H2]. split.
      * intros x ->. destruct (Mongo.d_state d) as [y|]; [|discriminate H1].
        apply bool_decide_eq_true in H1. congruence.
      * intros c ->. destruct (Mongo.d_created_at d) as [y|]; [|discriminate H2].
        exists y. split; [reflexivity|lia].
    + intros [d [Hd [H1 H2]]]. exists d. split; [exact Hd|]. apply andb_true_iff. split.
      * destruct st as [x|]; [|reflexivity]. rewrite (H1 x eq_refl).
        apply bool_decide_eq_true. reflexivity.
      * destruct cb as [c|]; [|reflexivity]. destruct (H2 c eq_refl) as [y [-> Hy]]. lia.
Qed.

Lemma dict_set_keys {V} (k : string) (v : V) d :
  map fst (dict_set k v d) = if bool_decide (k ∈ map fst d) then map fst d else map fst d ++ [k].
Proof.
  induction d as [|[k' v'] d IH]; simpl.
  - reflexivity.
  - destruct (bool_decide (k' = k)) eqn:E.
    + apply bool_decide_eq_true in E. subst k'. simpl.
      rewrite bool_decide_true by apply list_elem_of_here. reflexivity.
    + apply bool_decide_eq_false in E. simpl. rewrite IH.
      destruct (bool_decide (k ∈ map fst d)) eqn:E2.
      * apply bool_decide_eq_true in E2.
        rewrite bool_decide_true by (apply list_elem_of_further; exact E2). reflexivity.
      * apply bool_decide_eq_false in E2.
        rewrite bool_decide_false; [reflexivity|].
        intros H. apply elem_of_cons in H as [H|H]; congruence.
Qed.

Lemma dict_set_NoDup {V} (k : string) (v : V) d :
  NoDup (map fst d) -> NoDup (map fst (dict_set k v d)).
Proof.
  intros H. rewrite dict_set_keys. case_bool_decide as E; [exact H|].
  apply NoDup_app. split; [exact H|]. split; [|apply NoDup_singleton].
  intros x Hx Hx'. apply list_elem_of_singleton in Hx'. subst. contradiction.
Qed.

Lemma dict_update_NoDup {V} (d e : list (string * V)) :
  NoDup (map fst d) -> NoDup (map fst (dict_update d e)).
Proof.
  unfold dict_update. revert d. induction e as [|[k v] e IH]; intros d H; simpl; [exact H|].
  apply IH, dict_set_NoDup, H.
Qed.

(** X: after [update_data] with keyword arguments [kw], a handler
    parameter [a] receives [kw[a]] when [kw] has [a], otherwise the older
    data value, otherwise [self.state] or the helper as before; [get(a,
    default)] reads the same data value, or [default]. *)
Theorem helper_update_data_then_handler (arguments : list string) st (d kw : list (string * pyval))
    a (default : pyval) :
  NoDup (map fst d) -> NoDup (map fst kw) ->
  dict_get a (Helper.get_data_for_handler arguments st (Helper.update_data d kw)) =
    (if str_mem a arguments then
      match dict_get a kw with
      | Some v => Some (Helper.HData v)
      | None =>
          match dict_get a d with
          | Some v => Some (Helper.HData v)
          | None => if bool_decide (a = "patch_helper") then Some Helper.HHelper
                    else if bool_decide (a = "state") then Some (Helper.HState st) else None
          end
      end
    else None) /\
  Helper.get (Helper.update_data d kw) a default =
    match dict_get a kw with Some v => v | None => Helper.get d a default end.
Proof.
  intros Hd Hkw. split.
  - rewrite helper_kwargs_lookup by (apply dict_update_NoDup; exact Hd).
    unfold Helper.update_data. rewrite dict_get_update by exact Hkw.
    destruct (str_mem a arguments); [|reflexivity]. destruct (dict_get a kw); reflexivity.
  - unfold Helper.get, Helper.update_data. rewrite dict_get_update by exact Hkw.
    destruct (dict_get a kw); reflexivity.
Qed.

Lemma helper_update_data_then_handler_witness :
  dict_get "x" (Helper.get_data_for_handler ["x"] "*" (Helper.update_data [("x", PInt 1)] [("x", PInt 2)])) =
    Some (Helper.HData (PInt 2)) /\
  Helper.get (Helper.update_data [("x", PInt 1)] [("y", PInt 2)]) "x" PNone = PInt 1.
Proof.
  destruct (helper_update_data_then_handler ["x"] "*" [("x", PInt 1)] [("x", PInt 2)] "x" PNone)
    as [H1 _].
  - apply (bool_decide_unpack _). vm_compute. reflexivity.
  - apply (bool_decide_unpack _). vm_compute. reflexivity.
  - destruct (helper_update_data_then_handler ["x"] "*" [("x", PInt 1)] [("y", PInt 2)] "x" PNone)
      as [_ H2].
    + apply (bool_decide_unpack _). vm_compute. reflexivity.
    + apply (bool_decide_unpack _). vm_compute. reflexivity.
    + split; [rewrite H1; reflexivity|rewrite H2; reflexivity].
Defined.
